(** * Discovery_Manage-Globus-V3: the router and the endpoint diff tool

    A shallow embedding of [bin/route_globus_v3.py] (class [Router]) and of
    [bin/get_endpoints.py], with the properties of the synchronisation
    pipeline stated and proved over it.

    Conventions of the embedding:
    - a Python [str] is a [string], read as its sequence of code points:
      the texts modelled are those whose code points are below 256; a
      Python [dict] whose iteration order is observable is an
      insertion-ordered association list ([Py.dict]); a database table
      addressed by primary key is a [gmap];
    - a Python exception is a value of [Py.exn]; code that can raise returns
      a [Py.result]; methods of [Router] that mutate [self] are functions in
      the state-and-exception monad [Router.M];
    - the persistence layer, the search index, the HTTP server and the Globus
      client are external: their state is a component of the modelled world
      and the only failures they produce are those decided by that state
      ([DoesNotExist] of [Model.objects.get], [NotFoundError] of
      [Index.get]);
    - readings of the clock (creation times, elapsed seconds) are left out,
      and the texts of library exceptions are given as far as the log
      records need them. *)

From stdpp Require Import gmap strings list fin_maps pretty.
From Stdlib Require Import ZArith Ascii String.

Local Open Scope string_scope.
Local Open Scope Z_scope.

#[global] Arguments String.append !_ _ / : simpl nomatch.

(** ** Python primitives *)

Module Py.

Inductive exn : Type :=
  | IndexError
  | KeyError (key : string)
  | ValueError
  | TypeError
  | AttributeError (obj attr : string)
  | NameError (name : string)
  | UnboundLocalError (name : string)
  | DoesNotExist (model : string)
  | FileNotFoundError (file : string)
  | NotFoundError
  | SystemExit (rc : Z).

Inductive result (A : Type) : Type :=
  | Ok (a : A)
  | Raise (e : exn).
Arguments Ok {A} a.
Arguments Raise {A} e.

#[global] Instance result_ret : MRet result := @Ok.
#[global] Instance result_bind : MBind result := fun A B k r =>
  match r with
  | Ok a => k a
  | Raise e => Raise e
  end.

Definition exn_name (e : exn) : string :=
  match e with
  | IndexError => "IndexError"
  | KeyError _ => "KeyError"
  | ValueError => "ValueError"
  | TypeError => "TypeError"
  | AttributeError _ _ => "AttributeError"
  | NameError _ => "NameError"
  | UnboundLocalError _ => "UnboundLocalError"
  | DoesNotExist _ => "DoesNotExist"
  | FileNotFoundError _ => "FileNotFoundError"
  | NotFoundError => "NotFoundError"
  | SystemExit _ => "SystemExit"
  end.

(** [s.rstrip(chars)] for the characters accepted by [p]. *)
Fixpoint rstrip_by (p : ascii -> bool) (s : string) : string :=
  match s with
  | EmptyString => EmptyString
  | String a s' =>
      match rstrip_by p s' with
      | EmptyString => if p a then EmptyString else String a EmptyString
      | r => String a r
      end
  end.

Definition rstrip (c : ascii) : string -> string := rstrip_by (Ascii.eqb c).

(** [c.isspace()], the whitespace that [str.rstrip()] strips: of the code
    points below 256 these are the controls 9 to 13 and 28 to 31, the
    space, the next line control U+0085 and the no-break space U+00A0. *)
Definition is_space (a : ascii) : bool :=
  let n := nat_of_ascii a in
  ((9 <=? n) && (n <=? 13) || (28 <=? n) && (n <=? 32)
   || (n =? 133) || (n =? 160))%nat.

(** [s.rstrip()] *)
Definition rstrip_ws : string -> string := rstrip_by is_space.

(** [sep.join(l)] *)
Fixpoint join (sep : string) (l : list string) : string :=
  match l with
  | [] => ""
  | [x] => x
  | x :: rest => x ++ sep ++ join sep rest
  end.

(** The text before the first [c] and the text after it, when [c] occurs. *)
Fixpoint cut (c : ascii) (s : string) : option (string * string) :=
  match s with
  | EmptyString => None
  | String a s' =>
      if Ascii.eqb a c then Some (EmptyString, s')
      else match cut c s' with
           | Some (l, r) => Some (String a l, r)
           | None => None
           end
  end.

(** [s.split(c, maxsplit)] for a one-character separator. *)
Fixpoint split_max (c : ascii) (maxsplit : nat) (s : string) : list string :=
  match maxsplit with
  | O => [s]
  | S n =>
      match cut c s with
      | Some (l, r) => l :: split_max c n r
      | None => [s]
      end
  end.

(** [s.split(c)]: a string of length [n] has at most [n] separators. *)
Definition split (c : ascii) (s : string) : list string :=
  split_max c (String.length s) s.

(** [s.replace(old, new, count)] for a non-empty [old]: the first [count]
    occurrences, left to right. The walk is by structural recursion on
    [fuel], one unit per character of [s]. *)
Fixpoint replace_fuel (fuel count : nat) (old new s : string) : string :=
  match fuel, count with
  | O, _ | _, O => s
  | S n, S c =>
      match s with
      | EmptyString => EmptyString
      | String a s' =>
          if String.prefix old s
          then new ++ replace_fuel n c old new
                 (String.substring (String.length old)
                    (String.length s - String.length old) s)
          else String a (replace_fuel n (S c) old new s')
      end
  end.

Definition replace_count (count : nat) (old new s : string) : string :=
  match old with
  | EmptyString => s
  | _ => replace_fuel (String.length s) count old new s
  end.

(** [s.replace(old, new)] for a non-empty [old]. *)
Definition replace (old new s : string) : string :=
  replace_count (String.length s) old new s.

Definition LF : string := String "010"%char EmptyString.

(** [s.splitlines()] for texts whose only line boundary is the line feed. *)
Definition splitlines (s : string) : list string :=
  let parts := split "010"%char s in
  match last parts with
  | Some EmptyString => removelast parts
  | _ => parts
  end.

(** [s.startswith(p)] *)
Definition startswith (p s : string) : bool := String.prefix p s.

(** *** Insertion-ordered dictionaries *)

Definition dict (K V : Type) : Type := list (K * V).

Section Dict.
Context {K V : Type} `{EqDecision K}.

Fixpoint dict_get (k : K) (d : dict K V) : option V :=
  match d with
  | [] => None
  | (k', v) :: d' => if decide (k = k') then Some v else dict_get k d'
  end.

(** [k in d] *)
Definition dict_mem (k : K) (d : dict K V) : bool :=
  match dict_get k d with Some _ => true | None => false end.

(** [d[k] = v]: an existing key keeps its position, a new key goes last. *)
Fixpoint dict_set (k : K) (v : V) (d : dict K V) : dict K V :=
  match d with
  | [] => [(k, v)]
  | (k', v') :: d' =>
      if decide (k = k') then (k, v) :: d' else (k', v') :: dict_set k v d'
  end.

Definition dict_keys (d : dict K V) : list K := map fst d.

(** The dictionary display that unpacks [a] and then [b]. *)
Definition dict_merge (a b : dict K V) : dict K V :=
  fold_left (fun acc kv => dict_set (fst kv) (snd kv) acc) b a.
End Dict.

(** *** Values

    The values JSON can hold (numbers are integers here). *)
#[local] Set Warnings "-register-all".
Inductive pyval : Type :=
  | PNone
  | PBool (b : bool)
  | PInt (n : Z)
  | PStr (s : string)
  | PList (l : list pyval)
  | PDict (d : list (string * pyval)).

(** Truth value of an object. *)
Definition truthy (v : pyval) : bool :=
  match v with
  | PNone => false
  | PBool b => b
  | PInt n => negb (n =? 0)
  | PStr s => negb (String.eqb s "")
  | PList l => match l with [] => false | _ => true end
  | PDict d => match d with [] => false | _ => true end
  end.

(** [a or b] *)
Definition py_or (a b : pyval) : pyval := if truthy a then a else b.

(** Hashable values as dictionary keys: [True] and [1] are the same key. *)
Inductive hkey : Type :=
  | HNone
  | HInt (n : Z)
  | HStr (s : string).

#[global] Instance hkey_eq_dec : EqDecision hkey.
Proof. solve_decision. Defined.

(** [hash(v)] raises [TypeError] on lists and dictionaries. *)
Definition py_hash_key (v : pyval) : result hkey :=
  match v with
  | PNone => Ok HNone
  | PBool b => Ok (HInt (if b then 1 else 0))
  | PInt n => Ok (HInt n)
  | PStr s => Ok (HStr s)
  | PList _ | PDict _ => Raise TypeError
  end.

(** [v[k]] for a string [k]: only a dictionary can be subscripted by a
    string. *)
Definition py_getitem (v : pyval) (k : string) : result pyval :=
  match v with
  | PDict d =>
      match dict_get k d with
      | Some x => Ok x
      | None => Raise (KeyError k)
      end
  | _ => Raise TypeError
  end.

(** [iter(v)]: the elements of a list, the keys of a dictionary, the
    characters of a string. *)
Definition py_iter (v : pyval) : result (list pyval) :=
  match v with
  | PList l => Ok l
  | PDict d => Ok (map (fun kv => PStr (fst kv)) d)
  | PStr s => Ok (map (fun a => PStr (String a EmptyString)) (list_ascii_of_string s))
  | _ => Raise TypeError
  end.

(** [str(v)]; inside a container a string is quoted (its escapes are not
    modelled). *)
Fixpoint py_repr (v : pyval) : string :=
  match v with
  | PNone => "None"
  | PBool b => if b then "True" else "False"
  | PInt n => pretty n
  | PStr s => "'" ++ s ++ "'"
  | PList l => "[" ++ join ", " (map py_repr l) ++ "]"
  | PDict d =>
      "{" ++ join ", " (map (fun kv => "'" ++ fst kv ++ "': " ++ py_repr (snd kv)) d) ++ "}"
  end.

Definition py_str (v : pyval) : string :=
  match v with
  | PStr s => s
  | _ => py_repr v
  end.

(** A value used where only a [str] works. *)
Definition as_str (v : pyval) : result string :=
  match v with
  | PStr s => Ok s
  | _ => Raise TypeError
  end.

(** [d.get(k)] and [d.get(k, default)] *)
Definition py_get (v : pyval) (k : string) (default : pyval) : result pyval :=
  match v with
  | PDict d =>
      match dict_get k d with
      | Some x => Ok x
      | None => Ok default
      end
  | _ => Raise (AttributeError "object" "get")
  end.

(** [a == b]: [True == 1]; lists compare element by element, dictionaries
    key by key whatever their order. *)
Fixpoint py_eq (a b : pyval) : bool :=
  match a, b with
  | PNone, PNone => true
  | PBool x, PBool y => Bool.eqb x y
  | PBool x, PInt n | PInt n, PBool x => n =? (if x then 1 else 0)
  | PInt n, PInt m => n =? m
  | PStr s, PStr t => String.eqb s t
  | PList l, PList m =>
      (fix go (l m : list pyval) : bool :=
         match l, m with
         | [], [] => true
         | x :: l', y :: m' => py_eq x y && go l' m'
         | _, _ => false
         end) l m
  | PDict d, PDict e =>
      (List.length d =? List.length e)%nat &&
      (fix go (d : list (string * pyval)) : bool :=
         match d with
         | [] => true
         | (k, x) :: d' =>
             match dict_get k e with
             | Some y => py_eq x y && go d'
             | None => false
             end
         end) d
  | _, _ => false
  end.

End Py.

(** ** The router, [bin/route_globus_v3.py] *)

Module Router.
Import Py.

(** *** Data *)

(** The attributes of [urllib.parse.ParseResult] the router reads. *)
Record url : Type := mkUrl {
  scheme : string;
  hostname : string;
  path : string;
  geturl : string;
}.

(** Library functions the router calls and this development does not fix:
    [urllib.parse.urlparse], [json.dumps] and the reStructuredText
    [formatter] of django_markup (rendered text and the text of its
    warning stream). *)
Class Lib : Type := {
  urlparse : string -> url;
  json_dumps : pyval -> string;
  formatter : string -> string * string;
}.

(** A value of a step or catalogue dictionary: what JSON or the database
    gave, or a parsed URL stored by [Setup]. *)
Inductive cfgval : Type :=
  | CVal (v : pyval)
  | CUrl (u : url).

Definition stepconf : Type := dict string cfgval.

(** Rows of the warehouse tables (the clock reading [CreationTime] is left
    out; [Validity] is in days). *)
Record ResourceV3Local : Type := mkLocal {
  L_ID : string;
  L_Validity : Z;
  L_Affiliation : string;
  L_LocalID : string;
  L_LocalType : string;
  L_LocalURL : string;
  L_CatalogMetaURL : string;
  L_EntityJSON : pyval;
}.

Record ResourceV3 : Type := mkResource {
  R_ID : string;
  R_Affiliation : string;
  R_LocalID : string;
  R_QualityLevel : string;
  R_Name : string;
  R_ResourceGroup : string;
  R_Type : string;
  R_ShortDescription : pyval;
  R_ProviderID : option string;
  R_Description : option string;
  R_Keywords : string;
  R_Audience : string;
}.

Record ResourceV3Relation : Type := mkRelation {
  Rel_ID : string;
  FirstResourceID : string;
  SecondResourceID : string;
  RelationType : string;
}.

Inductive level : Type := DEBUG | INFO | WARNING | ERROR | CRITICAL.

(** A file: its text and, when the text is JSON, the value [json.loads]
    gives for it. *)
Record file : Type := mkFile {
  text : string;
  json : option pyval;
}.

(** One call of [ProcessingActivity.FinishActivity]: the activity id, the
    return code and the message. *)
Record activity : Type := mkActivity {
  pa_id : string;
  pa_rc : pyval;
  pa_message : string;
}.

(** The router object and the world it acts on. *)
Record state : Type := mkState {
  ESEARCH : bool; (* a search index is configured *)
  EXTRA_ENDPOINTS_FILE : option string; (* the entry of [self.config], if any *)
  WAREHOUSE_API_PREFIX : string;
  memory : dict string (dict hkey pyval);
  GLOBUS_NAME_URNMAP : dict hkey string;
  HTTP_CACHE : dict string pyval;
  URL_USE_COUNT : dict string nat;
  STEPS : list stepconf;
  STATS : gmap string nat; (* a [Counter] *)
  log : list (level * string); (* the records handed to the logger *)
  Locals : gmap string ResourceV3Local; (* table [ResourceV3Local], by primary key *)
  Resources : gmap string ResourceV3; (* table [ResourceV3] *)
  Relations : gmap string ResourceV3Relation; (* table [ResourceV3Relation] *)
  Index : gmap string ResourceV3; (* the search index [ResourceV3Index] *)
  files : gmap string file; (* the file system *)
  server : string -> string -> option pyval; (* host and path to the body, [None]: not JSON *)
  requests : list string; (* URLs of the GET requests sent *)
  endpoint_search : pyval; (* [endpoint_list.data] of the Globus client *)
  get_endpoint : string -> result pyval; (* [client.get_endpoint] *)
  activities : list activity; (* calls of [FinishActivity] *)
}.

Definition set_memory f (s : state) : state :=
  mkState (ESEARCH s) (EXTRA_ENDPOINTS_FILE s) (WAREHOUSE_API_PREFIX s)
    (f (memory s)) (GLOBUS_NAME_URNMAP s) (HTTP_CACHE s) (URL_USE_COUNT s)
    (STEPS s) (STATS s) (log s) (Locals s) (Resources s) (Relations s)
    (Index s) (files s) (server s) (requests s) (endpoint_search s)
    (get_endpoint s) (activities s).
Definition set_GLOBUS_NAME_URNMAP f (s : state) : state :=
  mkState (ESEARCH s) (EXTRA_ENDPOINTS_FILE s) (WAREHOUSE_API_PREFIX s)
    (memory s) (f (GLOBUS_NAME_URNMAP s)) (HTTP_CACHE s) (URL_USE_COUNT s)
    (STEPS s) (STATS s) (log s) (Locals s) (Resources s) (Relations s)
    (Index s) (files s) (server s) (requests s) (endpoint_search s)
    (get_endpoint s) (activities s).
Definition set_HTTP_CACHE f (s : state) : state :=
  mkState (ESEARCH s) (EXTRA_ENDPOINTS_FILE s) (WAREHOUSE_API_PREFIX s)
    (memory s) (GLOBUS_NAME_URNMAP s) (f (HTTP_CACHE s)) (URL_USE_COUNT s)
    (STEPS s) (STATS s) (log s) (Locals s) (Resources s) (Relations s)
    (Index s) (files s) (server s) (requests s) (endpoint_search s)
    (get_endpoint s) (activities s).
Definition set_URL_USE_COUNT f (s : state) : state :=
  mkState (ESEARCH s) (EXTRA_ENDPOINTS_FILE s) (WAREHOUSE_API_PREFIX s)
    (memory s) (GLOBUS_NAME_URNMAP s) (HTTP_CACHE s) (f (URL_USE_COUNT s))
    (STEPS s) (STATS s) (log s) (Locals s) (Resources s) (Relations s)
    (Index s) (files s) (server s) (requests s) (endpoint_search s)
    (get_endpoint s) (activities s).
Definition set_STEPS f (s : state) : state :=
  mkState (ESEARCH s) (EXTRA_ENDPOINTS_FILE s) (WAREHOUSE_API_PREFIX s)
    (memory s) (GLOBUS_NAME_URNMAP s) (HTTP_CACHE s) (URL_USE_COUNT s)
    (f (STEPS s)) (STATS s) (log s) (Locals s) (Resources s) (Relations s)
    (Index s) (files s) (server s) (requests s) (endpoint_search s)
    (get_endpoint s) (activities s).
Definition set_STATS f (s : state) : state :=
  mkState (ESEARCH s) (EXTRA_ENDPOINTS_FILE s) (WAREHOUSE_API_PREFIX s)
    (memory s) (GLOBUS_NAME_URNMAP s) (HTTP_CACHE s) (URL_USE_COUNT s)
    (STEPS s) (f (STATS s)) (log s) (Locals s) (Resources s) (Relations s)
    (Index s) (files s) (server s) (requests s) (endpoint_search s)
    (get_endpoint s) (activities s).
Definition set_log f (s : state) : state :=
  mkState (ESEARCH s) (EXTRA_ENDPOINTS_FILE s) (WAREHOUSE_API_PREFIX s)
    (memory s) (GLOBUS_NAME_URNMAP s) (HTTP_CACHE s) (URL_USE_COUNT s)
    (STEPS s) (STATS s) (f (log s)) (Locals s) (Resources s) (Relations s)
    (Index s) (files s) (server s) (requests s) (endpoint_search s)
    (get_endpoint s) (activities s).
Definition set_Locals f (s : state) : state :=
  mkState (ESEARCH s) (EXTRA_ENDPOINTS_FILE s) (WAREHOUSE_API_PREFIX s)
    (memory s) (GLOBUS_NAME_URNMAP s) (HTTP_CACHE s) (URL_USE_COUNT s)
    (STEPS s) (STATS s) (log s) (f (Locals s)) (Resources s) (Relations s)
    (Index s) (files s) (server s) (requests s) (endpoint_search s)
    (get_endpoint s) (activities s).
Definition set_Resources f (s : state) : state :=
  mkState (ESEARCH s) (EXTRA_ENDPOINTS_FILE s) (WAREHOUSE_API_PREFIX s)
    (memory s) (GLOBUS_NAME_URNMAP s) (HTTP_CACHE s) (URL_USE_COUNT s)
    (STEPS s) (STATS s) (log s) (Locals s) (f (Resources s)) (Relations s)
    (Index s) (files s) (server s) (requests s) (endpoint_search s)
    (get_endpoint s) (activities s).
Definition set_Relations f (s : state) : state :=
  mkState (ESEARCH s) (EXTRA_ENDPOINTS_FILE s) (WAREHOUSE_API_PREFIX s)
    (memory s) (GLOBUS_NAME_URNMAP s) (HTTP_CACHE s) (URL_USE_COUNT s)
    (STEPS s) (STATS s) (log s) (Locals s) (Resources s) (f (Relations s))
    (Index s) (files s) (server s) (requests s) (endpoint_search s)
    (get_endpoint s) (activities s).
Definition set_Index f (s : state) : state :=
  mkState (ESEARCH s) (EXTRA_ENDPOINTS_FILE s) (WAREHOUSE_API_PREFIX s)
    (memory s) (GLOBUS_NAME_URNMAP s) (HTTP_CACHE s) (URL_USE_COUNT s)
    (STEPS s) (STATS s) (log s) (Locals s) (Resources s) (Relations s)
    (f (Index s)) (files s) (server s) (requests s) (endpoint_search s)
    (get_endpoint s) (activities s).
Definition set_files f (s : state) : state :=
  mkState (ESEARCH s) (EXTRA_ENDPOINTS_FILE s) (WAREHOUSE_API_PREFIX s)
    (memory s) (GLOBUS_NAME_URNMAP s) (HTTP_CACHE s) (URL_USE_COUNT s)
    (STEPS s) (STATS s) (log s) (Locals s) (Resources s) (Relations s)
    (Index s) (f (files s)) (server s) (requests s) (endpoint_search s)
    (get_endpoint s) (activities s).
Definition set_requests f (s : state) : state :=
  mkState (ESEARCH s) (EXTRA_ENDPOINTS_FILE s) (WAREHOUSE_API_PREFIX s)
    (memory s) (GLOBUS_NAME_URNMAP s) (HTTP_CACHE s) (URL_USE_COUNT s)
    (STEPS s) (STATS s) (log s) (Locals s) (Resources s) (Relations s)
    (Index s) (files s) (server s) (f (requests s)) (endpoint_search s)
    (get_endpoint s) (activities s).
Definition set_activities f (s : state) : state :=
  mkState (ESEARCH s) (EXTRA_ENDPOINTS_FILE s) (WAREHOUSE_API_PREFIX s)
    (memory s) (GLOBUS_NAME_URNMAP s) (HTTP_CACHE s) (URL_USE_COUNT s)
    (STEPS s) (STATS s) (log s) (Locals s) (Resources s) (Relations s)
    (Index s) (files s) (server s) (requests s) (endpoint_search s)
    (get_endpoint s) (f (activities s)).

(** *** The state-and-exception monad

    A computation returns a value or raises, and in both cases leaves a
    state: what was written before an exception stays written. *)
Definition M (A : Type) : Type := state -> result A * state.

Definition ret {A} (a : A) : M A := fun s => (Ok a, s).
Definition bind {A B} (m : M A) (k : A -> M B) : M B :=
  fun s => match m s with
           | (Ok a, s') => k a s'
           | (Raise e, s') => (Raise e, s')
           end.
Definition raise {A} (e : exn) : M A := fun s => (Raise e, s).
Definition gets {A} (f : state -> A) : M A := fun s => (Ok (f s), s).
Definition modify (f : state -> state) : M unit := fun s => (Ok tt, f s).
Definition lift {A} (r : result A) : M A := fun s => (r, s).

#[global] Instance M_ret : MRet M := @ret.
#[global] Instance M_bind : MBind M := fun A B k m => bind m k.

(** [except Exception] does not catch [SystemExit]; a bare [except] does. *)
Definition is_Exception (e : exn) : bool :=
  match e with SystemExit _ => false | _ => true end.

(** [try: m  except Exception as e: h e  else: k] *)
Definition try_except_else {A B} (m : M A) (h : exn -> M B) (k : A -> M B) : M B :=
  fun s => match m s with
           | (Ok a, s') => k a s'
           | (Raise e, s') => if is_Exception e then h e s' else (Raise e, s')
           end.

Definition try_except {A} (m : M A) (h : exn -> M A) : M A :=
  try_except_else m h ret.

(** [try: m  except: h] *)
Definition try_bare {A} (m : M A) (h : M A) : M A :=
  fun s => match m s with
           | (Ok a, s') => (Ok a, s')
           | (Raise _, s') => h s'
           end.

(** [for x in l: body x] *)
Fixpoint for_each {A} (l : list A) (body : A -> M unit) : M unit :=
  match l with
  | [] => ret tt
  | x :: l' => body x;; for_each l' body
  end.

Definition logger (lv : level) (msg : string) : M unit :=
  modify (set_log (fun l => (l ++ [(lv, msg)])%list)).

(** [str(e)], as far as the libraries' texts are needed. *)
Definition exn_msg (e : exn) : string :=
  match e with
  | KeyError k => "'" ++ k ++ "'"
  | AttributeError o a => "'" ++ o ++ "' object has no attribute '" ++ a ++ "'"
  | NameError n => "name '" ++ n ++ "' is not defined"
  | UnboundLocalError n =>
      "local variable '" ++ n ++ "' referenced before assignment"
  | DoesNotExist m => m ++ " matching query does not exist."
  | SystemExit rc => pretty rc
  | _ => exn_name e
  end.

(** [self.STATS.update({key})] and [self.STATS[key]] *)
Definition STATS_count (key : string) (s : state) : nat :=
  default 0%nat (STATS s !! key).
Definition STATS_update (key : string) : M unit :=
  modify (fun s => set_STATS (fun c => <[key := S (default 0%nat (c !! key))]> c) s).

(** [Router.exit(rc)] *)
Definition exit {A} (rc : Z) : M A :=
  (if rc =? 0 then ret tt else logger ERROR ("Exiting with rc=" ++ pretty rc));;
  raise (SystemExit rc).

(** [Router.format_GLOBALURN], variadic: [newargs[0]] raises [IndexError] on
    an empty argument list. *)
Definition format_GLOBALURN (args : list string) : result string :=
  match args with
  | [] => Raise IndexError
  | a :: rest => Ok (join ":" (rstrip ":" a :: rest))
  end.

(** *** Configuration *)

(** [conf[k]] *)
Definition cfg_item (conf : stepconf) (k : string) : result cfgval :=
  match dict_get k conf with
  | Some v => Ok v
  | None => Raise (KeyError k)
  end.

(** [conf[k]] used as a [str]. *)
Definition cfg_str (conf : stepconf) (k : string) : result string :=
  match dict_get k conf with
  | Some (CVal (PStr x)) => Ok x
  | Some _ => Raise TypeError
  | None => Raise (KeyError k)
  end.

(** [conf[k]] used as a parsed URL. *)
Definition cfg_url (conf : stepconf) (k : string) : result url :=
  match dict_get k conf with
  | Some (CUrl u) => Ok u
  | Some _ => Raise (AttributeError "object" "scheme")
  | None => Raise (KeyError k)
  end.

Definition str_in (x : string) (l : list string) : bool :=
  existsb (String.eqb x) l.

(** The body of the loop over [self.config['STEPS']] in [Router.Setup]. The
    catalogue table [self.CATALOGS] is read from the database before the
    loop and is an argument here. *)
Definition Setup_step `{Lib} (CATALOGS : dict string stepconf) (stepconf0 : stepconf)
  : M unit :=
  match dict_get "CATALOGURN" stepconf0 with
  | None => logger ERROR "Step CATALOGURN is missing or invalid";; exit 1
  | Some urn =>
      match (match urn with
             | CVal (PStr id) => Ok (dict_get id CATALOGS)
             | CVal (PList _) | CVal (PDict _) => Raise TypeError
             | _ => Ok None
             end) with
      | Raise e => raise e
      | Ok None =>
          logger ERROR "Step CATALOGURN is not define in Resource Catalogs";; exit 1
      | Ok (Some myCAT) =>
          api ← lift (cfg_item myCAT "CatalogAPIURL");
          let stepconf1 := dict_set "SOURCEURL" api stepconf0 in
          match api with
          | CVal (PStr SOURCEURL) =>
              (* if use the same CatalogAPIURL, count and keep *)
              modify (set_URL_USE_COUNT (fun c =>
                match dict_get SOURCEURL c with
                | Some n => dict_set SOURCEURL (S n) c
                | None => dict_set SOURCEURL 1%nat c
                end));;
              let SRCURL := urlparse SOURCEURL in
              if negb (str_in (scheme SRCURL) ["file"; "http"; "https"])
              then logger ERROR "Source not {file, http, https}";; exit 1
              else
                let stepconf2 := dict_set "SRCURL" (CUrl SRCURL) stepconf1 in
                match dict_get "DESTINATION" stepconf2 with
                | Some (CVal (PStr DESTINATION)) =>
                    let DSTURL := urlparse DESTINATION in
                    if negb (str_in (scheme DSTURL) ["file"; "analyze"; "function"; "memory"])
                    then logger ERROR "Destination is not one of {file, analyze, function, memory}";;
                         exit 1
                    else
                      let stepconf3 := dict_set "DSTURL" (CUrl DSTURL) stepconf2 in
                      if str_in (scheme SRCURL) ["file"] && str_in (scheme DSTURL) ["file"]
                      then logger ERROR "Source and Destination can not both be a {file}";;
                           exit 1
                      else
                        (* Merge CATALOG config and STEP config, with the latter
                           taking precendence *)
                        modify (set_STEPS (fun l =>
                          (l ++ [dict_merge myCAT stepconf3])%list))
                | _ => logger ERROR "Step DESTINATION is missing or invalid";; exit 1
                end
          | CVal (PList _) | CVal (PDict _) => raise TypeError
          | _ => logger ERROR "Step SOURCE is missing or invalid";; exit 1
          end
      end
  end.

(** [Router.Setup], from "Initialize application variables" on. *)
Definition Setup `{Lib} (CATALOGS : dict string stepconf) (config_STEPS : list stepconf)
  : M unit :=
  modify (set_memory (fun _ => []));;
  modify (set_GLOBUS_NAME_URNMAP (fun _ => []));;
  modify (set_HTTP_CACHE (fun _ => []));;
  modify (set_URL_USE_COUNT (fun _ => []));;
  modify (set_STEPS (fun _ => []));;
  for_each config_STEPS (Setup_step CATALOGS).

Definition WAREHOUSE_API_VERSION : string := "v3".
Definition WAREHOUSE_CATALOG : string := "ResourceV3".
Definition Affiliation : string := "xsede.org".
Definition DefaultValidity : Z := 14.

(** [Router.CATALOGURN_to_URL] *)
Definition CATALOGURN_to_URL (prefix id : string) : string :=
  prefix ++ "/resource-api/" ++ WAREHOUSE_API_VERSION ++ "/catalog/id/" ++ id ++ "/".

(** *** Sources *)

(** A content envelope: [{contype: content}]. *)
Definition envelope : Type := dict string pyval.

(** [Router.Get_HTTP]: the result is [None] when the body is not JSON. *)
Definition Get_HTTP (u : url) (contype : string) : M (option envelope) :=
  (* return previously saved data if the source is the same *)
  let data_cache_key := contype ++ ":" ++ geturl u in
  cache ← gets HTTP_CACHE;
  match dict_get data_cache_key cache with
  | Some cached => ret (Some [(contype, cached)])
  | None =>
      modify (set_requests (fun r => (r ++ [geturl u])%list));;
      logger DEBUG ("HTTP GET " ++ geturl u);;
      body ← gets (fun s => server s (hostname u) (path u));
      logger DEBUG "HTTP RESP";;
      match body with
      | None =>
          logger ERROR "Response not in expected JSON format";;
          ret None
      | Some content =>
          (* cache content only for the url used more than once *)
          counts ← gets URL_USE_COUNT;
          match dict_get (geturl u) counts with
          | Some n =>
              if (1 <? n)%nat
              then modify (set_HTTP_CACHE (dict_set data_cache_key content))
              else ret tt
          | None => ret tt
          end;;
          ret (Some [(contype, content)])
      end
  end.

(** [open(name)] for reading. *)
Definition open (name : string) : M file :=
  fs ← gets files;
  match fs !! name with
  | Some f => ret f
  | None => raise (FileNotFoundError name)
  end.

(** [Router.Get_Collections]: [content] is bound in the [else] branch of the
    [try] only. *)
Definition Get_Collections (u : url) (contype : string) : M envelope :=
  endpoint_list_data ← gets endpoint_search;
  opened ← try_bare
    (name ← gets EXTRA_ENDPOINTS_FILE;
     match name with
     | None => raise (KeyError "EXTRA_ENDPOINTS_FILE")
     | Some n => f ← open n; ret (Some (splitlines (text f)))
     end)
    (ret None);
  match opened with
  | None => raise (UnboundLocalError "content")
  | Some extra_endpoint_ids =>
      (* construct list of extra endpoints *)
      for_each extra_endpoint_ids (fun ep =>
        _ ← (fun s => (get_endpoint s ep, s)) : M pyval; ret tt);;
      ret [(contype, endpoint_list_data)]
  end.

(** [Router.Read_CACHE] *)
Definition Read_CACHE (name contype : string) : M envelope :=
  f ← open name;
  match json f with
  | Some content =>
      logger INFO ("Read and parsed " ++ pretty (String.length (text f))
                   ++ " bytes from file=" ++ name);;
      ret [(contype, content)]
  | None =>
      logger ERROR ("Error parsing file=" ++ name);;
      exit 1
  end.

(** *** Sinks *)

(** [Router.Analyze_CONTENT] *)
Definition Analyze_CONTENT (content : envelope) : M (pyval * string) :=
  ret (PInt 0, "").

(** [content[contype]] *)
Definition envelope_item (content : envelope) (contype : string) : result pyval :=
  match dict_get contype content with
  | Some v => Ok v
  | None => Raise (KeyError contype)
  end.

(** [self.memory[contype][key] = item] *)
Definition memory_store (contype : string) (key : hkey) (item : pyval) : M unit :=
  mem ← gets memory;
  match dict_get contype mem with
  | Some table =>
      modify (set_memory (dict_set contype (dict_set key item table)))
  | None => raise (KeyError contype)
  end.

(** [Router.Write_MEMORY] *)
Definition Write_MEMORY (content : envelope) (contype conkey : string)
  : M (pyval * string) :=
  (* Stores in a dictionary for reference by other processing steps *)
  modify (set_memory (fun m => if dict_mem contype m then m else dict_set contype [] m));;
  seq ← lift (envelope_item content contype);
  items ← lift (py_iter seq);
  for_each items (fun item =>
    try_bare
      (v ← lift (py_getitem item conkey);
       key ← lift (py_hash_key v);
       memory_store contype key item)
      (ret tt));;
  ret (PInt 0, "").

(** [Router.Write_CACHE] *)
Definition Write_CACHE `{Lib} (name : string) (content : envelope) : M (pyval * string) :=
  let data := json_dumps (PDict content) in
  modify (set_files (fun fs => <[name := mkFile data (Some (PDict content))]> fs));;
  logger INFO ("Serialized and wrote " ++ pretty (String.length data)
               ++ " bytes to file=" ++ name);;
  ret (PInt 0, "").

(** *** The warehouse *)

(** [ResourceV3Index.get(id = URN).delete()] *)
Definition Index_get_delete (URN : string) : M unit :=
  idx ← gets Index;
  match idx !! URN with
  | Some _ => modify (set_Index (delete URN))
  | None => raise NotFoundError
  end.

(** [ResourceV3Relation.objects.filter(FirstResourceID__exact = URN).delete()] *)
Definition Relation_filter_delete (URN : string) : M unit :=
  modify (set_Relations (filter (fun kv => FirstResourceID kv.2 ≠ URN))).

(** [ResourceV3.objects.get(pk = URN).delete()] *)
Definition Resource_get_delete (URN : string) : M unit :=
  tbl ← gets Resources;
  match tbl !! URN with
  | Some _ => modify (set_Resources (delete URN))
  | None => raise (DoesNotExist "ResourceV3")
  end.

(** [ResourceV3Local.objects.get(pk = URN).delete()] *)
Definition Local_get_delete (URN : string) : M unit :=
  tbl ← gets Locals;
  match tbl !! URN with
  | Some _ => modify (set_Locals (delete URN))
  | None => raise (DoesNotExist "ResourceV3Local")
  end.

(** The body of the loop of [Router.Delete_OLD]. *)
Definition Delete_OLD_one (me URN : string) : M unit :=
  es ← gets ESEARCH;
  (if (es : bool)
   then try_except (Index_get_delete URN)
          (fun e => logger ERROR (exn_name e ++ " deleting Elastic id=" ++ URN
                                  ++ ": " ++ exn_msg e))
   else ret tt);;
  try_except_else
    (Relation_filter_delete URN;;
     Resource_get_delete URN;;
     Local_get_delete URN)
    (fun e => logger ERROR (exn_name e ++ " deleting ID=" ++ URN ++ ": " ++ exn_msg e))
    (fun _ => logger INFO (me ++ " deleted ID=" ++ URN);;
              STATS_update (me ++ ".Delete")).

(** [Router.Delete_OLD]: delete old items (those in [cur]) that weren't
    updated (those in [new]). *)
Definition Delete_OLD {V W} (me : string) (cur : dict string V) (new : dict string W)
  : M unit :=
  for_each (List.filter (fun id => negb (dict_mem id new)) (dict_keys cur))
    (Delete_OLD_one me).

(** [Router.Log_STEP] (the elapsed seconds are not modelled). *)
Definition Log_STEP (me : string) : M unit :=
  u ← gets (STATS_count (me ++ ".Update"));
  d ← gets (STATS_count (me ++ ".Delete"));
  k ← gets (STATS_count (me ++ ".Skip"));
  logger INFO ("Processed " ++ me ++ ": " ++ pretty u ++ "/updates, "
               ++ pretty d ++ "/deletes, " ++ pretty k ++ "/skipped").

(** *** [class Format_Description] *)

Record Format_Description : Type := mkFD {
  initial : option string;
  added : option string;
}.

Definition FD_init (value : pyval) : result Format_Description :=
  match value with
  | PNone => Ok (mkFD None None)
  | PStr v =>
      let clean_value := rstrip_ws v in
      if (String.length clean_value =? 0)%nat then Ok (mkFD None None)
      else Ok (mkFD (Some clean_value) None)
  | _ => Raise (AttributeError "object" "rstrip")
  end.

Definition FD_append (value : string) (d : Format_Description) : Format_Description :=
  let clean_value := rstrip_ws value in
  if (0 <? String.length clean_value)%nat
  then match added d with
       | None => mkFD (initial d) (Some clean_value)
       | Some a => mkFD (initial d) (Some (a ++ LF ++ clean_value))
       end
  else d.

Definition opt_truthy (o : option string) : bool :=
  match o with
  | Some x => negb (String.eqb x "")
  | None => false
  end.

(** Forced blank line used to start a markup list. *)
Definition FD_blank_line (d : Format_Description) : Format_Description :=
  if opt_truthy (initial d) || opt_truthy (added d)
  then match added d with
       | Some a => if negb (String.eqb a "")
                   then mkFD (initial d) (Some (a ++ LF))
                   else mkFD (initial d) (Some LF)
       | None => mkFD (initial d) (Some LF)
       end
  else d.

Definition fmt_opt (o : option string) : string :=
  match o with Some x => x | None => "None" end.

Definition FD_html `{Lib} (ID : string) (d : Format_Description) : M (option string) :=
  match initial d, added d with
  | None, None => ret None
  | _, _ =>
      let initial_html :=
        match initial d with
        | Some i => negb (String.eqb i "") && String.eqb (String.substring 0 1 i) "<"
        | None => false
        end in
      let formatin :=
        if initial_html then "%%INITIAL%%" ++ fmt_opt (added d)
        else (match initial d with Some i => i | None => "" end) ++ fmt_opt (added d) in
      let '(formatout, warnings) := formatter formatin in
      (if negb (String.eqb warnings "")
       then (if negb (String.eqb ID "")
             then logger WARNING ("markup warnings for ID: " ++ ID)
             else ret tt);;
            for_each (splitlines warnings) (fun line => logger WARNING ("markup: " ++ line))
       else ret tt);;
      ret (Some (if initial_html
                 then replace_count 1 "%%INITIAL%%" (fmt_opt (initial d)) formatout
                 else formatout))
  end.

(** *** [Router.Write_Globus_Collections] *)

(** The name of the function and of its counters. *)
Definition me_Write_Globus_Collections : string :=
  "Write_Globus_Collections to " ++ WAREHOUSE_CATALOG ++ "(Software:Online Service)".

(** Attribute lookup on a [str]: the one method used is [format]. *)
Definition str_method (name : string) : result unit :=
  if String.eqb name "format" then Ok tt else Raise (AttributeError "str" name).

(** [item.data]: the items are the Globus client's response objects, which
    carry the document they wrap; the embedding identifies the two. *)
Definition attr_data (item : pyval) : result pyval :=
  match item with
  | PDict _ => Ok item
  | _ => Raise (AttributeError "object" "data")
  end.

(** [v is not None and v is not ''] *)
Definition given (v : pyval) : bool :=
  match v with
  | PNone => false
  | PStr x => negb (String.eqb x "")
  | _ => true
  end.

(** How the body of the loop over the items ends: it goes on to the next
    item with the dictionary [new], or the function returns. *)
Inductive flow : Type :=
  | Next (new : dict string ResourceV3Local)
  | Return (rc : pyval) (message : string).

(** The second [try] block of the loop: build and save the [ResourceV3]. *)
Definition save_resource `{Lib} (item : pyval) (id myGLOBALURN : string) : M unit :=
  (* It is possible for the display_name to be None, which ResourceV3
     really doesn't like. *)
  displayname0 ← lift (py_get item "display_name" PNone);
  displayname ← (match displayname0 with
                 | PNone => lift (py_get item "name" PNone)
                 | _ => ret displayname0
                 end);
  let resname := "XSEDE Globus Connect Server " ++ py_str displayname in
  ShortDescription ← lift (py_get item "description" (PStr resname));
  D0 ← lift (FD_init ShortDescription);
  let D1 := FD_blank_line D0 in
  organization ← lift (py_get item "organization" PNone);
  let D2 := if given organization
            then FD_blank_line (FD_append ("- Organization: " ++ py_str organization) D1)
            else D1 in
  contact_email ← lift (py_get item "contact_email" PNone);
  let D3 := if given contact_email
            then FD_blank_line (FD_append ("- Contact Email: " ++ py_str contact_email) D2)
            else D2 in
  info_link ← lift (py_get item "info_link" PNone);
  let D4 := if given info_link
            then FD_blank_line (FD_append ("- Info Link: " ++ py_str info_link) D3)
            else D3 in
  let D5 := FD_blank_line
              (FD_append "- Usage documentation: https://www.globus.org/data-transfer" D4) in
  (* the source looks up [formaDt] on the string literal *)
  lift (str_method "formaDt");;
  link_id ← lift (py_get item "id" PNone);
  let D6 := FD_append ("- Globus link: https://app.globus.org/file-manager/collections"
                       ++ py_str link_id) D5 in
  globuskeywords ← lift (py_get item "keywords" PNone);
  keywords ← (if truthy globuskeywords
              then k ← lift (as_str globuskeywords); ret (k ++ ",Globus,File Transfer")
              else ret "Globus,File Transfer");
  Description ← FD_html myGLOBALURN D6;
  let resource :=
    mkResource myGLOBALURN Affiliation id "Production" resname "Software"
      "Online Service" ShortDescription None Description keywords Affiliation in
  modify (set_Resources (insert myGLOBALURN resource));;
  es ← gets ESEARCH;
  if (es : bool) then modify (set_Index (insert myGLOBALURN resource)) else ret tt.

(** [item['id']], which the source joins and concatenates as a [str]. *)
Definition item_id (item : pyval) : result string :=
  v ← py_getitem item "id"; as_str v.

(** [self.format_GLOBALURN(config['URNPREFIX'], 'globusuuid', item['id'])] *)
Definition item_GLOBALURN (config : stepconf) (item : pyval) : result string :=
  URNPREFIX ← cfg_str config "URNPREFIX";
  id ← item_id item;
  format_GLOBALURN [URNPREFIX; "globusuuid"; id].

(** The entry of [self.GLOBUS_NAME_URNMAP] for an item with a display
    name. *)
Definition note_display_name (item : pyval) (myGLOBALURN : string) : M unit :=
  display_name ← lift (py_get item "display_name" PNone);
  if truthy display_name
  then key ← lift (py_hash_key display_name);
       modify (set_GLOBUS_NAME_URNMAP (dict_set key myGLOBALURN))
  else ret tt.

(** The first [try] block of the loop: build and save the
    [ResourceV3Local]. *)
Definition save_local (config : stepconf) (item : pyval) (myGLOBALURN : string)
  : M (string * ResourceV3Local) :=
  id ← lift (item_id item);
  LOCALTYPE ← lift (cfg_str config "LOCALTYPE");
  CATALOGURN ← lift (cfg_str config "CATALOGURN");
  prefix ← gets WAREHOUSE_API_PREFIX;
  EntityJSON ← lift (attr_data item);
  let local :=
    mkLocal myGLOBALURN DefaultValidity Affiliation id LOCALTYPE
      ("https://app.globus.org/file-manager?origin_id=" ++ id)
      (CATALOGURN_to_URL prefix CATALOGURN) EntityJSON in
  modify (set_Locals (insert myGLOBALURN local));;
  ret (id, local).

(** The body of the loop over [content[contype]]. *)
Definition Write_item `{Lib} (config : stepconf) (contype me : string) (item : pyval)
    (new : dict string ResourceV3Local) : M flow :=
  myGLOBALURN ← lift (item_GLOBALURN config item);
  note_display_name item myGLOBALURN;;
  try_except_else
    (save_local config item myGLOBALURN)
    (fun e =>
       let msg := exn_name e ++ " saving local ID=" ++ myGLOBALURN ++ ": " ++ exn_msg e in
       logger ERROR msg;;
       ret (Return (PBool false) msg))
    (fun '(id, local) =>
       let new' := dict_set myGLOBALURN local new in
       try_except_else
         (save_resource item id myGLOBALURN)
         (fun e =>
            let msg := exn_name e ++ " saving resource ID=" ++ myGLOBALURN
                       ++ ": " ++ exn_msg e in
            logger ERROR msg;;
            ret (Return (PBool false) msg))
         (fun _ =>
            logger DEBUG (contype ++ " updated resource ID=" ++ myGLOBALURN);;
            STATS_update (me ++ ".Update");;
            ret (Next new'))).

Fixpoint Write_items `{Lib} (config : stepconf) (contype me : string)
    (items : list pyval) (new : dict string ResourceV3Local) : M flow :=
  match items with
  | [] => ret (Next new)
  | item :: rest =>
      f ← Write_item config contype me item new;
      match f with
      | Next new' => Write_items config contype me rest new'
      | Return _ _ => ret f
      end
  end.

(** The rows of [ResourceV3Local] of the affiliation whose ID starts with the
    prefix, as the dictionary [cur]. *)
Definition current_Locals (URNPREFIX : string) (tbl : gmap string ResourceV3Local)
  : dict string ResourceV3Local :=
  map_to_list
    (filter (fun kv => L_Affiliation kv.2 = Affiliation
                       ∧ startswith URNPREFIX kv.1 = true) tbl).

Definition Write_Globus_Collections `{Lib} (content : envelope) (contype : string)
    (config : stepconf) : M (pyval * string) :=
  let me := me_Write_Globus_Collections in
  URNPREFIX ← lift (cfg_str config "URNPREFIX");
  tbl ← gets Locals;
  let cur := current_Locals URNPREFIX tbl in
  seq ← lift (envelope_item content contype);
  items ← lift (py_iter seq);
  f ← Write_items config contype me items [];
  match f with
  | Return rc message => ret (rc, message)
  | Next new =>
      Delete_OLD me cur new;;
      Log_STEP me;;
      ret (PInt 0, "")
  end.

(** *** [Router.Run] *)

Definition application : string := "route_globus_v3.py".

(** [getattr(self, name)(content, contype, stepconf)]: the one method of the
    router with this signature. *)
Definition call_method `{Lib} (name : string) (content : envelope) (contype : string)
    (conf : stepconf) : M (pyval * string) :=
  if String.eqb name "Write_Globus_Collections"
  then Write_Globus_Collections content contype conf
  else raise (AttributeError "Router" name).

(** The dispatch on the destination scheme in the loop of [Router.Run].
    Where the envelope lacks the type tag the source formats its message
    from [contype], a name that is not bound in [Run]. *)
Definition Run_dispatch `{Lib} (conf : stepconf) (DSTURL : url) (LOCALTYPE : string)
    (content : envelope) : M (pyval * string) :=
  if negb (dict_mem LOCALTYPE content)
  then raise (NameError "contype")
  else if String.eqb (scheme DSTURL) "file"
  then Write_CACHE (path DSTURL) content
  else if String.eqb (scheme DSTURL) "analyze"
  then Analyze_CONTENT content
  else if String.eqb (scheme DSTURL) "memory"
  then Write_MEMORY content LOCALTYPE (path DSTURL)
  else if String.eqb (scheme DSTURL) "function"
  then call_method (path DSTURL) content LOCALTYPE conf
  else raise (UnboundLocalError "rc").

(** The source of a step: the cache file, or the Globus listing. *)
Definition Run_fetch (SRCURL : url) (LOCALTYPE : string) : M envelope :=
  if String.eqb (scheme SRCURL) "file"
  then Read_CACHE (path SRCURL) LOCALTYPE
  else Get_Collections SRCURL LOCALTYPE.

(** The body of the loop over [self.STEPS]. *)
Definition Run_step `{Lib} (conf : stepconf) : M unit :=
  DSTURL ← lift (cfg_url conf "DSTURL");
  let pa_function := path DSTURL in
  pa_topic ← lift (cfg_str conf "LOCALTYPE");
  SRCURL ← lift (cfg_url conf "SRCURL");
  let pa_id := application ++ ":" ++ pa_function ++ ":" ++ pa_topic ++ ":"
               ++ scheme SRCURL ++ "->" ++ scheme DSTURL in
  content ← Run_fetch SRCURL pa_topic;
  '(rc, message) ← Run_dispatch conf DSTURL pa_topic content;
  let message' :=
    if negb (truthy rc) && String.eqb message ""   (* No errors *)
    then "Executed " ++ pa_function
    else message in
  modify (set_activities (fun l => (l ++ [mkActivity pa_id rc message'])%list)).

(** One turn of the [while True] loop of [Router.Run]. *)
Definition Run_iteration `{Lib} : M unit :=
  modify (set_STATS (fun _ => ∅));;
  steps ← gets STEPS;
  for_each steps Run_step;;
  logger INFO "Iteration duration".

(** [Router.Run] with [--once]. *)
Definition Run_once `{Lib} : M Z :=
  Run_iteration;;
  ret 0.

(** *** A library instance for the examples

    [urlparse] for the URLs the examples use: a scheme, then either [//],
    a host and a path, or a path alone. *)
Definition example_urlparse (s : string) : url :=
  match cut ":" s with
  | Some (sch, rest) =>
      if String.prefix "//" rest
      then let after := String.substring 2 (String.length rest - 2) rest in
           match cut "/" after with
           | Some (host, p) => mkUrl sch host ("/" ++ p) s
           | None => mkUrl sch after "" s
           end
      else mkUrl sch "" rest s
  | None => mkUrl "" "" s s
  end.

Definition dquote : string := String "034"%char EmptyString.

Fixpoint example_json_dumps (v : pyval) : string :=
  match v with
  | PNone => "null"
  | PBool b => if b then "true" else "false"
  | PInt n => pretty n
  | PStr x => dquote ++ x ++ dquote
  | PList l => "[" ++ join ", " (map example_json_dumps l) ++ "]"
  | PDict d =>
      "{" ++ join ", " (map (fun kv => dquote ++ fst kv ++ dquote ++ ": "
                                       ++ example_json_dumps (snd kv)) d) ++ "}"
  end.

Definition example_lib : Lib :=
  {| urlparse := example_urlparse;
     json_dumps := example_json_dumps;
     formatter := fun markup => (markup, "") |}.

End Router.

(** ** The endpoint diff tool, [bin/get_endpoints.py]

    The embedding follows the bodies of the functions. *)

Module Endpoints.
Import Py.

(** The [RDR_Fields] of a published record. *)
Record rdr_fields : Type := mkRdr {
  RDR_Description : pyval;
  Organization_Name : pyval;
  Organization_Abbreviation : string;
}.

(** A record of the published registry; [RDR_Fields] is [None] when the
    record holds a null or an empty object there. *)
Record published : Type := mkPublished {
  URL : string;
  ResourceID : string;
  Description : pyval;
  DisplayName : pyval;
  RDR_Fields : option rdr_fields;
  ID : pyval;
}.

(** An endpoint document of the transfer service. *)
Definition endpoint_doc : Type := dict string pyval.

(** [generate_endpoint_name]: the unpacking into three names raises
    [ValueError] unless the split gives three parts. *)
Definition generate_endpoint_name (endpoint : published) : result string :=
  match split_max "." 2 (ResourceID endpoint) with
  | [first; second; rest] =>
      if String.eqb first "hpss" then Ok (first ++ "-" ++ second)
      else if String.eqb first "wrangler"
      then (if String.eqb second "iu" then Ok (first ++ "-" ++ second) else Ok first)
      else Ok first
  | _ => Raise ValueError
  end.

(** [create_endpoint_data] with the arguments [main] passes; the other
    parameters have their defaults. *)
Definition create_endpoint_data (XSEDE_SUBSCRIPTION_ID : string)
    (endpoint_name : string) (description : pyval) (hostname port : string)
    (organization : pyval) (keywords : string) (display_name : pyval) : endpoint_doc :=
  [ ("DATA_TYPE", PStr "endpoint");
    ("description", description);
    ("canonical_name", PStr ("xsede#" ++ endpoint_name));
    ("display_name", py_or display_name (PStr endpoint_name));
    ("organization", organization);
    ("keywords", PStr keywords);
    ("contact_email", PStr "help@xsede.org");
    ("public", PBool true);
    ("is_globus_connect", PBool false);
    ("default_directory", PNone);
    ("oauth_server", PStr "oa4mp.xsede.org");
    ("subscription_id", PStr XSEDE_SUBSCRIPTION_ID);
    ("DATA", PList [PDict [ ("DATA_TYPE", PStr "server");
                            ("hostname", PStr hostname);
                            ("scheme", PStr "gsiftp");
                            ("port", PStr port);
                            ("subject", PNone) ]]) ].

Definition is_quote (a : ascii) : bool :=
  Ascii.eqb a "'"%char || Ascii.eqb a "034"%char.

(** The lazy group of the pattern and what follows it: the shortest run of
    characters other than the line feed that a quote and the end of the
    string (or a last line feed) follow. *)
Fixpoint quoted_body (s : string) : option string :=
  match s with
  | EmptyString => None
  | String a s' =>
      if is_quote a && (String.eqb s' "" || String.eqb s' LF) then Some EmptyString
      else if Ascii.eqb a "010"%char then None
      else match quoted_body s' with
           | Some body => Some (String a body)
           | None => None
           end
  end.

(** [re.match] of a quote, the lazy group [string], a quote and the end,
    giving the group. *)
Definition match_quoted (s : string) : option string :=
  match s with
  | String a s' => if is_quote a then quoted_body s' else None
  | EmptyString => None
  end.

(** The registered value as it is compared: the group when [str] of the
    value matches the pattern, the value itself when not. *)
Definition teststring (reg : pyval) : pyval :=
  match match_quoted (py_str reg) with
  | Some group => PStr group
  | None => reg
  end.

(** One entry of a diff: the values under [Published] and [Registered]. *)
Record diffs : Type := mkDiffs {
  Published : pyval;
  Registered : pyval;
}.

(** The loop over the fields of the payload: the dictionary [diff] when it
    ends, and whether [differences[pubendpoint] = diff] was executed. *)
Fixpoint compare_fields (data : list (string * pyval)) (registered : endpoint_doc)
    (diff : dict string diffs) (assigned : bool)
  : result (dict string diffs * bool) :=
  match data with
  | [] => Ok (diff, assigned)
  | (field, value) :: rest =>
      if String.eqb field "DATA" then compare_fields rest registered diff assigned
      else
        match dict_get field registered with
        | None => Raise (KeyError field)
        | Some reg =>
            if negb (py_eq value (teststring reg))
            then compare_fields rest registered
                   (dict_set field (mkDiffs value reg) diff) true
            else compare_fields rest registered diff assigned
        end
  end.

(** What the loop of [main] has done so far: the report, the payloads given
    to [create_endpoint], and the records given to
    [process_status_for_published_endpoint]. *)
Record outcome : Type := mkOutcome {
  differences : dict string (dict string diffs);
  created : list endpoint_doc;
  processed : list published;
}.

(** The payload [main] builds for a published record. *)
Definition build_data (XSEDE_SUBSCRIPTION_ID : string) (ep : published)
  : result endpoint_doc :=
  name ← generate_endpoint_name ep;
  match split ":" (replace "gsiftp://" "" (URL ep)) with
  | [hostname; port0] =>
      let port := replace "/" "" port0 in
      let '(rdrdesc, puborg, puborgabbr, pubkeywords) :=
        match RDR_Fields ep with
        | Some r =>
            (RDR_Description r, Organization_Name r, Organization_Abbreviation r,
             "XSEDE, " ++ Organization_Abbreviation r ++ ", " ++ name)
        | None => (PStr "", PStr "", "", "")
        end in
      let enddesc := Description ep in
      let enddisp := DisplayName ep in
      Ok (create_endpoint_data XSEDE_SUBSCRIPTION_ID name
            (py_or enddesc rdrdesc) hostname port puborg
            (if negb (String.eqb pubkeywords "") then pubkeywords
             else "XSEDE" ++ (if negb (String.eqb puborgabbr "")
                              then " ," ++ puborgabbr else "") ++ " ," ++ name)
            (py_or enddisp (PStr ("XSEDE" ++ (" " ++ puborgabbr) ++ " " ++ name))))
  | _ => Raise ValueError
  end.

(** The body of the loop over [published_endpoints]. *)
Definition main_step (XSEDE_SUBSCRIPTION_ID : string)
    (existing_endpoints : dict string endpoint_doc)
    (pubendpoint : string) (ep : published) (o : outcome) : result outcome :=
  data ← build_data XSEDE_SUBSCRIPTION_ID ep;
  let o1 := mkOutcome (differences o) (created o) (processed o ++ [ep])%list in
  match dict_get pubendpoint existing_endpoints with
  | None =>
      (* need to create endpoint *)
      Ok (mkOutcome (differences o1) (created o1 ++ [data])%list (processed o1))
  | Some registered =>
      (* need to compare endpoints *)
      '(diff, assigned) ← compare_fields data registered [] false;
      Ok (if (assigned : bool)
          then mkOutcome (dict_set pubendpoint diff (differences o1))
                 (created o1) (processed o1)
          else o1)
  end.

Fixpoint main_loop (XSEDE_SUBSCRIPTION_ID : string)
    (existing_endpoints : dict string endpoint_doc)
    (published_endpoints : dict string published) (o : outcome) : result outcome :=
  match published_endpoints with
  | [] => Ok o
  | (pubendpoint, ep) :: rest =>
      o' ← main_step XSEDE_SUBSCRIPTION_ID existing_endpoints pubendpoint ep o;
      main_loop XSEDE_SUBSCRIPTION_ID existing_endpoints rest o'
  end.

(** The first loop of [main]: the published records by composite key. *)
Fixpoint publish (data : list published) (published_endpoints : dict string published)
  : result (dict string published) :=
  match data with
  | [] => Ok published_endpoints
  | endpoint :: rest =>
      name ← generate_endpoint_name endpoint;
      publish rest
        (dict_set ("xsede#" ++ name ++ rstrip "/" (URL endpoint)) endpoint
           published_endpoints)
  end.

(** An endpoint of the account with the [uri] of each of its servers. *)
Record registered_endpoint : Type := mkRegistered {
  doc : endpoint_doc;
  server_uris : list pyval;
}.

(** The second loop of [main]: the registered endpoints by canonical name
    and server URI. *)
Fixpoint register (eps : list registered_endpoint)
    (existing_endpoints : dict string endpoint_doc) : result (dict string endpoint_doc) :=
  match eps with
  | [] => Ok existing_endpoints
  | ep :: rest =>
      existing' ←
        (fix servers (uris : list pyval) (acc : dict string endpoint_doc) :=
           match uris with
           | [] => Ok acc
           | uri :: uris' =>
               if truthy uri
               then name ← (v ← py_getitem (PDict (doc ep)) "canonical_name"; as_str v);
                    u ← as_str uri;
                    servers uris' (dict_set (name ++ u) (doc ep) acc)
               else servers uris' acc
           end) (server_uris ep) existing_endpoints;
      register rest existing'
  end.

(** [main], from the parsed registry and the listing of the account to the
    report that is written: the file named [EXTRA_ENDPOINTS_FILE] is opened
    in between and has to exist. *)
Definition main (XSEDE_SUBSCRIPTION_ID : string) (data : list published)
    (endpoint_list : list registered_endpoint) (extra_file_exists : bool)
  : result outcome :=
  published_endpoints ← publish data [];
  (if extra_file_exists then Ok tt
   else Raise (FileNotFoundError "EXTRA_ENDPOINTS_FILE"));;
  existing_endpoints ← register endpoint_list [];
  main_loop XSEDE_SUBSCRIPTION_ID existing_endpoints published_endpoints
    (mkOutcome [] [] []).

End Endpoints.

(** ** Vocabulary of the statements *)

Import Py Router Endpoints.

(** The string of [n] copies of [c]. *)
Fixpoint copies (n : nat) (c : ascii) : string :=
  match n with
  | O => EmptyString
  | S n' => String c (copies n' c)
  end.

(** The last character of [s] is [c]. *)
Fixpoint ends_with (c : ascii) (s : string) : bool :=
  match s with
  | EmptyString => false
  | String a EmptyString => Ascii.eqb a c
  | String _ s' => ends_with c s'
  end.

(** The number of occurrences of [c] in [s]. *)
Fixpoint occurrences (c : ascii) (s : string) : nat :=
  match s with
  | EmptyString => O
  | String a s' => (if Ascii.eqb a c then 1 else 0) + occurrences c s'
  end.

(** Reasoning about [M]: the combinators are plain functions on states. *)
Ltac unfold_M :=
  unfold mbind, M_bind, mret, M_ret, result_bind, result_ret, bind, ret, raise,
    gets, modify, lift, try_except, try_except_else, try_bare, logger,
    STATS_update in *.

(** The error records of [Delete_OLD] for an identifier. *)
Definition msg_index (URN : string) : level * string :=
  (ERROR, "NotFoundError deleting Elastic id=" ++ URN ++ ": NotFoundError").
Definition msg_resource (URN : string) : level * string :=
  (ERROR, "DoesNotExist deleting ID=" ++ URN
          ++ ": ResourceV3 matching query does not exist.").
Definition msg_local (URN : string) : level * string :=
  (ERROR, "DoesNotExist deleting ID=" ++ URN
          ++ ": ResourceV3Local matching query does not exist.").

(** What the sweep from [s] to [s'] has done for a stale identifier: its
    index entry (when an index is configured), its relations and its
    [ResourceV3] row are gone; its [ResourceV3Local] row is gone when the
    [ResourceV3] row was there, and is left as it was when not; every delete
    that failed left its error record. *)
Record swept (URN : string) (s s' : state) : Prop := {
  swept_index : ESEARCH s = true -> Index s' !! URN = None;
  swept_relations :
    forall k r, Relations s' !! k = Some r -> FirstResourceID r ≠ URN;
  swept_resource : Resources s' !! URN = None;
  swept_local : is_Some (Resources s !! URN) -> Locals s' !! URN = None;
  swept_kept : Resources s !! URN = None -> Locals s' !! URN = Locals s !! URN;
  swept_log_index :
    ESEARCH s = true -> Index s !! URN = None -> In (msg_index URN) (log s');
  swept_log_resource :
    Resources s !! URN = None -> In (msg_resource URN) (log s');
  swept_log_local :
    is_Some (Resources s !! URN) -> Locals s !! URN = None ->
    In (msg_local URN) (log s');
}.

(** What the sweep leaves alone: the rows and the relations of an
    identifier are the same in [s] and [s']. *)
Record untouched (URN : string) (s s' : state) : Prop := {
  untouched_index : Index s' !! URN = Index s !! URN;
  untouched_resource : Resources s' !! URN = Resources s !! URN;
  untouched_local : Locals s' !! URN = Locals s !! URN;
  untouched_relations :
    forall k r, FirstResourceID r = URN ->
                Relations s' !! k = Some r <-> Relations s !! k = Some r;
}.

(** What no later pass of the sweep undoes. *)
Record settled (URN : string) (s s' : state) : Prop := {
  settled_index : Index s !! URN = None -> Index s' !! URN = None;
  settled_relations :
    (forall k r, Relations s !! k = Some r -> FirstResourceID r ≠ URN) ->
    forall k r, Relations s' !! k = Some r -> FirstResourceID r ≠ URN;
  settled_resource : Resources s !! URN = None -> Resources s' !! URN = None;
  settled_local : Locals s !! URN = None -> Locals s' !! URN = None;
  settled_kept : Resources s !! URN = None -> Locals s' !! URN = Locals s !! URN;
  settled_log : forall m, In m (log s) -> In m (log s');
}.

(** A computation that raises an [Exception] and leaves the state alone. *)
Definition raises_in_place {A} (m : M A) : Prop :=
  forall s, exists e, m s = (Raise e, s) /\ is_Exception e = true.

(** How [Write_item] can end: it never goes on to the next item. *)
Definition stops (r : result flow) : Prop :=
  (exists e, r = Raise e) \/ (exists msg, r = Ok (Return (PBool false) msg)).

(** The key under which [Write_MEMORY] files a record: the value of the key
    field when the record has it and the value can be hashed. *)
Definition record_key (conkey : string) (item : pyval) : option hkey :=
  match py_getitem item conkey with
  | Ok v => match py_hash_key v with
            | Ok key => Some key
            | Raise _ => None
            end
  | Raise _ => None
  end.

(** Filing one record in a table. *)
Definition file_record (conkey : string) (table : dict hkey pyval) (item : pyval)
  : dict hkey pyval :=
  match record_key conkey item with
  | Some key => dict_set key item table
  | None => table
  end.

(** The table of a type tag in [self.memory], empty when there is none. *)
Definition memory_table (contype : string) (s : state) : dict hkey pyval :=
  default [] (dict_get contype (memory s)).

(** How many steps use a URL, by [self.URL_USE_COUNT]. *)
Definition url_uses (url : string) (s : state) : nat :=
  default 0%nat (dict_get url (URL_USE_COUNT s)).


(** The catalogue API URL a step of the configuration file refers to. *)
Definition step_source (CATALOGS : dict string stepconf) (conf : stepconf)
  : option string :=
  match dict_get "CATALOGURN" conf with
  | Some (CVal (PStr id)) =>
      match dict_get id CATALOGS with
      | Some myCAT =>
          match dict_get "CatalogAPIURL" myCAT with
          | Some (CVal (PStr api)) => Some api
          | _ => None
          end
      | None => None
      end
  | _ => None
  end.

(** The number of steps that refer to [url]. *)
Definition references (CATALOGS : dict string stepconf) (steps : list stepconf)
    (url : string) : nat :=
  List.length (List.filter
                 (fun conf => bool_decide (step_source CATALOGS conf = Some url)) steps).

(** Fields of a payload that the comparison passes over: [DATA], and the
    fields whose registered value, unwrapped, equals the published one. *)
Definition same_fields (fields : list (string * pyval)) (registered : endpoint_doc)
  : Prop :=
  forall field value, In (field, value) fields ->
    field = "DATA"
    \/ exists reg, dict_get field registered = Some reg
                   /\ py_eq value (teststring reg) = true.

(** The registered endpoint has every field of the payload but [DATA]. *)
Definition has_fields (data : list (string * pyval)) (registered : endpoint_doc)
  : Prop :=
  forall field value, In (field, value) data -> field ≠ "DATA" ->
    is_Some (dict_get field registered).

(** A step of the configuration file that [Setup] can resolve: it names a
    catalogue entry with an API URL, it has a destination, both schemes are
    known, and source and destination are not both files. *)
Definition coherent `{Lib} (CATALOGS : dict string stepconf) (conf : stepconf) : Prop :=
  exists id myCAT api dest,
    dict_get "CATALOGURN" conf = Some (CVal (PStr id))
    /\ dict_get id CATALOGS = Some myCAT
    /\ dict_get "CatalogAPIURL" myCAT = Some (CVal (PStr api))
    /\ dict_get "DESTINATION" conf = Some (CVal (PStr dest))
    /\ str_in (scheme (urlparse api)) ["file"; "http"; "https"] = true
    /\ str_in (scheme (urlparse dest)) ["file"; "analyze"; "function"; "memory"] = true
    /\ str_in (scheme (urlparse api)) ["file"] && str_in (scheme (urlparse dest)) ["file"]
       = false.

(** A resolved step that [Run] can execute: it holds the parsed source and
    destination, with known schemes, not both files. *)
Definition runnable (conf : stepconf) : Prop :=
  exists src dst,
    cfg_url conf "SRCURL" = Ok src
    /\ cfg_url conf "DSTURL" = Ok dst
    /\ str_in (scheme src) ["file"; "http"; "https"] = true
    /\ str_in (scheme dst) ["file"; "analyze"; "function"; "memory"] = true
    /\ str_in (scheme src) ["file"] && str_in (scheme dst) ["file"] = false.

(** Both rows of an identifier are stored: its deletes will succeed. *)
Definition both_rows (s : state) (URN : string) : bool :=
  match Resources s !! URN, Locals s !! URN with
  | Some _, Some _ => true
  | _, _ => false
  end.

(** The identifiers of [cur] that are not in [new]. *)
Definition stale {V W} (cur : dict string V) (new : dict string W) : list string :=
  List.filter (fun id => negb (dict_mem id new)) (dict_keys cur).

(** The calls made on a [Format_Description] object. *)
Inductive fd_call : Type :=
  | call_append (value : string)
  | call_blank_line.

Definition run_call (d : Format_Description) (c : fd_call) : Format_Description :=
  match c with
  | call_append value => FD_append value d
  | call_blank_line => FD_blank_line d
  end.

(** A value, or a call, that brings no text: [None], or a string of
    whitespace only. *)
Definition blank_value (v : pyval) : Prop :=
  match v with
  | PNone => True
  | PStr x => rstrip_ws x = ""
  | _ => False
  end.

Definition blank_call (c : fd_call) : Prop :=
  match c with
  | call_append value => rstrip_ws value = ""
  | call_blank_line => True
  end.

(** The inner loop of [register], over the servers of one endpoint. *)
Definition register_servers (ep : Endpoints.registered_endpoint) :
    list pyval -> dict string Endpoints.endpoint_doc
    -> result (dict string Endpoints.endpoint_doc) :=
  fix servers (uris : list pyval) (acc : dict string Endpoints.endpoint_doc) :=
    match uris with
    | [] => Ok acc
    | uri :: uris' =>
        if truthy uri
        then name ← (v ← py_getitem (PDict (Endpoints.doc ep)) "canonical_name"; as_str v);
             u ← as_str uri;
             servers uris' (dict_set (name ++ u) (Endpoints.doc ep) acc)
        else servers uris' acc
    end.

(** The key [main] gives a published record, and the key it gives a server
    of a registered endpoint. *)
Definition published_key (name : string) (ep : Endpoints.published) : string :=
  "xsede#" ++ name ++ rstrip "/" (Endpoints.URL ep).

Definition serves (reg : Endpoints.registered_endpoint) (key : string) : Prop :=
  exists uri name u,
    In uri (Endpoints.server_uris reg) /\ truthy uri = true
    /\ dict_get "canonical_name" (Endpoints.doc reg) = Some (PStr name)
    /\ uri = PStr u
    /\ key = (name ++ u)%string.

(** What [Get_HTTP] works on: the GET requests sent, its cache, and the
    use counts of [Setup]. *)
Definition http_side (s : state) : list string * dict string pyval * dict string nat :=
  (requests s, HTTP_CACHE s, URL_USE_COUNT s).

(** A computation that leaves these as they are, however it ends. *)
Definition quiet {A} (m : M A) : Prop :=
  forall s, http_side (snd (m s)) = http_side s.

(** ** Example data *)

(** A published record of three-part [ResourceID]. *)
Definition wrangler_iu : published :=
  mkPublished "gsiftp://gridftp.wrangler.iu.xsede.org:2811/"
    "wrangler.iu.xsede.org" PNone PNone None (PInt 7).

(** A server with one JSON document. *)
Definition example_server (host path : string) : option pyval :=
  if String.eqb host "transfer.api.globus.org" && String.eqb path "/v0.10"
  then Some (PList [PDict [("id", PStr "aaaa")]])
  else None.

(** A router just set up, with an empty warehouse and no search index. *)
Definition empty_state : state :=
  {| ESEARCH := false;
     EXTRA_ENDPOINTS_FILE := Some "/etc/globus/extra_endpoints";
     WAREHOUSE_API_PREFIX := "https://info.xsede.org/wh1";
     memory := [];
     GLOBUS_NAME_URNMAP := [];
     HTTP_CACHE := [];
     URL_USE_COUNT := [];
     STEPS := [];
     STATS := ∅;
     log := [];
     Locals := ∅;
     Resources := ∅;
     Relations := ∅;
     Index := ∅;
     files := {[ "/etc/globus/extra_endpoints" := mkFile "" None ]};
     server := example_server;
     requests := [];
     endpoint_search := PList [];
     get_endpoint := fun _ => Raise NotFoundError;
     activities := [] |}.

(** A resolved step of the Globus collections. *)
Definition globus_step : stepconf :=
  [ ("ID", CVal (PStr "urn:ogf:glue2:info.xsede.org:catalog:globus"));
    ("CatalogAPIURL", CVal (PStr "https://transfer.api.globus.org/v0.10"));
    ("CATALOGURN", CVal (PStr "urn:ogf:glue2:info.xsede.org:catalog:globus"));
    ("URNPREFIX", CVal (PStr "urn:ogf:glue2:info.xsede.org:resource:globus:"));
    ("LOCALTYPE", CVal (PStr "globus_collections"));
    ("DESTINATION", CVal (PStr "function:Write_Globus_Collections"));
    ("SOURCEURL", CVal (PStr "https://transfer.api.globus.org/v0.10"));
    ("SRCURL", CUrl (example_urlparse "https://transfer.api.globus.org/v0.10"));
    ("DSTURL", CUrl (example_urlparse "function:Write_Globus_Collections")) ].

(** Three collection documents and their identifiers. *)
Definition collection (id name : string) : pyval :=
  PDict [ ("id", PStr id); ("display_name", PStr name); ("name", PNone);
          ("description", PNone); ("organization", PStr "Example University");
          ("contact_email", PNone); ("info_link", PNone); ("keywords", PNone) ].

Definition doc_A : pyval := collection "aaaa" "Collection A".
Definition doc_B : pyval := collection "bbbb" "Collection B".
Definition doc_C : pyval := collection "cccc" "Collection C".

Definition URN_A : string := "urn:ogf:glue2:info.xsede.org:resource:globus:globusuuid:aaaa".
Definition URN_B : string := "urn:ogf:glue2:info.xsede.org:resource:globus:globusuuid:bbbb".
Definition URN_C : string := "urn:ogf:glue2:info.xsede.org:resource:globus:globusuuid:cccc".

(** The rows a complete earlier save of [doc] would have left. *)
Definition local_row (URN id : string) (doc : pyval) : ResourceV3Local :=
  mkLocal URN DefaultValidity Affiliation id "globus_collections"
    ("https://app.globus.org/file-manager?origin_id=" ++ id)
    (CATALOGURN_to_URL "https://info.xsede.org/wh1"
       "urn:ogf:glue2:info.xsede.org:catalog:globus")
    doc.

Definition resource_row (URN id name : string) : ResourceV3 :=
  mkResource URN Affiliation id "Production"
    ("XSEDE Globus Connect Server " ++ name) "Software" "Online Service"
    PNone None None "Globus,File Transfer" Affiliation.

(** A warehouse holding [A] and [B], each with both its rows. *)
Definition state_AB : state :=
  set_Resources (fun _ => {[ URN_A := resource_row URN_A "aaaa" "Collection A";
                             URN_B := resource_row URN_B "bbbb" "Collection B" ]})
    (set_Locals (fun _ => {[ URN_A := local_row URN_A "aaaa" doc_A;
                             URN_B := local_row URN_B "bbbb" doc_B ]})
       empty_state).

(** A warehouse holding the [ResourceV3Local] row of [A] and no
    [ResourceV3] row for it. *)
Definition state_A_local_only : state :=
  set_Locals (fun _ => {[ URN_A := local_row URN_A "aaaa" doc_A ]}) empty_state.

(** An envelope of two records, the second without the key field [k]. *)
Definition record_a : pyval := PDict [("k", PStr "a"); ("size", PInt 3)].
Definition record_nokey : pyval := PDict [("x", PInt 1)].
Definition two_records : envelope := [("t", PList [record_a; record_nokey])].

(** A catalogue table of one entry and a step of the configuration file that
    names it and brings a source URL of its own. *)
Definition globus_catalog : stepconf :=
  [ ("ID", CVal (PStr "urn:ogf:glue2:info.xsede.org:catalog:globus"));
    ("Name", CVal (PStr "Globus collections"));
    ("CatalogAPIURL", CVal (PStr "https://transfer.api.globus.org/v0.10")) ].

Definition example_CATALOGS : dict string stepconf :=
  [ ("urn:ogf:glue2:info.xsede.org:catalog:globus", globus_catalog) ].

Definition raw_step : stepconf :=
  [ ("CATALOGURN", CVal (PStr "urn:ogf:glue2:info.xsede.org:catalog:globus"));
    ("SOURCEURL", CVal (PStr "https://step.example.org/own/listing"));
    ("Name", CVal (PStr "Step name"));
    ("LOCALTYPE", CVal (PStr "globus_collections"));
    ("DESTINATION", CVal (PStr "function:Write_Globus_Collections")) ].

(** Two steps of the configuration file on the same catalogue entry, with
    the type tags [A] and [B]. *)
Definition step_A : stepconf :=
  [ ("CATALOGURN", CVal (PStr "urn:ogf:glue2:info.xsede.org:catalog:globus"));
    ("LOCALTYPE", CVal (PStr "A"));
    ("DESTINATION", CVal (PStr "memory:id")) ].

Definition step_B : stepconf :=
  [ ("CATALOGURN", CVal (PStr "urn:ogf:glue2:info.xsede.org:catalog:globus"));
    ("LOCALTYPE", CVal (PStr "B"));
    ("DESTINATION", CVal (PStr "memory:id")) ].

Definition globus_url : url := example_urlparse "https://transfer.api.globus.org/v0.10".

(** The router set up with the steps [A] and [B], on a machine where the
    file of extra endpoints does not exist. *)
Definition state_without_extras : state :=
  set_files (fun _ => ∅)
    (snd (Setup (H := example_lib) example_CATALOGS [step_A; step_B] empty_state)).

(** A published endpoint, its composite key and its payload. *)
Definition stampede2 : published :=
  mkPublished "gsiftp://gridftp.stampede2.tacc.xsede.org:2811/"
    "stampede2.tacc.xsede.org" (PStr "Stampede2 GridFTP") (PStr "TACC Stampede2")
    (Some (mkRdr (PStr "Stampede2 at TACC") (PStr "Texas Advanced Computing Center")
             "TACC"))
    (PInt 42).

Definition stampede2_key : string :=
  "xsede#stampede2gsiftp://gridftp.stampede2.tacc.xsede.org:2811".

Definition stampede2_data : endpoint_doc :=
  create_endpoint_data "subscription-1" "stampede2" (PStr "Stampede2 GridFTP")
    "gridftp.stampede2.tacc.xsede.org" "2811"
    (PStr "Texas Advanced Computing Center") "XSEDE, TACC, stampede2"
    (PStr "TACC Stampede2").

(** The endpoint as registered: the payload, but the server list of the
    transfer service (the port is a number there). *)
Definition stampede2_registered_DATA : endpoint_doc :=
  dict_set "DATA"
    (PList [PDict [ ("DATA_TYPE", PStr "server");
                    ("hostname", PStr "gridftp.stampede2.tacc.xsede.org");
                    ("scheme", PStr "gsiftp");
                    ("port", PInt 2811);
                    ("subject", PNone) ]])
    stampede2_data.

(** The endpoint as registered with another display name, and a
    description stored as a quoted literal. *)
Definition stampede2_registered_name : endpoint_doc :=
  dict_set "description" (PStr "'Stampede2 GridFTP'")
    (dict_set "display_name" (PStr "Stampede 2") stampede2_data).

(** A published endpoint whose URL has no port. *)
Definition no_port : published :=
  mkPublished "gsiftp://gridftp.example.org/" "ranch.tacc.xsede.org"
    (PStr "Ranch") (PStr "TACC Ranch") None (PInt 43).

Definition no_port_key : string := "xsede#ranchgsiftp://gridftp.example.org".

(** The warehouse of [A] and [B] with, under the same prefix, a row of
    another affiliation. *)
Definition foreign_row : ResourceV3Local :=
  mkLocal URN_C DefaultValidity "example.org" "cccc" "globus_collections"
    "https://app.globus.org/file-manager?origin_id=cccc"
    (CATALOGURN_to_URL "https://info.xsede.org/wh1"
       "urn:ogf:glue2:info.xsede.org:catalog:globus")
    doc_C.

Definition state_AB_foreign : state :=
  set_Locals (insert URN_C foreign_row) state_AB.

(** [urlparse] as [urllib] has it for the scheme: [geturl()] gives the
    scheme in lower case. A catalogue entry written with an upper-case
    scheme, and two steps with the type tag [A] that name it. *)
Definition lower_char (a : ascii) : ascii :=
  let n := nat_of_ascii a in
  if ((65 <=? n) && (n <=? 90))%nat then ascii_of_nat (n + 32) else a.

Fixpoint lower (s : string) : string :=
  match s with
  | EmptyString => EmptyString
  | String a s' => String (lower_char a) (lower s')
  end.

Definition lowering_urlparse (s : string) : url :=
  match cut ":" s with
  | Some (sch, rest) => example_urlparse (lower sch ++ ":" ++ rest)
  | None => example_urlparse s
  end.

Definition lowering_lib : Lib :=
  {| urlparse := lowering_urlparse;
     json_dumps := example_json_dumps;
     formatter := fun markup => (markup, "") |}.

Definition upper_case_CATALOGS : dict string stepconf :=
  [ ("urn:ogf:glue2:info.xsede.org:catalog:globus",
     [ ("ID", CVal (PStr "urn:ogf:glue2:info.xsede.org:catalog:globus"));
       ("CatalogAPIURL", CVal (PStr "HTTPS://transfer.api.globus.org/v0.10")) ]) ].

(** A description of whitespace only: a no-break space, a next line
    control and a space. *)
Definition blank_description : string :=
  String (ascii_of_nat 160) (String (ascii_of_nat 133) " ").

(** A listing of two collections, the second without an [id], and a router
    whose Globus client returns it. *)
Definition listing_state : state :=
  {| ESEARCH := false;
     EXTRA_ENDPOINTS_FILE := Some "/etc/globus/extra_endpoints";
     WAREHOUSE_API_PREFIX := "https://info.xsede.org/wh1";
     memory := [];
     GLOBUS_NAME_URNMAP := [];
     HTTP_CACHE := [];
     URL_USE_COUNT := [];
     STEPS := [];
     STATS := ∅;
     log := [];
     Locals := ∅;
     Resources := ∅;
     Relations := ∅;
     Index := ∅;
     files := {[ "/etc/globus/extra_endpoints" := mkFile "aaaa" None;
                 "/var/cache/broken.json" := mkFile "{" None ]};
     server := example_server;
     requests := [];
     endpoint_search := PList [doc_A; PDict [("display_name", PStr "No id")]];
     get_endpoint := fun ep => if String.eqb ep "aaaa" then Ok doc_A
                               else Raise NotFoundError;
     activities := [] |}.

(** A resolved step that files the listing in memory by [id], and one that
    reads a cache file. *)
Definition memory_step : stepconf :=
  [ ("LOCALTYPE", CVal (PStr "A"));
    ("SRCURL", CUrl (example_urlparse "https://transfer.api.globus.org/v0.10"));
    ("DSTURL", CUrl (example_urlparse "memory:id")) ].

Definition cache_step : stepconf :=
  [ ("LOCALTYPE", CVal (PStr "A"));
    ("SRCURL", CUrl (example_urlparse "file:/var/cache/broken.json"));
    ("DSTURL", CUrl (example_urlparse "memory:id")) ].

(** ** Properties *)

(** *** Strings *)

Section Strings.

Lemma app_String_assoc (a : ascii) (s t : string) :
  String a s ++ t = String a (s ++ t).
Proof. reflexivity. Qed.

Lemma rstrip_empty_copies (c : ascii) (s : string) :
  rstrip c s = EmptyString -> exists n, s = copies n c.
Proof.
  induction s as [|a s IH]; intros Hs.
  - exists O. reflexivity.
  - unfold rstrip in *. simpl in Hs.
    destruct (rstrip_by (Ascii.eqb c) s) eqn:Hr; [|discriminate].
    destruct (Ascii.eqb c a) eqn:Hca; [|discriminate].
    apply Ascii.eqb_eq in Hca. subst a.
    destruct (IH eq_refl) as [n ->].
    exists (S n). reflexivity.
Qed.

(** What [rstrip] removes is a run of the character, and what it leaves
    does not end with it. *)
Lemma rstrip_decompose (c : ascii) (s : string) :
  exists n, s = rstrip c s ++ copies n c /\ ends_with c (rstrip c s) = false.
Proof.
  induction s as [|a s IH].
  - exists O. split; reflexivity.
  - destruct IH as [n [Hs He]].
    unfold rstrip in *. simpl.
    destruct (rstrip_by (Ascii.eqb c) s) as [|b r] eqn:Hr.
    + destruct (Ascii.eqb c a) eqn:Hca.
      * apply Ascii.eqb_eq in Hca. subst a.
        exists (S n). simpl in *. split; [|reflexivity].
        f_equal. exact Hs.
      * exists n. simpl in *. split; [f_equal; exact Hs|].
        rewrite Ascii.eqb_sym. exact Hca.
    + exists n. rewrite app_String_assoc. split; [f_equal; exact Hs|].
      exact He.
Qed.

(** One more trailing character changes nothing. *)
Lemma rstrip_app_char (c : ascii) (s : string) :
  rstrip c (s ++ String c EmptyString) = rstrip c s.
Proof.
  unfold rstrip. induction s as [|a s IH]; simpl.
  - rewrite Ascii.eqb_refl. reflexivity.
  - rewrite IH. reflexivity.
Qed.

Lemma cut_app (c : ascii) (l r : string) :
  occurrences c l = O -> cut c (l ++ String c r) = Some (l, r).
Proof.
  induction l as [|a l IH]; simpl; intros Hl.
  - rewrite Ascii.eqb_refl. reflexivity.
  - destruct (Ascii.eqb a c); [discriminate|].
    rewrite (IH Hl). reflexivity.
Qed.

Lemma cut_None (c : ascii) (s : string) :
  occurrences c s = O -> cut c s = None.
Proof.
  induction s as [|a s IH]; simpl; intros Hs; [reflexivity|].
  destruct (Ascii.eqb a c); [discriminate|].
  rewrite (IH Hs). reflexivity.
Qed.

Lemma cut_Some_occurrences (c : ascii) (s l r : string) :
  cut c s = Some (l, r) -> occurrences c s = S (occurrences c r).
Proof.
  revert l. induction s as [|a s IH]; simpl; intros l Hc; [discriminate|].
  destruct (Ascii.eqb a c).
  - inversion Hc. reflexivity.
  - destruct (cut c s) as [[l' r']|] eqn:Hcs; [|discriminate].
    inversion Hc; subst. exact (IH _ eq_refl).
Qed.

Lemma cut_None_occurrences (c : ascii) (s : string) :
  cut c s = None -> occurrences c s = O.
Proof.
  induction s as [|a s IH]; simpl; intros Hc; [reflexivity|].
  destruct (Ascii.eqb a c); [discriminate|].
  destruct (cut c s) as [[l' r']|]; [discriminate|].
  exact (IH eq_refl).
Qed.

(** [split] with a bound gives one part more than the separators it used. *)
Lemma split_max_length (c : ascii) (n : nat) (s : string) :
  List.length (split_max c n s) = S (Nat.min n (occurrences c s)).
Proof.
  revert s. induction n as [|n IH]; intros s; simpl; [reflexivity|].
  destruct (cut c s) as [[l r]|] eqn:Hc.
  - simpl. rewrite IH, (cut_Some_occurrences _ _ _ _ Hc). reflexivity.
  - rewrite (cut_None_occurrences _ _ Hc). reflexivity.
Qed.

End Strings.

(** *** Identifiers: [format_GLOBALURN] *)

Section Identifiers.

(** C10. For a non-empty argument list [p :: rest], [format_GLOBALURN]
    joins with [:] the first argument without its trailing colons ([q],
    which does not end with a colon and from which [p] differs by a run of
    colons only) and the other arguments as they are; one more colon at
    the end of the first argument gives the same identifier. *)
Theorem format_GLOBALURN_trailing_colon (p : string) (rest : list string) :
  (exists q n,
      p = q ++ copies n ":" /\ ends_with ":" q = false /\
      format_GLOBALURN (p :: rest) = Ok (join ":" (q :: rest)))
  /\ format_GLOBALURN ((p ++ ":") :: rest) = format_GLOBALURN (p :: rest).
Proof.
  split.
  - destruct (rstrip_decompose ":" p) as [n [Hp He]].
    exists (rstrip ":" p), n. repeat split; assumption || reflexivity.
  - unfold format_GLOBALURN. rewrite rstrip_app_char. reflexivity.
Qed.

Lemma item_GLOBALURN_eq (config : stepconf) (item : pyval) (prefix id : string) :
  cfg_str config "URNPREFIX" = Ok prefix ->
  py_getitem item "id" = Ok (PStr id) ->
  item_GLOBALURN config item = Ok (rstrip ":" prefix ++ ":" ++ "globusuuid" ++ ":" ++ id).
Proof.
  intros Hp Hi. unfold item_GLOBALURN, item_id.
  rewrite Hp. simpl. rewrite Hi. reflexivity.
Qed.

End Identifiers.

(** *** The derived name of a published endpoint *)

Section DerivedName.

Lemma split_three (first second rest : string) :
  occurrences "." first = O -> occurrences "." second = O ->
  split_max "." 2 (first ++ "." ++ second ++ "." ++ rest) = [first; second; rest].
Proof.
  intros H1 H2. simpl.
  rewrite (cut_app "." first _ H1), (cut_app "." second _ H2). reflexivity.
Qed.

(** A [ResourceID] with fewer than two dots cannot be unpacked. *)
Lemma generate_endpoint_name_short (ep : published) :
  (occurrences "." (ResourceID ep) < 2)%nat ->
  generate_endpoint_name ep = Raise ValueError.
Proof.
  intros Hlt. unfold generate_endpoint_name.
  pose proof (split_max_length "." 2 (ResourceID ep)) as Hlen.
  destruct (split_max "." 2 (ResourceID ep)) as [|a [|b [|c [|d l]]]];
    try reflexivity.
  cbn [List.length] in Hlen. lia.
Qed.

(** C9, as the code has it. For a [ResourceID] of the form
    [first.second.rest], where [first] and [second] hold no dot,
    [generate_endpoint_name] returns [first-second] when [first] is
    [hpss], [first-second] when [first] is [wrangler] and [second] is
    [iu], and [first] alone otherwise. *)
Theorem generate_endpoint_name_three_parts (ep : published) (first second rest : string) :
  ResourceID ep = first ++ "." ++ second ++ "." ++ rest ->
  occurrences "." first = O ->
  occurrences "." second = O ->
  generate_endpoint_name ep =
    Ok (if String.eqb first "hpss" then first ++ "-" ++ second
        else if String.eqb first "wrangler" && String.eqb second "iu"
             then first ++ "-" ++ second
             else first).
Proof.
  intros Hid H1 H2. unfold generate_endpoint_name.
  rewrite Hid, (split_three _ _ _ H1 H2).
  destruct (String.eqb first "hpss"); [reflexivity|].
  destruct (String.eqb first "wrangler"); [|reflexivity].
  destruct (String.eqb second "iu"); reflexivity.
Qed.

Lemma generate_endpoint_name_three_parts_witness :
  ResourceID wrangler_iu = "wrangler" ++ "." ++ "iu" ++ "." ++ "xsede.org"
  /\ occurrences "." "wrangler" = O
  /\ occurrences "." "iu" = O
  /\ generate_endpoint_name wrangler_iu = Ok "wrangler-iu".
Proof.
  split; [reflexivity|]. split; [reflexivity|]. split; [reflexivity|].
  exact (generate_endpoint_name_three_parts wrangler_iu "wrangler" "iu" "xsede.org"
           eq_refl eq_refl eq_refl).
Defined.

(** A record the claim covers and the code rejects: split at most twice,
    [wrangler.iu] gives the two parts [wrangler] and [iu], for which C9
    promises [wrangler-iu]; the code raises [ValueError]. *)
Lemma generate_endpoint_name_two_parts :
  let ep := mkPublished "gsiftp://gridftp.example.org:2811/" "wrangler.iu"
              PNone PNone None (PInt 8) in
  split_max "." 2 (ResourceID ep) = ["wrangler"; "iu"]
  /\ generate_endpoint_name ep = Raise ValueError
  /\ generate_endpoint_name ep <> Ok "wrangler-iu".
Proof.
  split; [reflexivity|]. split; [reflexivity|]. discriminate.
Qed.

End DerivedName.

(** *** Loops in [M] *)

Section Loops.

(** A loop runs its body on the first element and, unless that raises, goes
    on from the state the body left. *)
Lemma for_each_cons {A} (x : A) (l : list A) (body : A -> M unit) (s : state) :
  for_each (x :: l) body s =
    match body x s with
    | (Ok _, s1) => for_each l body s1
    | (Raise e, s1) => (Raise e, s1)
    end.
Proof. reflexivity. Qed.

End Loops.

(** *** The stale sweep: [Delete_OLD] *)

Section StaleSweep.

(** One pass of the loop, field by field. *)
Lemma Delete_OLD_one_spec (me URN : string) (s : state) :
  exists s', Delete_OLD_one me URN s = (Ok tt, s')
  /\ ESEARCH s' = ESEARCH s
  /\ Index s' = (if ESEARCH s then delete URN (Index s) else Index s)
  /\ Relations s' = filter (fun kv => FirstResourceID kv.2 ≠ URN) (Relations s)
  /\ Resources s' = delete URN (Resources s)
  /\ Locals s' = (match Resources s !! URN with Some _ => delete URN (Locals s) | None => Locals s end)
  /\ log s' =
       List.app (log s)
         (List.app
            (if ESEARCH s
             then match Index s !! URN with None => [msg_index URN] | Some _ => [] end
             else [])
            [match Resources s !! URN, Locals s !! URN with
             | None, _ => msg_resource URN
             | Some _, None => msg_local URN
             | Some _, Some _ => (INFO, me ++ " deleted ID=" ++ URN)
             end])
  /\ STATS s' = (match Resources s !! URN, Locals s !! URN with
                 | Some _, Some _ => <[me ++ ".Delete" := S (STATS_count (me ++ ".Delete") s)]> (STATS s)
                 | _, _ => STATS s
                 end).
Proof.
  unfold Delete_OLD_one, Index_get_delete, Relation_filter_delete,
    Resource_get_delete, Local_get_delete.
  unfold_M.
  destruct s as [es ef wp mem nm hc uc st sts lg lo re rl ix fs sv rq eps ge ac].
  simpl.
  destruct es; simpl.
  - destruct (ix !! URN) eqn:Hix; simpl;
    destruct (re !! URN) eqn:Hre; simpl;
    destruct (lo !! URN) eqn:Hlo; simpl;
    eexists; (split; [reflexivity|]); simpl;
    rewrite ?(delete_id _ _ Hix), ?(delete_id _ _ Hre), ?(delete_id _ _ Hlo), <- ?app_assoc;
    repeat split; try reflexivity.
  - destruct (re !! URN) eqn:Hre; simpl;
    destruct (lo !! URN) eqn:Hlo; simpl;
    eexists; (split; [reflexivity|]); simpl;
    rewrite ?(delete_id _ _ Hre), ?(delete_id _ _ Hlo), <- ?app_assoc;
    repeat split; try reflexivity.
Qed.




Lemma Delete_OLD_one_swept me URN s s' :
  Delete_OLD_one me URN s = (Ok tt, s') -> swept URN s s'.
Proof.
  intros Hrun.
  destruct (Delete_OLD_one_spec me URN s) as (s1 & Hs1 & Hes & Hix & Hrl & Hre & Hlo & Hlg & Hst).
  rewrite Hs1 in Hrun. injection Hrun as <-.
  split.
  - intros He. rewrite Hix, He. apply lookup_delete_eq.
  - intros k r. rewrite Hrl. intros [_ Hne]%map_lookup_filter_Some. exact Hne.
  - rewrite Hre. apply lookup_delete_eq.
  - intros [x Hx]. rewrite Hlo, Hx. apply lookup_delete_eq.
  - intros Hn. rewrite Hlo, Hn. reflexivity.
  - intros He Hn. rewrite Hlg, He, Hn. apply in_or_app. right. left. reflexivity.
  - intros Hn. rewrite Hlg, Hn. apply in_or_app. right. apply in_or_app. right. left. reflexivity.
  - intros [x Hx] Hn. rewrite Hlg, Hx, Hn. apply in_or_app. right. apply in_or_app. right. left. reflexivity.
Qed.

Lemma Delete_OLD_one_untouched me URN other s s' :
  other ≠ URN -> Delete_OLD_one me URN s = (Ok tt, s') -> untouched other s s'.
Proof.
  intros Hne Hrun.
  destruct (Delete_OLD_one_spec me URN s) as (s1 & Hs1 & Hes & Hix & Hrl & Hre & Hlo & Hlg & Hst).
  rewrite Hs1 in Hrun. injection Hrun as <-.
  split.
  - rewrite Hix. destruct (ESEARCH s); [|reflexivity]. apply lookup_delete_ne. congruence.
  - rewrite Hre. apply lookup_delete_ne. congruence.
  - rewrite Hlo. destruct (Resources s !! URN); [|reflexivity]. apply lookup_delete_ne. congruence.
  - intros k r Hr. rewrite Hrl, map_lookup_filter_Some. simpl. split; [tauto|].
    intros H. split; [exact H|]. rewrite Hr. exact Hne.
Qed.


Lemma settled_refl URN s : settled URN s s.
Proof. split; auto. Qed.

Lemma settled_trans URN s1 s2 s3 :
  settled URN s1 s2 -> settled URN s2 s3 -> settled URN s1 s3.
Proof.
  intros [a1 b1 c1 d1 e1 f1] [a2 b2 c2 d2 e2 f2]. split.
  - auto.
  - intros Hall. apply b2, b1, Hall.
  - auto.
  - auto.
  - intros Hn. rewrite (e2 (c1 Hn)). auto.
  - auto.
Qed.

Lemma untouched_refl URN s : untouched URN s s.
Proof. split; tauto. Qed.

Lemma untouched_trans URN s1 s2 s3 :
  untouched URN s1 s2 -> untouched URN s2 s3 -> untouched URN s1 s3.
Proof.
  intros [a1 b1 c1 d1] [a2 b2 c2 d2]. split; try congruence.
  intros k r Hr. rewrite (d2 k r Hr). apply d1, Hr.
Qed.

Lemma Delete_OLD_one_settled me URN u s s' :
  Delete_OLD_one me URN s = (Ok tt, s') -> settled u s s'.
Proof.
  intros Hrun.
  destruct (Delete_OLD_one_spec me URN s) as (s1 & Hs1 & Hes & Hix & Hrl & Hre & Hlo & Hlg & Hst).
  rewrite Hs1 in Hrun. injection Hrun as <-.
  split.
  - intros Hn. rewrite Hix. destruct (ESEARCH s); [|exact Hn].
    rewrite lookup_delete. case_decide; [reflexivity | exact Hn].
  - intros Hall k r. rewrite Hrl. intros [Hk _]%map_lookup_filter_Some. exact (Hall k r Hk).
  - intros Hn. rewrite Hre, lookup_delete. case_decide; [reflexivity | exact Hn].
  - intros Hn. rewrite Hlo. destruct (Resources s !! URN); [|exact Hn].
    rewrite lookup_delete. case_decide; [reflexivity | exact Hn].
  - intros Hn. rewrite Hlo. destruct (Resources s !! URN) eqn:Hr; [|reflexivity].
    apply lookup_delete_ne. intros ->. congruence.
  - intros m Hm. rewrite Hlg. apply in_or_app. left. exact Hm.
Qed.

Lemma sweep_loop (me : string) (l : list string) (s : state) :
  exists s', for_each l (Delete_OLD_one me) s = (Ok tt, s')
  /\ ESEARCH s' = ESEARCH s
  /\ (forall u, In u l -> swept u s s')
  /\ (forall u, ~ In u l -> untouched u s s')
  /\ (forall u, settled u s s').
Proof.
  revert s. induction l as [|x l IH]; intros s.
  - exists s. split; [reflexivity|]. split; [reflexivity|].
    split; [intros u []|]. split; intros; auto using untouched_refl, settled_refl.
  - destruct (Delete_OLD_one_spec me x s) as (s1 & Hs1 & Hes & _).
    destruct (IH s1) as (s' & Hs' & Hes' & Hsw & Hun & Hst).
    exists s'. rewrite for_each_cons, Hs1. split; [exact Hs'|].
    split; [congruence|].
    pose proof (Delete_OLD_one_swept _ _ _ _ Hs1) as Hx.
    split; [|split].
    + intros u Hu. destruct (decide (u = x)) as [->|Hne].
      * destruct Hx as [x1 x2 x3 x4 x5 x6 x7 x8].
        destruct (Hst x) as [m1 m2 m3 m4 m5 m6].
        split.
        -- intros He. apply m1, x1, He.
        -- apply m2, x2.
        -- apply m3, x3.
        -- intros Hsome. apply m4, x4, Hsome.
        -- intros Hn. rewrite (m5 x3). apply x5, Hn.
        -- intros He Hn. apply m6, x6; assumption.
        -- intros Hn. apply m6, x7, Hn.
        -- intros Hsome Hn. apply m6, x8; assumption.
      * destruct Hu as [Hu|Hu]; [congruence|].
        destruct (Hsw u Hu) as [x1 x2 x3 x4 x5 x6 x7 x8].
        destruct (Delete_OLD_one_untouched me x u s s1 Hne Hs1) as [u1 u2 u3 u4].
        split.
        -- intros He. apply x1. rewrite Hes. exact He.
        -- exact x2.
        -- exact x3.
        -- intros Hsome. apply x4. rewrite u2. exact Hsome.
        -- intros Hn. rewrite <- u3. apply x5. rewrite u2. exact Hn.
        -- intros He Hn. apply x6; [rewrite Hes; exact He | rewrite u1; exact Hn].
        -- intros Hn. apply x7. rewrite u2. exact Hn.
        -- intros Hsome Hn. apply x8; [rewrite u2; exact Hsome | rewrite u3; exact Hn].
    + intros u Hu.
      apply untouched_trans with s1.
      * apply (Delete_OLD_one_untouched me x u); [|exact Hs1].
        intros ->. apply Hu. left. reflexivity.
      * apply Hun. intros Hin. apply Hu. right. exact Hin.
    + intros u. apply settled_trans with s1; [|apply Hst].
      apply (Delete_OLD_one_settled me x). exact Hs1.
Qed.

(** X24. What [Delete_OLD] does as it is written. It always runs to its
    end; for every identifier in [cur] and not in [new] the index entry
    (when an index is configured), the relations with it as
    [FirstResourceID] and the [ResourceV3] row are gone afterwards; the
    [ResourceV3Local] row is gone when the [ResourceV3] row existed; every
    failed delete has its error record in the log, and none stops the sweep
    of the other identifiers; the rows and relations of an identifier that
    is in [new], or not in [cur], are unchanged. *)
Theorem Delete_OLD_sweep {V W} (me : string) (cur : dict string V) (new : dict string W)
    (s : state) :
  exists s', Delete_OLD me cur new s = (Ok tt, s')
  /\ (forall URN, In URN (dict_keys cur) -> dict_mem URN new = false -> swept URN s s')
  /\ (forall URN, dict_mem URN new = true -> untouched URN s s')
  /\ (forall URN, ~ In URN (dict_keys cur) -> untouched URN s s').
Proof.
  unfold Delete_OLD.
  destruct (sweep_loop me
              (List.filter (fun id => negb (dict_mem id new)) (dict_keys cur)) s)
    as (s' & Hrun & _ & Hsw & Hun & _).
  exists s'. split; [exact Hrun|]. split; [|split].
  - intros URN Hin Hnew. apply Hsw, filter_In. split; [exact Hin|].
    rewrite Hnew. reflexivity.
  - intros URN Hnew. apply Hun. intros [_ Hf]%filter_In.
    rewrite Hnew in Hf. discriminate.
  - intros URN Hnot. apply Hun. intros [Hin _]%filter_In. exact (Hnot Hin).
Qed.

Lemma Delete_OLD_sweep_witness :
  exists s',
    Delete_OLD "me" [(URN_A, tt)] [(URN_B, tt)] state_AB = (Ok tt, s')
    /\ Resources s' !! URN_A = None
    /\ Locals s' !! URN_A = None
    /\ Locals s' !! URN_B = Locals state_AB !! URN_B.
Proof.
  destruct (Delete_OLD_sweep "me" [(URN_A, tt)] [(URN_B, tt)] state_AB)
    as (s' & Hrun & Hsw & Hun & _).
  exists s'. split; [exact Hrun|].
  assert (HA : swept URN_A state_AB s').
  { apply Hsw; [left; reflexivity | reflexivity]. }
  split; [exact (swept_resource _ _ _ HA)|]. split.
  - apply (swept_local _ _ _ HA). vm_compute. eexists. reflexivity.
  - apply (untouched_local _ _ _ (Hun URN_B eq_refl)).
Defined.

(** C1 on the code. A stale identifier whose [ResourceV3] row is missing
    keeps its [ResourceV3Local] row: [ResourceV3.objects.get] raises before
    the delete of the local row is reached, the failure is logged, and the
    row is still stored when [Delete_OLD] ends. As the [ResourceV3] row is
    still missing then, every later sweep leaves the row again: it is never
    deleted. *)
Theorem Delete_OLD_leaves_local_row {V W} (me : string) (cur : dict string V)
    (new : dict string W) (s : state) (URN : string) (row : ResourceV3Local) :
  In URN (dict_keys cur) ->
  dict_mem URN new = false ->
  Locals s !! URN = Some row ->
  Resources s !! URN = None ->
  exists s',
    Delete_OLD me cur new s = (Ok tt, s')
    /\ Locals s' !! URN = Some row
    /\ Resources s' !! URN = None
    /\ In (msg_resource URN) (log s')
    /\ forall (cur' : dict string V) (new' : dict string W),
         Locals (snd (Delete_OLD me cur' new' s')) !! URN = Some row.
Proof.
  intros Hcur Hnew Hrow Hnone.
  assert (Hkeeps : forall (c : dict string V) (n : dict string W) s0,
            Locals s0 !! URN = Some row -> Resources s0 !! URN = None ->
            exists s1, Delete_OLD me c n s0 = (Ok tt, s1)
                       /\ Locals s1 !! URN = Some row
                       /\ Resources s1 !! URN = None
                       /\ (In URN (dict_keys c) -> dict_mem URN n = false ->
                           In (msg_resource URN) (log s1))).
  { intros c n s0 Hr0 Hn0. unfold Delete_OLD.
    destruct (sweep_loop me
                (List.filter (fun id => negb (dict_mem id n)) (dict_keys c)) s0)
      as (s1 & Hrun & _ & Hsw & _ & Hst).
    exists s1. split; [exact Hrun|].
    split; [rewrite (settled_kept _ _ _ (Hst URN) Hn0); exact Hr0|].
    split; [exact (settled_resource _ _ _ (Hst URN) Hn0)|].
    intros Hin Hn. apply (swept_log_resource URN s0 s1); [|exact Hn0].
    apply Hsw, filter_In. split; [exact Hin|]. rewrite Hn. reflexivity. }
  destruct (Hkeeps cur new s Hrow Hnone) as (s' & Hrun & Hrow' & Hnone' & Hlog).
  exists s'. split; [exact Hrun|]. split; [exact Hrow'|]. split; [exact Hnone'|].
  split; [exact (Hlog Hcur Hnew)|].
  intros cur' new'.
  destruct (Hkeeps cur' new' s' Hrow' Hnone') as (s2 & Hrun2 & Hrow2 & _).
  rewrite Hrun2. exact Hrow2.
Qed.

(** The warehouse is the one a run on the document [A] leaves behind (its
    [ResourceV3Local] row saved, no [ResourceV3] row); the next run gets an
    empty listing, so [A] is in [cur] and not in [new], and its row is
    still there after the sweep. *)
Lemma Delete_OLD_leaves_local_row_witness :
  let first_run :=
    Write_Globus_Collections (H := example_lib)
      [("globus_collections", PList [doc_A])] "globus_collections" globus_step
      empty_state in
  let cur := [(URN_A, local_row URN_A "aaaa" doc_A)] in
  let new : dict string ResourceV3Local := [] in
  Locals (snd first_run) !! URN_A = Locals state_A_local_only !! URN_A
  /\ Resources (snd first_run) !! URN_A = None
  /\ current_Locals "urn:ogf:glue2:info.xsede.org:resource:globus:"
       (Locals state_A_local_only) = cur
  /\ exists s',
       Delete_OLD me_Write_Globus_Collections cur new state_A_local_only = (Ok tt, s')
       /\ Locals s' !! URN_A = Some (local_row URN_A "aaaa" doc_A)
       /\ In (msg_resource URN_A) (log s').
Proof.
  cbv zeta. split; [reflexivity|]. split; [reflexivity|]. split; [reflexivity|].
  destruct (Delete_OLD_leaves_local_row me_Write_Globus_Collections
              [(URN_A, local_row URN_A "aaaa" doc_A)]
              ([] : dict string ResourceV3Local) state_A_local_only URN_A
              (local_row URN_A "aaaa" doc_A))
    as (s' & Hrun & Hrow & _ & Hlog & _).
  - left. reflexivity.
  - reflexivity.
  - reflexivity.
  - reflexivity.
  - exists s'. split; [exact Hrun|]. split; [exact Hrow | exact Hlog].
Defined.

End StaleSweep.

(** *** Reconciliation: [Write_Globus_Collections] *)

Section Reconciliation.

Lemma raises_bind_lift {A B} (r : result A) (k : A -> M B) :
  (forall e, r = Raise e -> is_Exception e = true) ->
  (forall a, r = Ok a -> raises_in_place (k a)) ->
  raises_in_place (x ← lift r; k x).
Proof.
  intros He Hk s. unfold_M. destruct r as [a|e].
  - exact (Hk a eq_refl s).
  - exists e. split; [reflexivity | exact (He e eq_refl)].
Qed.

Lemma raises_bind_ret {A B} (a : A) (k : A -> M B) :
  raises_in_place (k a) -> raises_in_place (x ← mret a; k x).
Proof. intros Hk s. exact (Hk s). Qed.

Lemma py_get_Exception v k d e : py_get v k d = Raise e -> is_Exception e = true.
Proof. destruct v; simpl; try destruct (dict_get k d0); intros [= <-]; reflexivity. Qed.

Lemma FD_init_Exception v e : FD_init v = Raise e -> is_Exception e = true.
Proof.
  destruct v; simpl; try (intros [= <-]; reflexivity); try discriminate.
  destruct (_ =? _)%nat; discriminate.
Qed.

Lemma save_resource_raises `{Lib} (item : pyval) (id URN : string) :
  raises_in_place (save_resource item id URN).
Proof.
  unfold save_resource.
  apply raises_bind_lift; [apply py_get_Exception | intros displayname0 _].
  destruct displayname0.
  1: apply raises_bind_lift; [apply py_get_Exception | intros displayname _].
  2-6: apply raises_bind_ret.
  all: cbv zeta.
  all: apply raises_bind_lift; [apply py_get_Exception | intros ShortDescription _].
  all: apply raises_bind_lift; [apply FD_init_Exception | intros D0 _].
  all: apply raises_bind_lift; [apply py_get_Exception | intros organization _].
  all: apply raises_bind_lift; [apply py_get_Exception | intros contact_email _].
  all: apply raises_bind_lift; [apply py_get_Exception | intros info_link _].
  all: apply raises_bind_lift; [intros e [= <-]; reflexivity | intros a [=]].
Qed.


Lemma note_display_name_spec (item : pyval) (URN : string) (s : state) :
  (exists e, note_display_name item URN s = (Raise e, s))
  \/ (exists f, note_display_name item URN s = (Ok tt, set_GLOBUS_NAME_URNMAP f s)).
Proof.
  unfold note_display_name. unfold_M.
  destruct (py_get item "display_name" PNone) as [dn|e]; [|left; eexists; reflexivity].
  destruct (truthy dn).
  - destruct (py_hash_key dn) as [key|e]; [|left; eexists; reflexivity].
    right. eexists. reflexivity.
  - right. exists (fun m => m). destruct s; reflexivity.
Qed.

Lemma save_local_spec (config : stepconf) (item : pyval) (URN : string) (s : state) :
  (exists e, save_local config item URN s = (Raise e, s) /\ is_Exception e = true)
  \/ (exists id local,
        save_local config item URN s = (Ok (id, local), set_Locals (insert URN local) s)
        /\ item_id item = Ok id /\ L_ID local = URN /\ L_LocalID local = id).
Proof.
  unfold save_local. unfold_M.
  destruct (item_id item) as [id|e] eqn:Hid.
  2: { left. exists e. split; [reflexivity|].
       unfold item_id in Hid. unfold_M.
       destruct item; simpl in Hid; try (injection Hid as <-; reflexivity).
       destruct (dict_get "id" d); [|injection Hid as <-; reflexivity].
       destruct p; simpl in Hid; try discriminate; injection Hid as <-; reflexivity. }
  assert (Hcfg : forall k e, cfg_str config k = Raise e -> is_Exception e = true).
  { intros k e. unfold cfg_str. destruct (dict_get k config) as [[[]|]|]; intros [= <-]; reflexivity. }
  destruct (cfg_str config "LOCALTYPE") as [lt|e] eqn:Hlt;
    [|left; exists e; split; [reflexivity | exact (Hcfg _ _ Hlt)]].
  destruct (cfg_str config "CATALOGURN") as [cu|e] eqn:Hcu;
    [|left; exists e; split; [reflexivity | exact (Hcfg _ _ Hcu)]].
  destruct (attr_data item) as [dat|e] eqn:Hdat.
  2: { left. exists e. split; [reflexivity|].
       destruct item; simpl in Hdat; try discriminate; injection Hdat as <-; reflexivity. }
  right. eexists _, _. split; [reflexivity|]. repeat split; reflexivity || assumption.
Qed.

(** Whatever the item, the loop body does not reach the counter: it raises
    or returns [(False, msg)]; the one row it can have written is the
    [ResourceV3Local] row of the item, under the item's identifier. *)
Lemma Write_item_outcome `{Lib} (config : stepconf) (contype me : string) (item : pyval)
    (new : dict string ResourceV3Local) (s : state) :
  exists r s', Write_item config contype me item new s = (r, s')
  /\ STATS s' = STATS s
  /\ Resources s' = Resources s
  /\ Index s' = Index s
  /\ Relations s' = Relations s
  /\ stops r
  /\ (Locals s' = Locals s
      \/ exists URN local,
           item_GLOBALURN config item = Ok URN
           /\ L_ID local = URN
           /\ (forall id, item_id item = Ok id -> L_LocalID local = id)
           /\ Locals s' = <[URN := local]> (Locals s)).
Proof.
  unfold Write_item.
  destruct (item_GLOBALURN config item) as [URN|e] eqn:HURN.
  2: { eexists _, s. split; [reflexivity|]. repeat split; try (left; reflexivity).
       left. eexists. reflexivity. }
  change (mbind ?k (lift (Ok URN)) s) with (k URN s). cbv beta.
  unfold mbind at 1, M_bind, bind.
  destruct (note_display_name_spec item URN s) as [[e ->]|[f ->]].
  { eexists _, s. split; [reflexivity|]. repeat split; try (left; reflexivity).
    left. eexists. reflexivity. }
  unfold try_except_else at 1.
  destruct (save_local_spec config item URN (set_GLOBUS_NAME_URNMAP f s))
    as [(e & -> & He)|(id & local & -> & Hid & HL & HLid)].
  { rewrite He. eexists _, _. split; [reflexivity|].
    repeat split; try (left; reflexivity).
    right. eexists. reflexivity. }
  unfold try_except_else.
  destruct (save_resource_raises item id URN
              (set_Locals (insert URN local) (set_GLOBUS_NAME_URNMAP f s)))
    as (e & -> & ->).
  eexists _, _. split; [reflexivity|]. repeat split.
  - right. eexists. reflexivity.
  - right. exists URN, local. repeat split; try assumption.
    intros id' Hid'. congruence.
Qed.

(** X11. With at least one item in the listing,
    [Write_Globus_Collections] ends at the first item, by an exception or
    by returning a failure: it never returns [(0, '')], no counter moves
    and no [ResourceV3] row or index entry is written or deleted. *)
Lemma Write_Globus_Collections_stops `{Lib} (content : envelope) (contype : string)
    (config : stepconf) (item : pyval) (rest : list pyval) (s : state) :
  envelope_item content contype = Ok (PList (item :: rest)) ->
  exists r s', Write_Globus_Collections content contype config s = (r, s')
  /\ STATS s' = STATS s
  /\ Resources s' = Resources s
  /\ Index s' = Index s
  /\ r <> Ok (PInt 0, "").
Proof.
  intros Hc. unfold Write_Globus_Collections.
  destruct (cfg_str config "URNPREFIX") as [prefix|e].
  2: { eexists _, s. split; [reflexivity|]. repeat split. discriminate. }
  unfold_M. rewrite Hc. cbn [py_iter Write_items].
  destruct (Write_item_outcome config contype me_Write_Globus_Collections item [] s)
    as (r & s' & Hrun & Hst & Hre & Hix & _ & Hstop & _).
  unfold_M. rewrite Hrun.
  destruct Hstop as [[e ->]|[msg ->]].
  - eexists _, s'. split; [reflexivity|]. repeat split; try assumption. discriminate.
  - eexists _, s'. split; [reflexivity|]. repeat split; try assumption. discriminate.
Qed.

Lemma Write_Globus_Collections_stops_witness :
  exists r s',
    Write_Globus_Collections (H := example_lib)
      [("globus_collections", PList [doc_C])] "globus_collections" globus_step
      state_AB = (r, s')
    /\ STATS s' = STATS state_AB
    /\ Resources s' = Resources state_AB
    /\ r <> Ok (PInt 0, "").
Proof.
  destruct (Write_Globus_Collections_stops (H := example_lib)
              [("globus_collections", PList [doc_C])] "globus_collections"
              globus_step doc_C [] state_AB eq_refl)
    as (r & s' & Hrun & Hst & Hre & _ & Hr).
  exists r, s'. repeat split; assumption.
Defined.

(** C2 on the code. The warehouse holds [A] and [B]; the listing holds [B]
    and [C]. The function returns [(False, msg)] at [B]: [A] is still
    stored, [C] is not, and the [Update] and [Delete] counters are 0. *)
Theorem Write_Globus_Collections_AB_BC :
  let content := [("globus_collections", PList [doc_B; doc_C])] in
  let run := Write_Globus_Collections (H := example_lib) content "globus_collections"
               globus_step state_AB in
  item_GLOBALURN globus_step doc_B = Ok URN_B
  /\ item_GLOBALURN globus_step doc_C = Ok URN_C
  /\ map fst (current_Locals "urn:ogf:glue2:info.xsede.org:resource:globus:"
                (Locals state_AB)) = [URN_A; URN_B]
  /\ fst run = Ok (PBool false,
                   "AttributeError saving resource ID=" ++ URN_B
                   ++ ": 'str' object has no attribute 'formaDt'")
  /\ map fst (map_to_list (Locals (snd run))) = [URN_A; URN_B]
  /\ STATS_count (me_Write_Globus_Collections ++ ".Update") (snd run) = 0%nat
  /\ STATS_count (me_Write_Globus_Collections ++ ".Delete") (snd run) = 0%nat.
Proof.
  vm_compute. repeat split.
Qed.

(** The first pass of the loop body on a record that has an [id], for a
    step that has the three entries the row is built from: the
    [ResourceV3Local] row is saved under the identifier, the second [try]
    fails, and the function is left with [(False, msg)]. *)
Lemma Write_item_saves_local `{Lib} (config : stepconf) (contype me : string)
    (prefix localtype catalogurn : string) (d : list (string * pyval)) (id : string)
    (new : dict string ResourceV3Local) (s : state) :
  cfg_str config "URNPREFIX" = Ok prefix ->
  cfg_str config "LOCALTYPE" = Ok localtype ->
  cfg_str config "CATALOGURN" = Ok catalogurn ->
  dict_get "id" d = Some (PStr id) ->
  (forall v, dict_get "display_name" d = Some v -> truthy v = true ->
             exists key, py_hash_key v = Ok key) ->
  let URN := rstrip ":" prefix ++ ":" ++ "globusuuid" ++ ":" ++ id in
  let row := mkLocal URN DefaultValidity Affiliation id localtype
               ("https://app.globus.org/file-manager?origin_id=" ++ id)
               (CATALOGURN_to_URL (WAREHOUSE_API_PREFIX s) catalogurn) (PDict d) in
  exists msg s',
    Write_item config contype me (PDict d) new s = (Ok (Return (PBool false) msg), s')
    /\ Locals s' = <[URN := row]> (Locals s).
Proof.
  intros Hp Hlt Hcu Hid Hname URN row.
  assert (Hitem : py_getitem (PDict d) "id" = Ok (PStr id))
    by (cbn; rewrite Hid; reflexivity).
  pose proof (item_GLOBALURN_eq config (PDict d) prefix id Hp Hitem) as HURN.
  fold URN in HURN.
  unfold Write_item. rewrite HURN.
  change (mbind ?k (lift (Ok URN)) s) with (k URN s). cbv beta.
  unfold mbind at 1, M_bind, bind.
  assert (Hnote : exists f, note_display_name (PDict d) URN s
                            = (Ok tt, set_GLOBUS_NAME_URNMAP f s)).
  { unfold note_display_name. unfold_M. cbn [py_get].
    destruct (dict_get "display_name" d) as [v|] eqn:Hv.
    - destruct (truthy v) eqn:Ht.
      + destruct (Hname v eq_refl Ht) as [key ->]. eexists. reflexivity.
      + exists (fun m => m). destruct s; reflexivity.
    - cbn [truthy]. exists (fun m => m). destruct s; reflexivity. }
  destruct Hnote as [f ->].
  set (s1 := set_GLOBUS_NAME_URNMAP f s).
  assert (Hsave : save_local config (PDict d) URN s1
                  = (Ok (id, row), set_Locals (insert URN row) s1)).
  { unfold save_local, item_id. unfold_M. rewrite Hitem. cbn [as_str].
    rewrite Hlt, Hcu. cbn [attr_data]. unfold row, s1. destruct s; reflexivity. }
  unfold try_except_else at 1. rewrite Hsave.
  unfold try_except_else.
  destruct (save_resource_raises (PDict d) id URN (set_Locals (insert URN row) s1))
    as (e & -> & ->).
  unfold_M. eexists _, _. split; [reflexivity|].
  unfold s1. destruct s; reflexivity.
Qed.

(** C3 on the code. For the first record of a listing the identifier is
    the prefix without its trailing colons, then [:globusuuid:], then the
    native id, a function of the prefix and the id alone, and the
    [ResourceV3Local] row of the record is stored under it, replacing the
    row that was there. That is all the function does: it returns
    [(False, msg)] at this record, so for a later record of the listing no
    identifier is computed and no row is stored or replaced. *)
Theorem Write_Globus_Collections_identifies_first `{Lib} (content : envelope)
    (contype : string) (config : stepconf) (prefix localtype catalogurn : string)
    (d : list (string * pyval)) (id : string) (rest : list pyval) (s : state) :
  cfg_str config "URNPREFIX" = Ok prefix ->
  cfg_str config "LOCALTYPE" = Ok localtype ->
  cfg_str config "CATALOGURN" = Ok catalogurn ->
  envelope_item content contype = Ok (PList (PDict d :: rest)) ->
  dict_get "id" d = Some (PStr id) ->
  (forall v, dict_get "display_name" d = Some v -> truthy v = true ->
             exists key, py_hash_key v = Ok key) ->
  let URN := rstrip ":" prefix ++ ":" ++ "globusuuid" ++ ":" ++ id in
  let row := mkLocal URN DefaultValidity Affiliation id localtype
               ("https://app.globus.org/file-manager?origin_id=" ++ id)
               (CATALOGURN_to_URL (WAREHOUSE_API_PREFIX s) catalogurn) (PDict d) in
  exists msg s',
    Write_Globus_Collections content contype config s = (Ok (PBool false, msg), s')
    /\ item_GLOBALURN config (PDict d) = Ok URN
    /\ Locals s' = <[URN := row]> (Locals s)
    /\ forall later URN',
         In later rest ->
         item_GLOBALURN config later = Ok URN' ->
         URN' ≠ URN ->
         Locals s' !! URN' = Locals s !! URN'.
Proof.
  intros Hp Hlt Hcu Hc Hid Hname URN row.
  destruct (Write_item_saves_local config contype me_Write_Globus_Collections
              prefix localtype catalogurn d id [] s Hp Hlt Hcu Hid Hname)
    as (msg & s' & Hrun & Hlocals).
  exists msg, s'. split; [|split; [|split]].
  - unfold Write_Globus_Collections. rewrite Hp. unfold_M. rewrite Hc.
    cbn [py_iter Write_items]. unfold_M. rewrite Hrun. reflexivity.
  - apply item_GLOBALURN_eq; [exact Hp|]. cbn. rewrite Hid. reflexivity.
  - exact Hlocals.
  - intros later URN' _ _ Hne. rewrite Hlocals. apply lookup_insert_ne.
    intros Heq. apply Hne. symmetry. exact Heq.
Qed.

Lemma Write_Globus_Collections_identifies_first_witness :
  exists msg s',
    Write_Globus_Collections (H := example_lib)
      [("globus_collections", PList [doc_A; doc_B])] "globus_collections"
      globus_step empty_state = (Ok (PBool false, msg), s')
    /\ Locals s' !! URN_A = Some (local_row URN_A "aaaa" doc_A)
    /\ item_GLOBALURN globus_step doc_B = Ok URN_B
    /\ Locals s' !! URN_B = None.
Proof.
  destruct (Write_Globus_Collections_identifies_first (H := example_lib)
              [("globus_collections", PList [doc_A; doc_B])] "globus_collections"
              globus_step "urn:ogf:glue2:info.xsede.org:resource:globus:"
              "globus_collections" "urn:ogf:glue2:info.xsede.org:catalog:globus"
              [ ("id", PStr "aaaa"); ("display_name", PStr "Collection A");
                ("name", PNone); ("description", PNone);
                ("organization", PStr "Example University");
                ("contact_email", PNone); ("info_link", PNone); ("keywords", PNone) ]
              "aaaa" [doc_B] empty_state eq_refl eq_refl eq_refl eq_refl eq_refl)
    as (msg & s' & Hrun & _ & Hlocals & Hlater).
  - intros v [= <-] _. eexists. reflexivity.
  - exists msg, s'. split; [exact Hrun|]. split; [|split].
    + rewrite Hlocals. apply lookup_insert_eq.
    + reflexivity.
    + rewrite (Hlater doc_B URN_B); [reflexivity | left; reflexivity | reflexivity
                                    | discriminate].
Defined.

End Reconciliation.

(** *** Dictionaries *)

Section Dictionaries.
Context {K V : Type} `{EqDecision K}.

Lemma dict_get_set (k k' : K) (v : V) (d : dict K V) :
  dict_get k' (dict_set k v d) = if decide (k' = k) then Some v else dict_get k' d.
Proof.
  induction d as [|[k0 v0] d IH]; simpl.
  - destruct (decide (k' = k)); reflexivity.
  - destruct (decide (k = k0)) as [->|Hne]; simpl.
    + destruct (decide (k' = k0)); reflexivity.
    + destruct (decide (k' = k0)) as [->|Hne'].
      * destruct (decide (k0 = k)); [congruence | reflexivity].
      * exact IH.
Qed.

Lemma dict_get_set_eq (k : K) (v : V) (d : dict K V) :
  dict_get k (dict_set k v d) = Some v.
Proof. rewrite dict_get_set. destruct (decide (k = k)); congruence. Qed.

Lemma dict_get_set_ne (k k' : K) (v : V) (d : dict K V) :
  k' ≠ k -> dict_get k' (dict_set k v d) = dict_get k' d.
Proof. intros Hne. rewrite dict_get_set. destruct (decide (k' = k)); congruence. Qed.

Lemma dict_get_None (k : K) (d : dict K V) :
  ~ In k (dict_keys d) -> dict_get k d = None.
Proof.
  induction d as [|[k0 v0] d IH]; simpl; intros Hnot; [reflexivity|].
  destruct (decide (k = k0)) as [->|Hne]; [tauto|].
  apply IH. tauto.
Qed.

Lemma dict_get_Some_In (k : K) (v : V) (d : dict K V) :
  dict_get k d = Some v -> In (k, v) d.
Proof.
  induction d as [|[k0 v0] d IH]; simpl; [discriminate|].
  destruct (decide (k = k0)) as [->|Hne].
  - intros [= ->]. left. reflexivity.
  - intros Hg. right. exact (IH Hg).
Qed.

Lemma dict_get_In (k : K) (v : V) (d : dict K V) :
  NoDup (dict_keys d) -> In (k, v) d -> dict_get k d = Some v.
Proof.
  induction d as [|[k0 v0] d IH]; simpl; intros Hnd Hin; [tauto|].
  apply NoDup_cons in Hnd as [Hk0 Hnd].
  destruct Hin as [[= -> ->]|Hin].
  - destruct (decide (k = k)); congruence.
  - destruct (decide (k = k0)) as [->|Hne]; [|exact (IH Hnd Hin)].
    exfalso. apply Hk0, list_elem_of_In. apply (in_map fst) in Hin. exact Hin.
Qed.

Lemma dict_keys_set (k : K) (v : V) (d : dict K V) :
  forall k', In k' (dict_keys (dict_set k v d)) <-> k' = k \/ In k' (dict_keys d).
Proof.
  induction d as [|[k0 v0] d IH]; simpl; intros k'.
  - intuition congruence.
  - destruct (decide (k = k0)) as [->|Hne]; simpl.
    + intuition congruence.
    + rewrite IH. intuition congruence.
Qed.

Lemma dict_set_NoDup (k : K) (v : V) (d : dict K V) :
  NoDup (dict_keys d) -> NoDup (dict_keys (dict_set k v d)).
Proof.
  induction d as [|[k0 v0] d IH]; simpl; intros Hnd.
  - apply NoDup_cons_2; [apply not_elem_of_nil | apply NoDup_nil_2].
  - apply NoDup_cons in Hnd as [Hk0 Hnd].
    destruct (decide (k = k0)) as [->|Hne]; simpl.
    + apply NoDup_cons_2; assumption.
    + apply NoDup_cons_2; [|exact (IH Hnd)].
      rewrite list_elem_of_In, dict_keys_set.
      rewrite list_elem_of_In in Hk0. intros [Heq|Hin]; [congruence | tauto].
Qed.

(** Unpacking [a] and then [b]: the value of [b] where [b] has the key, the
    value of [a] elsewhere. *)
Lemma dict_get_merge (k : K) (a b : dict K V) :
  NoDup (dict_keys b) ->
  dict_get k (dict_merge a b) =
    match dict_get k b with
    | Some v => Some v
    | None => dict_get k a
    end.
Proof.
  unfold dict_merge. revert a.
  induction b as [|[k0 v0] b IH]; intros a Hnd; [reflexivity|].
  apply NoDup_cons in Hnd as [Hk0 Hnd].
  simpl. rewrite (IH _ Hnd), dict_get_set.
  destruct (decide (k = k0)) as [->|Hne]; [|reflexivity].
  rewrite dict_get_None; [reflexivity|].
  rewrite <- list_elem_of_In. exact Hk0.
Qed.

End Dictionaries.

(** *** The memory sink: [Write_MEMORY] *)

Section Memory.

(** The loop of [Write_MEMORY] files the records one by one in the table of
    the type tag and touches nothing else. *)
Lemma Write_MEMORY_loop (contype conkey : string) (items : list pyval) :
  forall (s : state) (table : dict hkey pyval),
  dict_get contype (memory s) = Some table ->
  exists s',
    for_each items (fun item =>
      try_bare
        (v ← lift (py_getitem item conkey);
         key ← lift (py_hash_key v);
         memory_store contype key item)
        (ret tt)) s = (Ok tt, s')
    /\ dict_get contype (memory s') = Some (fold_left (file_record conkey) items table)
    /\ (forall t, t ≠ contype -> dict_get t (memory s') = dict_get t (memory s))
    /\ STATS s' = STATS s
    /\ log s' = log s.
Proof.
  induction items as [|item items IH]; intros s table Hm.
  - exists s. repeat split; assumption || reflexivity.
  - rewrite for_each_cons. unfold file_record at 1. cbn [fold_left].
    unfold record_key, try_bare, memory_store. unfold_M.
    destruct (py_getitem item conkey) as [v|e].
    + destruct (py_hash_key v) as [key|e].
      * rewrite Hm.
        destruct (IH (set_memory (dict_set contype (dict_set key item table)) s)
                    (dict_set key item table))
          as (s' & Hrun & Hget & Hother & Hst & Hlog).
        { destruct s. apply dict_get_set_eq. }
        exists s'. split; [exact Hrun|]. split; [exact Hget|].
        split; [|split; [rewrite Hst; destruct s; reflexivity
                        | rewrite Hlog; destruct s; reflexivity]].
        intros t Ht. rewrite (Hother t Ht). destruct s. apply dict_get_set_ne, Ht.
      * destruct (IH s table Hm) as (s' & Hrun & Hrest). exists s'. split; [exact Hrun | exact Hrest].
    + destruct (IH s table Hm) as (s' & Hrun & Hrest). exists s'. split; [exact Hrun | exact Hrest].
Qed.

Lemma file_records_other (conkey : string) (items : list pyval) (key : hkey) :
  forall table,
  (forall item, In item items -> record_key conkey item ≠ Some key) ->
  dict_get key (fold_left (file_record conkey) items table) = dict_get key table.
Proof.
  induction items as [|item items IH]; intros table Hno; [reflexivity|].
  cbn [fold_left]. rewrite IH.
  - unfold file_record. destruct (record_key conkey item) as [k|] eqn:Hk; [|reflexivity].
    apply dict_get_set_ne. intros ->. apply (Hno item); [left; reflexivity | exact Hk].
  - intros item' Hin. apply Hno. right. exact Hin.
Qed.

(** C7, as the code has it. For an envelope holding a list under the type
    tag, [Write_MEMORY] returns [(0, '')]; a record that has the key field
    with a hashable value is found in the table of the type tag under that
    value, unless a later record of the list has the same one; a record
    without such a key is passed over: no table entry, no exception, and no
    counter or log record, whether of a skip or of an error. *)
Theorem Write_MEMORY_files_records (content : envelope) (contype conkey : string)
    (items : list pyval) (s : state) :
  envelope_item content contype = Ok (PList items) ->
  exists s',
    Write_MEMORY content contype conkey s = (Ok (PInt 0, ""), s')
    /\ STATS s' = STATS s
    /\ log s' = log s
    /\ (forall before item after key,
          items = (before ++ item :: after)%list ->
          record_key conkey item = Some key ->
          (forall later, In later after -> record_key conkey later ≠ Some key) ->
          dict_get key (memory_table contype s') = Some item)
    /\ (forall key,
          (forall item, In item items -> record_key conkey item ≠ Some key) ->
          dict_get key (memory_table contype s') = dict_get key (memory_table contype s))
    /\ (forall t, t ≠ contype -> dict_get t (memory s') = dict_get t (memory s)).
Proof.
  intros Hc. unfold Write_MEMORY. unfold_M. rewrite Hc. cbn [py_iter].
  set (s1 := set_memory
               (fun m => if dict_mem contype m then m else dict_set contype [] m) s).
  assert (H1 : dict_get contype (memory s1) = Some (memory_table contype s)).
  { unfold s1, memory_table, dict_mem. destruct s as [? ? ? mem]; cbn.
    destruct (dict_get contype mem) eqn:Hg; [exact Hg | apply dict_get_set_eq]. }
  assert (H1' : forall t, t ≠ contype -> dict_get t (memory s1) = dict_get t (memory s)).
  { intros t Ht. unfold s1, dict_mem. destruct s as [? ? ? mem]; cbn.
    destruct (dict_get contype mem); [reflexivity | apply dict_get_set_ne, Ht]. }
  destruct (Write_MEMORY_loop contype conkey items s1 _ H1)
    as (s' & Hrun & Hget & Hother & Hst & Hlog).
  unfold_M. rewrite Hrun.
  exists s'. split; [reflexivity|].
  split; [rewrite Hst; unfold s1; destruct s; reflexivity|].
  split; [rewrite Hlog; unfold s1; destruct s; reflexivity|].
  assert (Htable : memory_table contype s'
                   = fold_left (file_record conkey) items (memory_table contype s)).
  { unfold memory_table at 1. rewrite Hget. reflexivity. }
  split; [|split].
  - intros before item after key -> Hkey Hlater.
    rewrite Htable, fold_left_app. cbn [fold_left].
    rewrite (file_records_other conkey after key _ Hlater).
    unfold file_record. rewrite Hkey. apply dict_get_set_eq.
  - intros key Hno. rewrite Htable. apply file_records_other, Hno.
  - intros t Ht. rewrite (Hother t Ht). apply H1', Ht.
Qed.

Lemma Write_MEMORY_files_records_witness :
  exists s',
    Write_MEMORY two_records "t" "k" empty_state = (Ok (PInt 0, ""), s')
    /\ STATS s' = STATS empty_state
    /\ dict_get (HStr "a") (memory_table "t" s') = Some record_a.
Proof.
  destruct (Write_MEMORY_files_records two_records "t" "k" [record_a; record_nokey]
              empty_state eq_refl)
    as (s' & Hrun & Hst & _ & Hin & _).
  exists s'. split; [exact Hrun|]. split; [exact Hst|].
  apply (Hin [] record_a [record_nokey] (HStr "a") eq_refl eq_refl).
  intros later [<-|[]]. discriminate.
Defined.

(** A skip that no counter records. The second record has no key field
    [k]; the call succeeds, and afterwards every counter, [Skip] included,
    is 0 and the log is empty. *)
Lemma Write_MEMORY_skip_not_counted :
  let run := Write_MEMORY two_records "t" "k" empty_state in
  py_getitem record_nokey "k" = Raise (KeyError "k")
  /\ fst run = Ok (PInt 0, "")
  /\ (forall key, STATS_count key (snd run) = 0%nat)
  /\ log (snd run) = []
  /\ ~ (exists key, STATS_count key (snd run) = S (STATS_count key empty_state)).
Proof.
  cbv zeta. split; [reflexivity|]. split; [reflexivity|].
  assert (Hst : forall key, STATS_count key (snd (Write_MEMORY two_records "t" "k" empty_state)) = 0%nat).
  { intros key. reflexivity. }
  split; [exact Hst|]. split; [reflexivity|].
  intros [key Hkey]. rewrite Hst in Hkey. discriminate.
Qed.

End Memory.

(** *** Step resolution: [Setup] *)

Section StepResolution.

(** C6, as the code has it. For a step (a dictionary) that names a known
    catalogue entry and passes the scheme checks, [Setup] appends one
    resolved step: on every key other than [SOURCEURL], [SRCURL] and
    [DSTURL] it has the step's value where the step has the key and the
    catalogue's value elsewhere; [SOURCEURL] is the catalogue's
    [CatalogAPIURL] whatever the step gave, and [SRCURL] and [DSTURL] are
    the parsed source and destination. *)
Theorem Setup_step_resolves `{Lib} (CATALOGS : dict string stepconf)
    (stepconf0 myCAT : stepconf) (id api dest : string) (s : state) :
  NoDup (dict_keys stepconf0) ->
  dict_get "CATALOGURN" stepconf0 = Some (CVal (PStr id)) ->
  dict_get id CATALOGS = Some myCAT ->
  dict_get "CatalogAPIURL" myCAT = Some (CVal (PStr api)) ->
  dict_get "DESTINATION" stepconf0 = Some (CVal (PStr dest)) ->
  str_in (scheme (urlparse api)) ["file"; "http"; "https"] = true ->
  str_in (scheme (urlparse dest)) ["file"; "analyze"; "function"; "memory"] = true ->
  str_in (scheme (urlparse api)) ["file"] && str_in (scheme (urlparse dest)) ["file"] = false ->
  exists resolved s',
    Setup_step CATALOGS stepconf0 s = (Ok tt, s')
    /\ STEPS s' = (STEPS s ++ [resolved])%list
    /\ dict_get "SOURCEURL" resolved = Some (CVal (PStr api))
    /\ dict_get "SRCURL" resolved = Some (CUrl (urlparse api))
    /\ dict_get "DSTURL" resolved = Some (CUrl (urlparse dest))
    /\ (forall k, k ≠ "SOURCEURL" -> k ≠ "SRCURL" -> k ≠ "DSTURL" ->
          dict_get k resolved =
            match dict_get k stepconf0 with
            | Some v => Some v
            | None => dict_get k myCAT
            end).
Proof.
  intros Hnd Hurn Hcat Hapi Hdst Hsrc_ok Hdst_ok Hboth.
  set (c3 := dict_set "DSTURL" (CUrl (urlparse dest))
               (dict_set "SRCURL" (CUrl (urlparse api))
                  (dict_set "SOURCEURL" (CVal (PStr api)) stepconf0))).
  assert (Hnd3 : NoDup (dict_keys c3)) by (unfold c3; auto using dict_set_NoDup).
  exists (dict_merge myCAT c3).
  unfold Setup_step. rewrite Hurn, Hcat. unfold cfg_item. rewrite Hapi.
  unfold_M. rewrite Hsrc_ok. cbn [negb].
  rewrite dict_get_set_ne by discriminate.
  rewrite dict_get_set_ne by discriminate.
  rewrite Hdst, Hdst_ok. cbn [negb]. rewrite Hboth.
  eexists. split; [reflexivity|].
  split; [destruct s; reflexivity|].
  fold c3. rewrite !dict_get_merge by exact Hnd3. unfold c3.
  split; [|split; [|split]].
  - rewrite dict_get_set_ne by discriminate.
    rewrite dict_get_set_ne by discriminate.
    rewrite dict_get_set_eq. reflexivity.
  - rewrite dict_get_set_ne by discriminate.
    rewrite dict_get_set_eq. reflexivity.
  - rewrite dict_get_set_eq. reflexivity.
  - intros k H1 H2 H3. rewrite dict_get_merge by exact Hnd3. unfold c3.
    rewrite !dict_get_set_ne by assumption. reflexivity.
Qed.

Lemma Setup_step_resolves_witness :
  exists resolved s',
    Setup_step (H := example_lib) example_CATALOGS raw_step empty_state = (Ok tt, s')
    /\ STEPS s' = [resolved]
    /\ dict_get "Name" resolved = Some (CVal (PStr "Step name"))
    /\ dict_get "ID" resolved
       = Some (CVal (PStr "urn:ogf:glue2:info.xsede.org:catalog:globus")).
Proof.
  assert (Hnd : NoDup (dict_keys raw_step)).
  { apply (bool_decide_unpack _). vm_compute. exact I. }
  destruct (Setup_step_resolves (H := example_lib) example_CATALOGS raw_step
              globus_catalog "urn:ogf:glue2:info.xsede.org:catalog:globus"
              "https://transfer.api.globus.org/v0.10"
              "function:Write_Globus_Collections" empty_state
              Hnd eq_refl eq_refl eq_refl eq_refl eq_refl eq_refl eq_refl)
    as (resolved & s' & Hrun & Hsteps & _ & _ & _ & Hother).
  exists resolved, s'. split; [exact Hrun|]. split; [exact Hsteps|].
  split; apply Hother; discriminate.
Defined.

(** A step whose own [SOURCEURL] is lost: the resolved step has the
    catalogue's API URL under [SOURCEURL], not the step's, against C6. *)
Lemma Setup_overwrites_SOURCEURL :
  let run := Setup (H := example_lib) example_CATALOGS [raw_step] empty_state in
  dict_get "SOURCEURL" raw_step = Some (CVal (PStr "https://step.example.org/own/listing"))
  /\ fst run = Ok tt
  /\ map (dict_get "SOURCEURL") (STEPS (snd run))
     = [Some (CVal (PStr "https://transfer.api.globus.org/v0.10"))]
  /\ map (dict_get "SOURCEURL") (STEPS (snd run))
     <> [dict_get "SOURCEURL" raw_step].
Proof.
  vm_compute. repeat split. discriminate.
Qed.

End StepResolution.

(** *** The HTTP cache: [Get_HTTP] *)

Section HttpCache.

(** A step that [Setup] accepts adds one use to its catalogue API URL. *)
Lemma Setup_step_counts `{Lib} (CATALOGS : dict string stepconf) (conf : stepconf)
    (s s' : state) :
  Setup_step CATALOGS conf s = (Ok tt, s') ->
  exists api, step_source CATALOGS conf = Some api
  /\ (forall url, url_uses url s' = if decide (url = api) then S (url_uses url s) else url_uses url s)
  /\ HTTP_CACHE s' = HTTP_CACHE s
  /\ requests s' = requests s.
Proof.
  unfold Setup_step, step_source, cfg_item, exit. unfold_M.
  destruct (dict_get "CATALOGURN" conf) as [[[| | |id| |]|]|]; try discriminate.
  destruct (dict_get id CATALOGS) as [myCAT|]; try discriminate.
  destruct (dict_get "CatalogAPIURL" myCAT) as [[[| | |api| |]|]|]; try discriminate.
  intros Hrun. exists api. split; [reflexivity|].
  set (s1 := set_URL_USE_COUNT _ s) in Hrun.
  assert (H1 : s' = s1 \/ exists r, s' = set_STEPS r s1).
  { destruct (negb (str_in (scheme (urlparse api)) ["file"; "http"; "https"]));
      [discriminate|].
    destruct (dict_get "DESTINATION" _) as [[[| | |dest| |]|]|]; try discriminate.
    destruct (negb (str_in (scheme (urlparse dest)) _)); [discriminate|].
    destruct (_ && _); [discriminate|].
    injection Hrun as <-. right. eexists. reflexivity. }
  assert (Hs1 : forall url, url_uses url s1 = if decide (url = api) then S (url_uses url s) else url_uses url s).
  { intros url. unfold s1, url_uses. destruct s as [? ? ? ? ? ? counts]; cbn.
    destruct (dict_get api counts) as [n|] eqn:Hn; rewrite dict_get_set;
      destruct (decide (url = api)) as [->|Hne]; try reflexivity.
    - rewrite Hn. reflexivity.
    - rewrite Hn. reflexivity. }
  destruct H1 as [->|[r ->]].
  - split; [exact Hs1|]. unfold s1. destruct s; split; reflexivity.
  - split; [|unfold s1; destruct s; split; reflexivity].
    intros url. rewrite <- Hs1. unfold s1. destruct s; reflexivity.
Qed.

(** X3. After a successful [Setup] the use count of a URL in
    [self.URL_USE_COUNT] is the number of configured steps whose catalogue
    entry gives that URL as its API URL. *)
Lemma Setup_counts_references `{Lib} (CATALOGS : dict string stepconf)
    (steps : list stepconf) (s s' : state) (url : string) :
  Setup CATALOGS steps s = (Ok tt, s') ->
  url_uses url s' = references CATALOGS steps url.
Proof.
  unfold Setup. unfold_M.
  set (s0 := set_STEPS _ _).
  assert (H0 : url_uses url s0 = 0%nat) by (destruct s; reflexivity).
  intros Hrun.
  enough (Hgen : forall steps s0 s',
             for_each steps (Setup_step CATALOGS) s0 = (Ok tt, s') ->
             url_uses url s' = (url_uses url s0 + references CATALOGS steps url)%nat).
  { rewrite (Hgen steps s0 s'), H0; [reflexivity|].
    destruct (for_each steps (Setup_step CATALOGS) s0) as [[[]|e] s2];
      [exact Hrun | discriminate]. }
  clear. induction steps as [|conf steps IH]; intros s0 s' Hrun.
  - injection Hrun as <-. unfold references. simpl. lia.
  - rewrite for_each_cons in Hrun.
    destruct (Setup_step CATALOGS conf s0) as [[[]|e] s1] eqn:Hstep; [|discriminate].
    destruct (Setup_step_counts _ _ _ _ Hstep) as (api & Hsrc & Huses & _).
    rewrite (IH _ _ Hrun), Huses. unfold references. cbn [List.filter].
    rewrite Hsrc. destruct (decide (url = api)) as [->|Hne].
    + rewrite bool_decide_eq_true_2 by reflexivity. simpl. lia.
    + rewrite bool_decide_eq_false_2 by congruence. lia.
Qed.

Lemma Setup_counts_references_witness :
  let run := Setup (H := example_lib) example_CATALOGS [step_A; step_B; raw_step]
               empty_state in
  fst run = Ok tt
  /\ url_uses "https://transfer.api.globus.org/v0.10" (snd run) = 3%nat
  /\ url_uses "https://step.example.org/own/listing" (snd run) = 0%nat.
Proof.
  cbv zeta. split; [reflexivity|]. split.
  - exact (Setup_counts_references (H := example_lib) example_CATALOGS
             [step_A; step_B; raw_step] empty_state _
             "https://transfer.api.globus.org/v0.10" eq_refl).
  - exact (Setup_counts_references (H := example_lib) example_CATALOGS
             [step_A; step_B; raw_step] empty_state _
             "https://step.example.org/own/listing" eq_refl).
Defined.












(** A URL that two steps share under one type tag and that is fetched
    twice. The catalogue gives the URL with an upper-case scheme; [Setup]
    accepts the steps and counts two uses under that text, [Get_HTTP] looks
    up the text of [geturl()], which has the scheme in lower case, finds no
    count, and caches nothing: the second call sends a second request. *)
Lemma Get_HTTP_shared_url_other_text :
  let setup := Setup (H := lowering_lib) upper_case_CATALOGS [step_A; step_A]
                 empty_state in
  let s0 := snd setup in
  let u := lowering_urlparse "HTTPS://transfer.api.globus.org/v0.10" in
  let first := Get_HTTP u "A" s0 in
  let second := Get_HTTP u "A" (snd first) in
  fst setup = Ok tt
  /\ URL_USE_COUNT s0 = [("HTTPS://transfer.api.globus.org/v0.10", 2%nat)]
  /\ map (fun conf => cfg_url conf "SRCURL") (STEPS s0) = [Ok u; Ok u]
  /\ geturl u = "https://transfer.api.globus.org/v0.10"
  /\ references upper_case_CATALOGS [step_A; step_A] (geturl u) = 0%nat
  /\ HTTP_CACHE (snd first) = []
  /\ requests (snd second) = [geturl u; geturl u].
Proof.
  vm_compute. repeat split.
Qed.

(** [Run] itself does not go through [Get_HTTP]: an iteration over the two
    steps sends no GET and caches nothing; each step lists the collections
    through the Globus client. *)
Lemma Run_once_sends_no_GET :
  let s0 := snd (Setup (H := example_lib) example_CATALOGS [step_A; step_B] empty_state) in
  let run := Run_once (H := example_lib) s0 in
  fst run = Ok 0%Z
  /\ requests (snd run) = []
  /\ HTTP_CACHE (snd run) = []
  /\ List.length (activities (snd run)) = 2%nat.
Proof.
  vm_compute. repeat split.
Qed.

End HttpCache.

(** *** The iteration over the steps: [Run] *)

Section Iteration.

(** The branch for an envelope without the type tag raises [NameError]. *)
Lemma Run_dispatch_missing_tag `{Lib} (conf : stepconf) (DSTURL : url)
    (LOCALTYPE : string) (content : envelope) (s : state) :
  dict_mem LOCALTYPE content = false ->
  Run_dispatch conf DSTURL LOCALTYPE content s = (Raise (NameError "contype"), s).
Proof.
  intros Hno. unfold Run_dispatch. rewrite Hno. reflexivity.
Qed.

(** X13. Whatever a step fetches, from a cache file or from the Globus
    listing, comes back wrapped under the type tag of the step: the branch
    of [Run] for an envelope without the tag is not reached from either
    source. *)
Lemma Run_fetch_has_tag (SRCURL : url) (LOCALTYPE : string) (content : envelope)
    (s s' : state) :
  Run_fetch SRCURL LOCALTYPE s = (Ok content, s') ->
  dict_mem LOCALTYPE content = true.
Proof.
  assert (Htag : forall v : pyval, dict_mem LOCALTYPE [(LOCALTYPE, v)] = true).
  { intros v. unfold dict_mem. simpl. destruct (decide (LOCALTYPE = LOCALTYPE)); congruence. }
  unfold Run_fetch. destruct (String.eqb (scheme SRCURL) "file").
  - unfold Read_CACHE, open, exit. unfold_M.
    destruct (files s !! path SRCURL) as [f|]; [|discriminate].
    destruct (json f); [|discriminate].
    intros [= <- _]. apply Htag.
  - unfold Get_Collections, open. unfold_M.
    destruct (EXTRA_ENDPOINTS_FILE s) as [n|]; [|discriminate].
    destruct (files s !! n) as [f|]; [|discriminate].
    destruct (for_each _ _ s) as [[[]|e] s1]; [|discriminate].
    intros [= <- _]. apply Htag.
Qed.

Lemma Run_fetch_has_tag_witness :
  Run_fetch globus_url "A" listing_state
    = (Ok [("A", endpoint_search listing_state)], listing_state)
  /\ dict_mem "A" [("A", endpoint_search listing_state)] = true.
Proof.
  assert (Hrun : Run_fetch globus_url "A" listing_state
                 = (Ok [("A", endpoint_search listing_state)], listing_state))
    by (vm_compute; reflexivity).
  split; [exact Hrun|].
  exact (Run_fetch_has_tag globus_url "A" _ listing_state listing_state Hrun).
Defined.

(** C5 on the code. At the dispatch, an envelope without the type tag of
    the step raises [NameError] instead of giving the step a failing return
    code. In a run of the two steps [A] and [B] where the file of extra
    endpoints cannot be opened, the fetch of [A] raises
    [UnboundLocalError]: the run ends there, no step is finished, and [B] is
    not started. *)
Theorem Run_step_failure_aborts :
  let run := Run_once (H := example_lib) state_without_extras in
  List.length (STEPS state_without_extras) = 2%nat
  /\ Run_dispatch (H := example_lib) step_A (example_urlparse "memory:id") "A" []
       state_without_extras
     = (Raise (NameError "contype"), state_without_extras)
  /\ fst run = Raise (UnboundLocalError "content")
  /\ activities (snd run) = []
  /\ memory (snd run) = [].
Proof.
  vm_compute. repeat split.
Qed.

End Iteration.

(** *** The endpoint diff: [main] *)

Section EndpointDiff.

Lemma compare_fields_same (fields : list (string * pyval)) (registered : endpoint_doc)
    (diff : dict string diffs) (assigned : bool) (rest : list (string * pyval)) :
  same_fields fields registered ->
  compare_fields (fields ++ rest) registered diff assigned
  = compare_fields rest registered diff assigned.
Proof.
  induction fields as [|[field value] fields IH]; intros Hsame; [reflexivity|].
  cbn [app compare_fields].
  assert (Hrest : same_fields fields registered).
  { intros f v Hin. apply (Hsame f v). right. exact Hin. }
  destruct (Hsame field value (or_introl eq_refl)) as [->|(reg & Hreg & Heq)].
  - cbn. exact (IH Hrest).
  - destruct (String.eqb field "DATA"); [exact (IH Hrest)|].
    rewrite Hreg, Heq. cbn. exact (IH Hrest).
Qed.

(** One differing field gives a diff of one entry. *)
Lemma compare_fields_one (before after : list (string * pyval)) (field : string)
    (value reg : pyval) (registered : endpoint_doc) :
  field ≠ "DATA" ->
  dict_get field registered = Some reg ->
  py_eq value (teststring reg) = false ->
  same_fields before registered ->
  same_fields after registered ->
  compare_fields (before ++ (field, value) :: after) registered [] false
  = Ok ([(field, mkDiffs value reg)], true).
Proof.
  intros Hfield Hreg Hne Hbefore Hafter.
  rewrite (compare_fields_same before registered [] false _ Hbefore).
  cbn [compare_fields].
  apply String.eqb_neq in Hfield. rewrite Hfield, Hreg, Hne. cbn [negb dict_set].
  rewrite <- (app_nil_r after).
  rewrite (compare_fields_same after registered _ true [] Hafter). reflexivity.
Qed.

(** The comparison ends normally when the registered endpoint has the
    fields. *)
Lemma compare_fields_total (data : list (string * pyval)) (registered : endpoint_doc) :
  has_fields data registered ->
  forall diff assigned,
  exists diff' assigned', compare_fields data registered diff assigned = Ok (diff', assigned').
Proof.
  induction data as [|[field value] data IH]; intros Hhas diff assigned.
  - eexists _, _. reflexivity.
  - assert (Hrest : has_fields data registered).
    { intros f v Hin. apply (Hhas f v). right. exact Hin. }
    cbn [compare_fields]. destruct (String.eqb field "DATA") eqn:HD; [apply (IH Hrest)|].
    apply String.eqb_neq in HD.
    destruct (Hhas field value (or_introl eq_refl) HD) as [reg ->].
    destruct (negb (py_eq value (teststring reg))); apply (IH Hrest).
Qed.

(** What one turn of the loop does to the report and to the list of
    payloads. *)
Lemma main_step_spec (sub : string) (existing : dict string endpoint_doc)
    (key : string) (ep : published) (o o' : outcome) :
  main_step sub existing key ep o = Ok o' ->
  exists data, build_data sub ep = Ok data
  /\ (forall other, other ≠ key ->
        dict_get other (differences o') = dict_get other (differences o))
  /\ (forall d, In d (created o) -> In d (created o'))
  /\ match dict_get key existing with
     | None => In data (created o') /\ differences o' = differences o
     | Some registered =>
         created o' = created o
         /\ exists diff assigned,
              compare_fields data registered [] false = Ok (diff, assigned)
              /\ dict_get key (differences o')
                 = if assigned then Some diff else dict_get key (differences o)
     end.
Proof.
  unfold main_step. unfold_M.
  destruct (build_data sub ep) as [data|e]; [|discriminate].
  intros Hstep. exists data. split; [reflexivity|].
  destruct (dict_get key existing) as [registered|].
  - destruct (compare_fields data registered [] false) as [[diff assigned]|e];
      [|discriminate].
    injection Hstep as <-. destruct assigned; cbn.
    + split; [intros other Hne; apply dict_get_set_ne, Hne|].
      split; [tauto|]. split; [reflexivity|].
      exists diff, true. split; [reflexivity|]. apply dict_get_set_eq.
    + split; [reflexivity|]. split; [tauto|]. split; [reflexivity|].
      exists diff, false. split; reflexivity.
  - injection Hstep as <-. cbn. split; [reflexivity|].
    split; [intros d Hd; apply in_or_app; left; exact Hd|].
    split; [apply in_or_app; right; left; reflexivity | reflexivity].
Qed.

(** Later turns of the loop keep the payloads and the entries of the keys
    they do not visit. *)
Lemma main_loop_keeps (sub : string) (existing : dict string endpoint_doc)
    (published_endpoints : dict string published) :
  forall o o',
  main_loop sub existing published_endpoints o = Ok o' ->
  (forall d, In d (created o) -> In d (created o'))
  /\ (forall key, ~ In key (dict_keys published_endpoints) ->
        dict_get key (differences o') = dict_get key (differences o)).
Proof.
  induction published_endpoints as [|[key ep] rest IH]; intros o o' Hloop.
  - injection Hloop as <-. split; auto.
  - cbn [main_loop] in Hloop. unfold_M.
    destruct (main_step sub existing key ep o) as [o1|e] eqn:Hstep; [|discriminate].
    destruct (main_step_spec _ _ _ _ _ _ Hstep) as (data & _ & Hother & Hcreated & _).
    destruct (IH _ _ Hloop) as [Hc Hd]. split.
    + intros d Hin. apply Hc, Hcreated, Hin.
    + intros k Hk. cbn in Hk. rewrite Hd by tauto. apply Hother. intros ->. tauto.
Qed.

(** The loop ends normally when every payload can be built and every
    registered endpoint compared has the fields. *)
Lemma main_loop_total (sub : string) (existing : dict string endpoint_doc)
    (published_endpoints : dict string published) :
  (forall key ep, In (key, ep) published_endpoints ->
     exists data, build_data sub ep = Ok data
     /\ forall registered, dict_get key existing = Some registered ->
                           has_fields data registered) ->
  forall o, exists o', main_loop sub existing published_endpoints o = Ok o'.
Proof.
  induction published_endpoints as [|[key ep] rest IH]; intros Hok o.
  - exists o. reflexivity.
  - destruct (Hok key ep (or_introl eq_refl)) as (data & Hdata & Hhas).
    assert (Hstep : exists o1, main_step sub existing key ep o = Ok o1).
    { unfold main_step. unfold_M. rewrite Hdata.
      destruct (dict_get key existing) as [registered|]; [|eexists; reflexivity].
      destruct (compare_fields_total data registered (Hhas registered eq_refl) [] false)
        as (diff & assigned & ->).
      eexists. reflexivity. }
    destruct Hstep as [o1 Hstep].
    destruct (IH (fun k e Hin => Hok k e (or_intror Hin)) o1) as [o' Hloop].
    exists o'. cbn [main_loop]. unfold_M. rewrite Hstep. exact Hloop.
Qed.

(** The published records by key form a dictionary. *)
Lemma publish_NoDup (data : list published) :
  forall d d', NoDup (dict_keys d) -> publish data d = Ok d' -> NoDup (dict_keys d').
Proof.
  induction data as [|ep data IH]; intros d d' Hnd Hp.
  - injection Hp as <-. exact Hnd.
  - cbn [publish] in Hp. unfold_M.
    destruct (generate_endpoint_name ep) as [name|e]; [|discriminate].
    apply (IH _ _ (dict_set_NoDup _ _ _ Hnd) Hp).
Qed.

(** C8, as the code has it. Let the published endpoints form a dictionary,
    let the payload of each be buildable, and let each registered endpoint
    that is compared have every field of the payload but [DATA]. Then the
    loop of [main] ends normally; the payload of every published endpoint
    whose key is not registered is among those given to [create_endpoint];
    and for a published endpoint whose key is registered and whose payload
    differs from the registered endpoint, unwrapped, in exactly one field
    other than [DATA], the report has under that key exactly one entry,
    with the published and the registered value of that field. *)
Theorem main_loop_report (sub : string) (existing : dict string endpoint_doc)
    (published_endpoints : dict string published) (o : outcome) :
  NoDup (dict_keys published_endpoints) ->
  (forall key ep, In (key, ep) published_endpoints ->
     exists data, build_data sub ep = Ok data
     /\ forall registered, dict_get key existing = Some registered ->
                           has_fields data registered) ->
  exists o',
    main_loop sub existing published_endpoints o = Ok o'
    /\ (forall key ep data,
          In (key, ep) published_endpoints ->
          dict_get key existing = None ->
          build_data sub ep = Ok data ->
          In data (created o'))
    /\ (forall key ep registered before field value after reg,
          In (key, ep) published_endpoints ->
          dict_get key existing = Some registered ->
          build_data sub ep = Ok (before ++ (field, value) :: after)%list ->
          field ≠ "DATA" ->
          dict_get field registered = Some reg ->
          py_eq value (teststring reg) = false ->
          same_fields before registered ->
          same_fields after registered ->
          dict_get key (differences o') = Some [(field, mkDiffs value reg)]).
Proof.
  intros Hnd Hok.
  destruct (main_loop_total sub existing published_endpoints Hok o) as [o' Hloop].
  exists o'. split; [exact Hloop|].
  clear Hok. revert o o' Hnd Hloop.
  induction published_endpoints as [|[k e] rest IH]; intros o o' Hnd Hloop.
  - split; intros; contradiction.
  - cbn [dict_keys map fst] in Hnd. apply NoDup_cons in Hnd as [Hk Hnd].
    rewrite list_elem_of_In in Hk.
    cbn [main_loop] in Hloop. unfold_M.
    destruct (main_step sub existing k e o) as [o1|err] eqn:Hstep; [|discriminate].
    destruct (main_step_spec _ _ _ _ _ _ Hstep) as (data & Hdata & _ & _ & Hcase).
    destruct (main_loop_keeps _ _ _ _ _ Hloop) as [Hcreated Hdiffs].
    destruct (IH _ _ Hnd Hloop) as [IHc IHd].
    split.
    + intros key ep dat [[= -> ->]|Hin] Hnone Hbuild.
      * rewrite Hnone in Hcase. apply Hcreated. rewrite Hbuild in Hdata.
        injection Hdata as ->. apply Hcase.
      * exact (IHc key ep dat Hin Hnone Hbuild).
    + intros key ep registered before field value after reg
        [[= -> ->]|Hin] Hreg Hbuild Hfield Hf Hne Hb Ha.
      * rewrite Hreg in Hcase. destruct Hcase as (_ & diff & assigned & Hcmp & Hget).
        rewrite Hbuild in Hdata. injection Hdata as <-.
        rewrite (compare_fields_one before after field value reg registered
                   Hfield Hf Hne Hb Ha) in Hcmp.
        injection Hcmp as <- <-.
        rewrite (Hdiffs key Hk). exact Hget.
      * exact (IHd key ep registered before field value after reg
                 Hin Hreg Hbuild Hfield Hf Hne Hb Ha).
Qed.

Lemma main_loop_report_witness :
  exists o',
    main_loop "subscription-1" [(stampede2_key, stampede2_registered_name)]
      [(stampede2_key, stampede2)] (mkOutcome [] [] []) = Ok o'
    /\ dict_get stampede2_key (differences o')
       = Some [("display_name", mkDiffs (PStr "TACC Stampede2") (PStr "Stampede 2"))].
Proof.
  assert (Hnd : NoDup (dict_keys [(stampede2_key, stampede2)])).
  { apply (bool_decide_unpack _). vm_compute. exact I. }
  assert (Hok : forall key ep, In (key, ep) [(stampede2_key, stampede2)] ->
            exists data, build_data "subscription-1" ep = Ok data
            /\ forall registered,
                 dict_get key [(stampede2_key, stampede2_registered_name)] = Some registered ->
                 has_fields data registered).
  { intros key ep [[= <- <-]|[]]. exists stampede2_data. split; [reflexivity|].
    intros registered [= <-] field value Hin Hfield.
    repeat (destruct Hin as [[= <- <-]|Hin]; [vm_compute; eauto|]).
    destruct Hin. }
  destruct (main_loop_report "subscription-1"
              [(stampede2_key, stampede2_registered_name)]
              [(stampede2_key, stampede2)] (mkOutcome [] [] []) Hnd Hok)
    as (o' & Hloop & _ & Hdiff).
  exists o'. split; [exact Hloop|].
  apply (Hdiff stampede2_key stampede2 stampede2_registered_name
           (firstn 3 stampede2_data) "display_name" (PStr "TACC Stampede2")
           (skipn 4 stampede2_data) (PStr "Stampede 2")).
  - left. reflexivity.
  - reflexivity.
  - reflexivity.
  - discriminate.
  - reflexivity.
  - reflexivity.
  - intros field value Hin.
    repeat (destruct Hin as [[= <- <-]|Hin];
            [right; eexists; split; reflexivity|]).
    destruct Hin.
  - intros field value Hin.
    repeat (destruct Hin as [[= <- <-]|Hin];
            [first [left; reflexivity | right; eexists; split; reflexivity]|]).
    destruct Hin.
Defined.

(** A published endpoint, registered, with exactly one differing field and
    no entry in the report: the one field of the payload whose registered
    value is different is [DATA], which the comparison passes over. And a
    published endpoint that is not registered and for which no payload is
    built: its URL has no port, the unpacking of the split raises
    [ValueError] and [main] ends there. *)
Lemma main_loop_DATA_difference_unreported :
  let differing :=
    List.filter
      (fun kv => match dict_get (fst kv) stampede2_registered_DATA with
                 | Some reg => negb (py_eq (snd kv) (teststring reg))
                 | None => true
                 end)
      stampede2_data in
  let report :=
    main_loop "subscription-1" [(stampede2_key, stampede2_registered_DATA)]
      [(stampede2_key, stampede2)] (mkOutcome [] [] []) in
  build_data "subscription-1" stampede2 = Ok stampede2_data
  /\ map fst differing = ["DATA"]
  /\ (exists o', report = Ok o'
                 /\ dict_get stampede2_key (differences o') = None
                 /\ created o' = [])
  /\ main_loop "subscription-1" [] [(no_port_key, no_port)] (mkOutcome [] [] [])
     = Raise ValueError.
Proof.
  cbv zeta. split; [reflexivity|]. split; [reflexivity|].
  split; [|reflexivity].
  eexists. split; [reflexivity|]. split; reflexivity.
Qed.

End EndpointDiff.

(** ** Further properties *)

(** *** [Setup]: which steps are accepted *)

Section SetupVerdict.

(** X1. [Setup_step] accepts a step exactly when it is coherent: then it
    appends one resolved step; otherwise it raises ([SystemExit] with
    status 1, or the [TypeError] or [KeyError] of a malformed catalogue
    reference) and appends nothing. *)
Theorem Setup_step_verdict `{Lib} (CATALOGS : dict string stepconf) (conf : stepconf)
    (s : state) :
  exists r s',
    Setup_step CATALOGS conf s = (r, s')
    /\ ((coherent CATALOGS conf /\ r = Ok tt
         /\ exists resolved, STEPS s' = (STEPS s ++ [resolved])%list)
        \/ (~ coherent CATALOGS conf
            /\ (r = Raise (SystemExit 1) \/ r = Raise TypeError
                \/ r = Raise (KeyError "CatalogAPIURL"))
            /\ STEPS s' = STEPS s)).
Proof.
  unfold Setup_step, cfg_item, exit. unfold_M.
  destruct (dict_get "CATALOGURN" conf) as [[[| | |id| |]|]|] eqn:Hurn;
    try (eexists _, _; split; [reflexivity|]; right;
         split; [intros (i0 & c0 & a0 & d0 & Hc & _); congruence|];
         split; [tauto | destruct s; reflexivity]).
  destruct (dict_get id CATALOGS) as [myCAT|] eqn:Hcat;
    try (eexists _, _; split; [reflexivity|]; right;
         split; [intros (i0 & c0 & a0 & d0 & Hc & Hi & _); congruence|];
         split; [tauto | destruct s; reflexivity]).
  destruct (dict_get "CatalogAPIURL" myCAT) as [[[| | |api| |]|]|] eqn:Hapi;
    try (eexists _, _; split; [reflexivity|]; right;
         split; [intros (i0 & c0 & a0 & d0 & Hc & Hi & Ha & _); congruence|];
         split; [tauto | destruct s; reflexivity]).
  destruct (str_in (scheme (urlparse api)) ["file"; "http"; "https"]) eqn:Hsrc;
    cbn [negb];
    try (eexists _, _; split; [reflexivity|]; right;
         split; [intros (i0 & c0 & a0 & d0 & Hc & Hi & Ha & Hd & Hs & _); congruence|];
         split; [tauto | destruct s; reflexivity]).
  rewrite dict_get_set_ne by discriminate.
  rewrite dict_get_set_ne by discriminate.
  destruct (dict_get "DESTINATION" conf) as [[[| | |dest| |]|]|] eqn:Hdst;
    try (eexists _, _; split; [reflexivity|]; right;
         split; [intros (i0 & c0 & a0 & d0 & Hc & Hi & Ha & Hd & _); congruence|];
         split; [tauto | destruct s; reflexivity]).
  destruct (str_in (scheme (urlparse dest)) ["file"; "analyze"; "function"; "memory"])
    eqn:Hdok; cbn [negb];
    try (eexists _, _; split; [reflexivity|]; right;
         split; [intros (i0 & c0 & a0 & d0 & Hc & Hi & Ha & Hd & Hs & Hk & _); congruence|];
         split; [tauto | destruct s; reflexivity]).
  destruct (str_in (scheme (urlparse api)) ["file"] && str_in (scheme (urlparse dest)) ["file"])
    eqn:Hboth;
    try (eexists _, _; split; [reflexivity|]; right;
         split; [intros (i0 & c0 & a0 & d0 & Hc & Hi & Ha & Hd & Hs & Hk & Hb); congruence|];
         split; [tauto | destruct s; reflexivity]).
  eexists _, _. split; [reflexivity|]. left.
  split; [exists id, myCAT, api, dest; tauto|].
  split; [reflexivity|]. eexists. destruct s; reflexivity.
Qed.

(** A step that [Setup] accepts is appended resolved and runnable. *)
Lemma Setup_step_runnable `{Lib} (CATALOGS : dict string stepconf) (conf : stepconf)
    (s s' : state) :
  NoDup (dict_keys conf) ->
  Setup_step CATALOGS conf s = (Ok tt, s') ->
  exists resolved, STEPS s' = (STEPS s ++ [resolved])%list /\ runnable resolved.
Proof.
  intros Hnd. unfold Setup_step, cfg_item, exit. unfold_M.
  destruct (dict_get "CATALOGURN" conf) as [[[| | |id| |]|]|]; try discriminate.
  destruct (dict_get id CATALOGS) as [myCAT|]; try discriminate.
  destruct (dict_get "CatalogAPIURL" myCAT) as [[[| | |api| |]|]|]; try discriminate.
  destruct (str_in (scheme (urlparse api)) ["file"; "http"; "https"]) eqn:Hsrc;
    cbn [negb]; [|discriminate].
  destruct (dict_get "DESTINATION" _) as [[[| | |dest| |]|]|]; try discriminate.
  destruct (str_in (scheme (urlparse dest)) ["file"; "analyze"; "function"; "memory"])
    eqn:Hdst; cbn [negb]; [|discriminate].
  destruct (str_in (scheme (urlparse api)) ["file"] && str_in (scheme (urlparse dest)) ["file"])
    eqn:Hboth; [discriminate|].
  intros [= <-]. eexists. split; [destruct s; reflexivity|].
  exists (urlparse api), (urlparse dest).
  assert (Hnd3 : NoDup (dict_keys
            (dict_set "DSTURL" (CUrl (urlparse dest))
               (dict_set "SRCURL" (CUrl (urlparse api))
                  (dict_set "SOURCEURL" (CVal (PStr api)) conf)))))
    by auto using dict_set_NoDup.
  unfold cfg_url. rewrite !dict_get_merge by exact Hnd3.
  rewrite dict_get_set_eq.
  rewrite dict_get_set_ne by discriminate. rewrite dict_get_set_eq.
  repeat split; assumption.
Qed.

(** X2. When [Setup] succeeds on steps that are dictionaries, [self.STEPS]
    holds one resolved step per configured step, and each of them is
    runnable: it carries the parsed [SRCURL] and [DSTURL], their schemes are
    among the known ones, and they are not both [file]. *)
Theorem Setup_steps_runnable `{Lib} (CATALOGS : dict string stepconf)
    (steps : list stepconf) (s s' : state) :
  Forall (fun conf => NoDup (dict_keys conf)) steps ->
  Setup CATALOGS steps s = (Ok tt, s') ->
  List.length (STEPS s') = List.length steps /\ Forall runnable (STEPS s').
Proof.
  intros Hnd. unfold Setup. unfold_M.
  set (s0 := set_STEPS _ _).
  assert (H0 : STEPS s0 = []) by (destruct s; reflexivity).
  intros Hrun.
  enough (Hgen : forall steps s0 s',
             Forall (fun conf => NoDup (dict_keys conf)) steps ->
             for_each steps (Setup_step CATALOGS) s0 = (Ok tt, s') ->
             exists resolved,
               STEPS s' = (STEPS s0 ++ resolved)%list
               /\ List.length resolved = List.length steps
               /\ Forall runnable resolved).
  { destruct (for_each steps (Setup_step CATALOGS) s0) as [[[]|e] s2] eqn:Hfe;
      [|discriminate].
    injection Hrun as <-.
    destruct (Hgen steps s0 s2 Hnd Hfe) as (resolved & Hs & Hlen & Hall).
    rewrite Hs, H0. split; assumption. }
  clear. induction steps as [|conf steps IH]; intros s0 s' Hnd Hrun.
  - injection Hrun as <-. exists []. rewrite app_nil_r. repeat split. constructor.
  - rewrite for_each_cons in Hrun.
    destruct (Setup_step CATALOGS conf s0) as [[[]|e] s1] eqn:Hstep; [|discriminate].
    apply Forall_cons in Hnd as [Hconf Hnd].
    destruct (Setup_step_runnable _ _ _ _ Hconf Hstep) as (r1 & Hs1 & Hr1).
    destruct (IH _ _ Hnd Hrun) as (rest & Hs & Hlen & Hall).
    exists (r1 :: rest). rewrite Hs, Hs1, <- app_assoc. split; [reflexivity|].
    split; [cbn; congruence|]. constructor; assumption.
Qed.

Lemma Setup_steps_runnable_witness :
  let run := Setup (H := example_lib) example_CATALOGS [step_A; step_B] empty_state in
  Forall (fun conf => NoDup (dict_keys conf)) [step_A; step_B]
  /\ fst run = Ok tt
  /\ List.length (STEPS (snd run)) = 2%nat
  /\ Forall runnable (STEPS (snd run)).
Proof.
  assert (Hnd : Forall (fun conf => NoDup (dict_keys conf)) [step_A; step_B]).
  { repeat constructor; apply (bool_decide_unpack _); vm_compute; exact I. }
  cbv zeta. split; [exact Hnd|]. split; [reflexivity|].
  exact (Setup_steps_runnable (H := example_lib) example_CATALOGS [step_A; step_B]
           empty_state _ Hnd eq_refl).
Defined.

End SetupVerdict.

(** *** Sources and sinks of a step *)

Section SourcesAndSinks.

(** The look-ups of the extra endpoints change nothing; the loop over them
    ends normally exactly when each of them succeeds. *)
Lemma extra_endpoints_loop (ids : list string) (s s' : state) :
  for_each ids (fun ep => _ ← (fun s => (get_endpoint s ep, s)) : M pyval; ret tt) s
  = (Ok tt, s') ->
  s' = s /\ Forall (fun ep => exists v, get_endpoint s ep = Ok v) ids.
Proof.
  induction ids as [|ep ids IH]; intros Hrun.
  - injection Hrun as <-. split; [reflexivity | constructor].
  - rewrite for_each_cons in Hrun. unfold_M.
    destruct (get_endpoint s ep) as [v|e] eqn:Hep; [|discriminate].
    destruct (IH Hrun) as [-> Hall]. split; [reflexivity|].
    constructor; [exists v; exact Hep | exact Hall].
Qed.

Lemma extra_endpoints_loop_ok (ids : list string) (s : state) :
  Forall (fun ep => exists v, get_endpoint s ep = Ok v) ids ->
  for_each ids (fun ep => _ ← (fun s => (get_endpoint s ep, s)) : M pyval; ret tt) s
  = (Ok tt, s).
Proof.
  induction 1 as [|ep ids [v Hv] _ IH]; [reflexivity|].
  rewrite for_each_cons. unfold_M. rewrite Hv. exact IH.
Qed.

(** X4. When [Get_Collections] returns, the envelope holds under the type
    tag the listing of the Globus search and nothing else: the file of extra
    endpoints was opened and each of its lines was looked up with success,
    but no extra endpoint is in the result, and the state is unchanged. *)
Theorem Get_Collections_listing (u : url) (contype : string) (content : envelope)
    (s s' : state) :
  Get_Collections u contype s = (Ok content, s') ->
  s' = s
  /\ content = [(contype, endpoint_search s)]
  /\ exists name f,
       EXTRA_ENDPOINTS_FILE s = Some name
       /\ files s !! name = Some f
       /\ Forall (fun ep => exists v, get_endpoint s ep = Ok v) (splitlines (text f)).
Proof.
  unfold Get_Collections, open. unfold_M.
  destruct (EXTRA_ENDPOINTS_FILE s) as [name|] eqn:Hname; [|discriminate].
  destruct (files s !! name) as [f|] eqn:Hf; [|discriminate].
  destruct (for_each _ _ s) as [[[]|e] s1] eqn:Hloop; [|discriminate].
  intros [= <- <-].
  destruct (extra_endpoints_loop _ _ _ Hloop) as [-> Hall].
  split; [reflexivity|]. split; [reflexivity|].
  exists name, f. repeat split; assumption.
Qed.

Lemma Get_Collections_listing_witness :
  let run := Get_Collections globus_url "A" listing_state in
  fst run = Ok [("A", endpoint_search listing_state)]
  /\ snd run = listing_state.
Proof.
  cbv zeta.
  destruct (Get_Collections_listing globus_url "A"
              [("A", endpoint_search listing_state)] listing_state listing_state
              eq_refl) as (_ & _ & _).
  split; reflexivity.
Defined.

(** The converse: with the file readable and its lines known to the
    client, the listing is returned. *)
Lemma Get_Collections_ok (u : url) (contype name : string) (f : file) (s : state) :
  EXTRA_ENDPOINTS_FILE s = Some name ->
  files s !! name = Some f ->
  Forall (fun ep => exists v, get_endpoint s ep = Ok v) (splitlines (text f)) ->
  Get_Collections u contype s = (Ok [(contype, endpoint_search s)], s).
Proof.
  intros Hname Hf Hall.
  pose proof (extra_endpoints_loop_ok _ _ Hall) as Hloop.
  unfold Get_Collections, open. unfold_M.
  rewrite Hname, Hf, Hloop. reflexivity.
Qed.

(** X5. What [Write_CACHE] wrote, [Read_CACHE] gives back nested: the
    envelope written is not the envelope read, it is the value under the
    type tag of the envelope read. *)
Theorem Write_CACHE_Read_CACHE `{Lib} (name contype : string) (content : envelope)
    (s : state) :
  exists s1 s2,
    Write_CACHE name content s = (Ok (PInt 0, ""), s1)
    /\ Read_CACHE name contype s1 = (Ok [(contype, PDict content)], s2)
    /\ files s2 = <[name := mkFile (json_dumps (PDict content)) (Some (PDict content))]>
                    (files s)
    /\ forall other, other ≠ name -> files s2 !! other = files s !! other.
Proof.
  unfold Write_CACHE, Read_CACHE, open. unfold_M.
  eexists _, _. split; [reflexivity|].
  destruct s as [es ef wp mem nm hc uc st sts lg lo re rl ix fs sv rq eps ge ac].
  cbn [files set_files set_log]. rewrite lookup_insert_eq. cbn [json text].
  split; [reflexivity|]. cbn [files set_log]. split; [reflexivity|].
  intros other Hne. apply lookup_insert_ne. congruence.
Qed.

(** The frame of the loop of [Write_MEMORY]: only [self.memory] changes. *)
Lemma Write_MEMORY_loop_frame (contype conkey : string) (items : list pyval) :
  forall s s',
  for_each items (fun item =>
    try_bare
      (v ← lift (py_getitem item conkey);
       key ← lift (py_hash_key v);
       memory_store contype key item)
      (ret tt)) s = (Ok tt, s') ->
  exists f, s' = set_memory f s.
Proof.
  induction items as [|item items IH]; intros s s' Hrun.
  - injection Hrun as <-. exists (fun m => m). destruct s; reflexivity.
  - rewrite for_each_cons in Hrun. unfold try_bare at 1 in Hrun.
    unfold memory_store in Hrun. unfold_M.
    destruct (py_getitem item conkey) as [v|e]; [|exact (IH _ _ Hrun)].
    destruct (py_hash_key v) as [key|e]; [|exact (IH _ _ Hrun)].
    destruct (dict_get contype (memory s)) as [table|]; [|exact (IH _ _ Hrun)].
    destruct (IH _ _ Hrun) as [f ->]. eexists (fun m => f (_ m)).
    destruct s; reflexivity.
Qed.

(** The step from the listing to [self.memory], in the terms of the model
    (the elapsed seconds of the message are not modelled). *)
Lemma Run_step_memory_model `{Lib} (conf : stepconf) (src dst : url) (tag name : string)
    (f : file) (items : list pyval) (s : state) :
  cfg_url conf "DSTURL" = Ok dst ->
  cfg_str conf "LOCALTYPE" = Ok tag ->
  cfg_url conf "SRCURL" = Ok src ->
  String.eqb (scheme src) "file" = false ->
  scheme dst = "memory" ->
  EXTRA_ENDPOINTS_FILE s = Some name ->
  files s !! name = Some f ->
  Forall (fun ep => exists v, get_endpoint s ep = Ok v) (splitlines (text f)) ->
  endpoint_search s = PList items ->
  exists s',
    Run_step conf s = (Ok tt, s')
    /\ activities s' =
         (activities s
          ++ [mkActivity
                (application ++ ":" ++ path dst ++ ":" ++ tag ++ ":" ++ scheme src
                 ++ "->" ++ "memory")
                (PInt 0) ("Executed " ++ path dst)])%list
    /\ memory_table tag s' = fold_left (file_record (path dst)) items (memory_table tag s)
    /\ STATS s' = STATS s.
Proof.
  intros Hdst Htag Hsrc Hnofile Hmem Hname Hf Hall Hlist.
  unfold Run_step. rewrite Hdst, Htag, Hsrc.
  unfold mbind, M_bind, bind, lift. cbv beta iota.
  unfold Run_fetch. rewrite Hnofile.
  rewrite (Get_Collections_ok src tag name f s Hname Hf Hall).
  unfold Run_dispatch, dict_mem. cbn [dict_get].
  destruct (decide (tag = tag)) as [_|Hne]; [|congruence]. cbn [negb].
  rewrite Hmem. cbn [String.eqb Ascii.eqb Bool.eqb].
  unfold Write_MEMORY, envelope_item. cbn [dict_get].
  destruct (decide (tag = tag)) as [_|Hne]; [|congruence].
  rewrite Hlist. unfold_M. cbn [py_iter].
  set (s1 := set_memory (fun m => if dict_mem tag m then m else dict_set tag [] m) s).
  assert (H1 : dict_get tag (memory s1) = Some (memory_table tag s)).
  { unfold s1, memory_table, dict_mem. destruct s as [? ? ? mem]; cbn.
    destruct (dict_get tag mem) eqn:Hg; [exact Hg | apply dict_get_set_eq]. }
  destruct (Write_MEMORY_loop tag (path dst) items s1 _ H1)
    as (s2 & Hrun & Hget & _ & Hst & _).
  unfold_M. rewrite Hrun.
  destruct (Write_MEMORY_loop_frame tag (path dst) items s1 s2 Hrun) as [g Hs2].
  eexists. split; [reflexivity|].
  split; [rewrite Hs2; unfold s1; destruct s; reflexivity|].
  split.
  - unfold memory_table at 1.
    replace (memory (set_activities _ s2)) with (memory s2) by (destruct s2; reflexivity).
    rewrite Hget. reflexivity.
  - replace (STATS (set_activities _ s2)) with (STATS s2) by (destruct s2; reflexivity).
    rewrite Hst. unfold s1. destruct s; reflexivity.
Qed.

(** X6. A step with a source that is not a file and a [memory] destination:
    when the Globus listing is a list and the file of extra endpoints is
    readable, [Run_step] files every record of the listing that has the key
    field in the table of the type tag, changes no counter, and reports one
    activity with return code 0 and a message that starts with [Executed]
    and the key field. *)
Theorem Run_step_memory `{Lib} (conf : stepconf) (src dst : url) (tag name : string)
    (f : file) (items : list pyval) (s : state) :
  cfg_url conf "DSTURL" = Ok dst ->
  cfg_str conf "LOCALTYPE" = Ok tag ->
  cfg_url conf "SRCURL" = Ok src ->
  String.eqb (scheme src) "file" = false ->
  scheme dst = "memory" ->
  EXTRA_ENDPOINTS_FILE s = Some name ->
  files s !! name = Some f ->
  Forall (fun ep => exists v, get_endpoint s ep = Ok v) (splitlines (text f)) ->
  endpoint_search s = PList items ->
  exists s' message,
    Run_step conf s = (Ok tt, s')
    /\ activities s' =
         (activities s
          ++ [mkActivity
                (application ++ ":" ++ path dst ++ ":" ++ tag ++ ":" ++ scheme src
                 ++ "->" ++ "memory")
                (PInt 0) message])%list
    /\ startswith ("Executed " ++ path dst) message = true
    /\ memory_table tag s' = fold_left (file_record (path dst)) items (memory_table tag s)
    /\ STATS s' = STATS s.
Proof.
  intros Hdst Htag Hsrc Hnofile Hmem Hname Hf Hall Hlist.
  destruct (Run_step_memory_model conf src dst tag name f items s
              Hdst Htag Hsrc Hnofile Hmem Hname Hf Hall Hlist)
    as (s' & Hrun & Hact & Htable & Hst).
  exists s', ("Executed " ++ path dst)%string.
  split; [exact Hrun|]. split; [exact Hact|]. split; [|split; assumption].
  unfold startswith. generalize ("Executed " ++ path dst)%string.
  intros x. induction x as [|a x IH]; cbn; [reflexivity|].
  destruct (ascii_dec a a); [exact IH | congruence].
Qed.

Lemma Run_step_memory_witness :
  exists s',
    Run_step (H := example_lib) memory_step listing_state = (Ok tt, s')
    /\ memory_table "A" s' = [(HStr "aaaa", doc_A)]
    /\ STATS s' = STATS listing_state.
Proof.
  assert (Hall : Forall (fun ep => exists v, get_endpoint listing_state ep = Ok v)
                   (splitlines (text (mkFile "aaaa" None)))).
  { repeat constructor. exists doc_A. reflexivity. }
  destruct (Run_step_memory (H := example_lib) memory_step
              (example_urlparse "https://transfer.api.globus.org/v0.10")
              (example_urlparse "memory:id") "A" "/etc/globus/extra_endpoints"
              (mkFile "aaaa" None) [doc_A; PDict [("display_name", PStr "No id")]]
              listing_state eq_refl eq_refl eq_refl eq_refl eq_refl eq_refl eq_refl
              Hall eq_refl)
    as (s' & message & Hrun & _ & _ & Hmem & Hst).
  exists s'. split; [exact Hrun|]. split; [exact Hmem | exact Hst].
Defined.

(** X7. A step whose source is a cache file that is not JSON ends the run:
    [Run_step] logs the parse error, raises [SystemExit] with status 1,
    which no handler of the loop catches, and reports no activity. *)
Theorem Run_step_bad_cache_exits `{Lib} (conf : stepconf) (src dst : url) (tag : string)
    (f : file) (s : state) :
  cfg_url conf "DSTURL" = Ok dst ->
  cfg_str conf "LOCALTYPE" = Ok tag ->
  cfg_url conf "SRCURL" = Ok src ->
  scheme src = "file" ->
  files s !! path src = Some f ->
  json f = None ->
  exists s',
    Run_step conf s = (Raise (SystemExit 1), s')
    /\ activities s' = activities s
    /\ (exists parse_error,
          log s' = (log s ++ [(ERROR, parse_error); (ERROR, "Exiting with rc=1")])%list)
    /\ forall rest, for_each (conf :: rest) Run_step s = (Raise (SystemExit 1), s').
Proof.
  intros Hdst Htag Hsrc Hfile Hf Hj.
  assert (Hstep : exists s', Run_step conf s = (Raise (SystemExit 1), s')
            /\ activities s' = activities s
            /\ log s' = (log s ++ [(ERROR, ("Error parsing file=" ++ path src)%string);
                                   (ERROR, "Exiting with rc=1")])%list).
  { unfold Run_step. rewrite Hdst, Htag, Hsrc.
    unfold mbind, M_bind, bind, lift. cbv beta iota.
    unfold Run_fetch. rewrite Hfile. cbn [String.eqb Ascii.eqb Bool.eqb].
    unfold Read_CACHE, open, exit. unfold_M. rewrite Hf, Hj.
    eexists. split; [reflexivity|].
    destruct s; cbn. rewrite <- app_assoc. split; reflexivity. }
  destruct Hstep as (s' & Hrun & Hact & Hlog).
  exists s'. split; [exact Hrun|]. split; [exact Hact|].
  split; [eexists; exact Hlog|].
  intros rest. rewrite for_each_cons, Hrun. reflexivity.
Qed.

Lemma Run_step_bad_cache_exits_witness :
  exists s',
    Run_step (H := example_lib) cache_step listing_state = (Raise (SystemExit 1), s')
    /\ activities s' = [].
Proof.
  destruct (Run_step_bad_cache_exits (H := example_lib) cache_step
              (example_urlparse "file:/var/cache/broken.json")
              (example_urlparse "memory:id") "A" (mkFile "{" None) listing_state
              eq_refl eq_refl eq_refl eq_refl eq_refl eq_refl)
    as (s' & Hrun & Hact & _).
  exists s'. split; [exact Hrun | exact Hact].
Defined.

End SourcesAndSinks.

(** *** The sweep and the counters *)

Section SweepCounters.

(** X8. When every identifier of [cur] is also in [new], [Delete_OLD] does
    nothing at all: no row, no log record and no counter changes. *)
Theorem Delete_OLD_nothing_stale {V W} (me : string) (cur : dict string V)
    (new : dict string W) (s : state) :
  (forall id, In id (dict_keys cur) -> dict_mem id new = true) ->
  Delete_OLD me cur new s = (Ok tt, s).
Proof.
  intros Hall. unfold Delete_OLD.
  replace (List.filter (fun id => negb (dict_mem id new)) (dict_keys cur))
    with (@nil string); [reflexivity|].
  symmetry. induction (dict_keys cur) as [|id ids IH]; [reflexivity|].
  cbn [List.filter]. rewrite (Hall id (or_introl eq_refl)). cbn [negb].
  apply IH. intros id' Hin. apply Hall. right. exact Hin.
Qed.

Lemma Delete_OLD_nothing_stale_witness :
  Delete_OLD "me" [(URN_A, tt)] [(URN_B, tt); (URN_A, tt)] state_AB = (Ok tt, state_AB).
Proof.
  apply (Delete_OLD_nothing_stale "me" [(URN_A, tt)] [(URN_B, tt); (URN_A, tt)] state_AB).
  intros id [<-|[]]. reflexivity.
Defined.

Lemma Delete_OLD_one_counts (me URN : string) (s s' : state) :
  Delete_OLD_one me URN s = (Ok tt, s') ->
  forall key,
    STATS_count key s' =
      if both_rows s URN && bool_decide (key = me ++ ".Delete")
      then S (STATS_count key s) else STATS_count key s.
Proof.
  intros Hrun key.
  destruct (Delete_OLD_one_spec me URN s) as (s1 & Hs1 & _ & _ & _ & _ & _ & _ & Hst).
  rewrite Hs1 in Hrun. injection Hrun as <-.
  unfold STATS_count at 1. rewrite Hst. unfold both_rows.
  destruct (Resources s !! URN); [|reflexivity].
  destruct (Locals s !! URN); [|reflexivity].
  cbn [andb]. rewrite lookup_insert. case_decide as Hk.
  - subst key. rewrite bool_decide_eq_true_2 by reflexivity. reflexivity.
  - rewrite bool_decide_eq_false_2 by congruence. reflexivity.
Qed.

Lemma sweep_loop_counts (me : string) (l : list string) :
  forall s, NoDup l ->
  exists s', for_each l (Delete_OLD_one me) s = (Ok tt, s')
  /\ STATS_count (me ++ ".Delete") s'
     = (STATS_count (me ++ ".Delete") s + List.length (List.filter (both_rows s) l))%nat
  /\ forall key, key ≠ me ++ ".Delete" -> STATS_count key s' = STATS_count key s.
Proof.
  induction l as [|x l IH]; intros s Hnd.
  - exists s. split; [reflexivity|]. split; [cbn; lia | reflexivity].
  - apply NoDup_cons in Hnd as [Hx Hnd]. rewrite list_elem_of_In in Hx.
    destruct (Delete_OLD_one_spec me x s) as (s1 & Hs1 & _).
    destruct (IH s1 Hnd) as (s' & Hs' & Hcount & Hother).
    exists s'. rewrite for_each_cons, Hs1. split; [exact Hs'|].
    pose proof (Delete_OLD_one_counts me x s s1 Hs1) as Hone.
    assert (Hsame : List.filter (both_rows s1) l = List.filter (both_rows s) l).
    { apply List.filter_ext_in. intros u Hu.
      assert (Hne : u ≠ x) by (intros ->; exact (Hx Hu)).
      destruct (Delete_OLD_one_untouched me x u s s1 Hne Hs1) as [_ Hre Hlo _].
      unfold both_rows. rewrite Hre, Hlo. reflexivity. }
    split.
    + rewrite Hcount, Hsame, Hone. cbn [List.filter].
      rewrite bool_decide_eq_true_2 by reflexivity.
      destruct (both_rows s x); cbn; lia.
    + intros key Hk. rewrite (Hother key Hk), Hone.
      rewrite bool_decide_eq_false_2 by exact Hk.
      rewrite andb_false_r. reflexivity.
Qed.

(** X9. The [Delete] counter of [Delete_OLD] counts the complete deletions:
    for a dictionary [cur], it grows by the number of stale identifiers
    whose [ResourceV3] and [ResourceV3Local] rows were both stored, and no
    other counter changes. *)
Theorem Delete_OLD_counts {V W} (me : string) (cur : dict string V) (new : dict string W)
    (s : state) :
  NoDup (dict_keys cur) ->
  exists s', Delete_OLD me cur new s = (Ok tt, s')
  /\ STATS_count (me ++ ".Delete") s'
     = (STATS_count (me ++ ".Delete") s
        + List.length (List.filter (both_rows s) (stale cur new)))%nat
  /\ forall key, key ≠ me ++ ".Delete" -> STATS_count key s' = STATS_count key s.
Proof.
  intros Hnd. unfold Delete_OLD. apply sweep_loop_counts.
  apply NoDup_ListNoDup, List.NoDup_filter, NoDup_ListNoDup, Hnd.
Qed.

Lemma Delete_OLD_counts_witness :
  exists s',
    Delete_OLD "me" [(URN_A, tt); (URN_C, tt)] [(URN_B, tt)] state_AB = (Ok tt, s')
    /\ STATS_count ("me" ++ ".Delete") s' = 1%nat.
Proof.
  assert (Hnd : NoDup (dict_keys [(URN_A, tt); (URN_C, tt)])).
  { apply (bool_decide_unpack _). vm_compute. exact I. }
  destruct (Delete_OLD_counts "me" [(URN_A, tt); (URN_C, tt)] [(URN_B, tt)] state_AB Hnd)
    as (s' & Hrun & Hcount & _).
  exists s'. split; [exact Hrun|]. rewrite Hcount. reflexivity.
Defined.

End SweepCounters.

(** *** Reconciliation: the listing as a whole *)

Section Listing.

(** The dictionary [cur] holds the stored rows of the affiliation under the
    prefix. *)
Lemma current_Locals_keys (prefix URN : string) (tbl : gmap string ResourceV3Local) :
  In URN (dict_keys (current_Locals prefix tbl))
  <-> exists row, tbl !! URN = Some row
                  /\ L_Affiliation row = Affiliation
                  /\ startswith prefix URN = true.
Proof.
  unfold current_Locals, dict_keys. rewrite in_map_iff. split.
  - intros ([k row] & <- & Hin). apply list_elem_of_In, elem_of_map_to_list in Hin.
    apply map_lookup_filter_Some in Hin as [Hrow [Haff Hpre]].
    exists row. auto.
  - intros (row & Hrow & Haff & Hpre). exists (URN, row). split; [reflexivity|].
    apply list_elem_of_In, elem_of_map_to_list, map_lookup_filter_Some.
    split; [exact Hrow | split; assumption].
Qed.

(** X10. An empty listing sweeps the prefix: [Write_Globus_Collections]
    returns [(0, '')]; every stored [ResourceV3Local] row of the affiliation
    whose identifier starts with the URN prefix has lost its [ResourceV3]
    row, and is deleted itself when that row existed and kept when it did
    not; the rows of every other identifier, be it outside the prefix, of
    another affiliation or without a [ResourceV3Local] row, are
    unchanged. *)
Theorem Write_Globus_Collections_empty_listing `{Lib} (content : envelope)
    (contype prefix : string) (config : stepconf) (s : state) :
  envelope_item content contype = Ok (PList []) ->
  cfg_str config "URNPREFIX" = Ok prefix ->
  exists s',
    Write_Globus_Collections content contype config s = (Ok (PInt 0, ""), s')
    /\ (forall URN row,
          Locals s !! URN = Some row ->
          L_Affiliation row = Affiliation ->
          startswith prefix URN = true ->
          Resources s' !! URN = None
          /\ (is_Some (Resources s !! URN) -> Locals s' !! URN = None)
          /\ (Resources s !! URN = None -> Locals s' !! URN = Some row))
    /\ (forall URN,
          Locals s !! URN = None
          \/ startswith prefix URN = false
          \/ (exists row, Locals s !! URN = Some row
                          /\ L_Affiliation row ≠ Affiliation) ->
          Locals s' !! URN = Locals s !! URN
          /\ Resources s' !! URN = Resources s !! URN).
Proof.
  intros Hc Hp. unfold Write_Globus_Collections, Delete_OLD, Log_STEP.
  rewrite Hp. unfold_M. rewrite Hc. cbn [py_iter Write_items]. unfold_M.
  cbn [dict_mem dict_get negb].
  replace (List.filter (fun _ : string => true)
             (dict_keys (current_Locals prefix (Locals s))))
    with (dict_keys (current_Locals prefix (Locals s)))
    by (induction (dict_keys _) as [|x l IH]; [reflexivity | cbn; congruence]).
  destruct (sweep_loop me_Write_Globus_Collections
              (dict_keys (current_Locals prefix (Locals s))) s)
    as (s1 & Hrun & _ & Hsw & Hun & _).
  rewrite Hrun. eexists. split; [reflexivity|].
  destruct s1 as [es ef wp mem nm hc uc st sts lg lo re rl ix fs sv rq eps ge ac].
  cbn [Locals Resources set_log] in *. split.
  - intros URN row Hrow Haff Hpre.
    assert (Hin : In URN (dict_keys (current_Locals prefix (Locals s)))).
    { apply current_Locals_keys. exists row. auto. }
    destruct (Hsw URN Hin) as [_ _ Hres Hloc Hkept _ _ _].
    cbn [Locals Resources] in *.
    split; [exact Hres|]. split; [exact Hloc|].
    intros Hnone. rewrite (Hkept Hnone). exact Hrow.
  - intros URN Hout.
    assert (Hnot : ~ In URN (dict_keys (current_Locals prefix (Locals s)))).
    { rewrite current_Locals_keys. intros (row & Hrow & Haff & Hpre).
      destruct Hout as [Hnone|[Hno|(row' & Hrow' & Haff')]]; congruence. }
    destruct (Hun URN Hnot) as [_ Hres Hloc _]. cbn [Locals Resources] in *.
    split; assumption.
Qed.

Lemma Write_Globus_Collections_empty_listing_witness :
  exists s',
    Write_Globus_Collections (H := example_lib) [("globus_collections", PList [])]
      "globus_collections" globus_step state_AB_foreign = (Ok (PInt 0, ""), s')
    /\ Locals s' !! URN_A = None
    /\ Resources s' !! URN_B = None
    /\ Locals s' !! URN_C = Some foreign_row.
Proof.
  destruct (Write_Globus_Collections_empty_listing (H := example_lib)
              [("globus_collections", PList [])] "globus_collections"
              "urn:ogf:glue2:info.xsede.org:resource:globus:" globus_step
              state_AB_foreign eq_refl eq_refl) as (s' & Hrun & Hswept & Hkept).
  exists s'. split; [exact Hrun|]. split; [|split].
  - destruct (Hswept URN_A (local_row URN_A "aaaa" doc_A) eq_refl eq_refl eq_refl)
      as (_ & Hloc & _).
    apply Hloc. vm_compute. eexists. reflexivity.
  - destruct (Hswept URN_B (local_row URN_B "bbbb" doc_B) eq_refl eq_refl eq_refl)
      as (Hres & _).
    exact Hres.
  - destruct (Hkept URN_C) as [Hloc _]; [|exact Hloc].
    right. right. exists foreign_row. split; [reflexivity|]. discriminate.
Defined.

(** X12. An item with a display name is entered in
    [self.GLOBUS_NAME_URNMAP] under that name with its identifier, also
    when the rest of the loop body fails; the entries of other names are
    kept. *)
Theorem Write_item_notes_display_name `{Lib} (config : stepconf) (contype me : string)
    (item : pyval) (new : dict string ResourceV3Local) (URN name : string) (s : state) :
  item_GLOBALURN config item = Ok URN ->
  py_get item "display_name" PNone = Ok (PStr name) ->
  name ≠ "" ->
  let s' := snd (Write_item config contype me item new s) in
  dict_get (HStr name) (GLOBUS_NAME_URNMAP s') = Some URN
  /\ forall other, other ≠ HStr name ->
       dict_get other (GLOBUS_NAME_URNMAP s') = dict_get other (GLOBUS_NAME_URNMAP s).
Proof.
  intros HURN Hname Hne.
  assert (Hnote : note_display_name item URN s
                  = (Ok tt, set_GLOBUS_NAME_URNMAP (dict_set (HStr name) URN) s)).
  { unfold note_display_name. unfold_M. rewrite Hname. cbn [truthy].
    apply String.eqb_neq in Hne. rewrite Hne. reflexivity. }
  set (s1 := set_GLOBUS_NAME_URNMAP (dict_set (HStr name) URN) s) in *.
  assert (Hmap : GLOBUS_NAME_URNMAP
                   (snd (Write_item config contype me item new s))
                 = GLOBUS_NAME_URNMAP s1).
  { unfold Write_item. rewrite HURN.
    change (mbind ?k (lift (Ok URN)) s) with (k URN s). cbv beta.
    unfold mbind at 1, M_bind, bind. rewrite Hnote.
    unfold try_except_else at 1.
    destruct (save_local_spec config item URN s1)
      as [(e & -> & He)|(id & local & -> & _)].
    - rewrite He. unfold_M. destruct s1; reflexivity.
    - unfold try_except_else.
      destruct (save_resource_raises item id URN (set_Locals (insert URN local) s1))
        as (e & -> & ->).
      unfold_M. destruct s1; reflexivity. }
  cbv zeta. rewrite Hmap. unfold s1. destruct s; cbn. split.
  - apply dict_get_set_eq.
  - intros other Hother. apply dict_get_set_ne, Hother.
Qed.

Lemma Write_item_notes_display_name_witness :
  dict_get (HStr "Collection A")
    (GLOBUS_NAME_URNMAP
       (snd (Write_item (H := example_lib) globus_step "globus_collections" "me"
               doc_A [] empty_state)))
  = Some URN_A.
Proof.
  apply (Write_item_notes_display_name (H := example_lib) globus_step
           "globus_collections" "me" doc_A [] URN_A "Collection A" empty_state
           eq_refl eq_refl).
  discriminate.
Defined.

End Listing.

(** *** [Format_Description] *)

Section Descriptions.

Lemma String_length_0 (x : string) : (String.length x =? 0)%nat = true <-> x = "".
Proof.
  destruct x; cbn; split; intros Hx; try reflexivity; discriminate.
Qed.

Lemma FD_append_blank (value : string) (d : Format_Description) :
  rstrip_ws value = "" -> FD_append value d = d.
Proof. intros Hb. unfold FD_append. rewrite Hb. reflexivity. Qed.

Lemma FD_append_text (value : string) (d : Format_Description) :
  rstrip_ws value ≠ "" -> exists a, added (FD_append value d) = Some a /\ a ≠ "".
Proof.
  intros Hb. unfold FD_append.
  destruct (rstrip_ws value) as [|c r] eqn:Hv; [congruence|]. cbn.
  destruct (added d) as [a|]; cbn; eexists; split; try reflexivity.
  - destruct a; discriminate.
  - discriminate.
Qed.

(** Text once added stays: no call empties [added]. *)
Lemma run_call_keeps_added (c : fd_call) (d : Format_Description) (a : string) :
  added d = Some a -> a ≠ "" ->
  exists a', added (run_call d c) = Some a' /\ a' ≠ "".
Proof.
  intros Ha Hne. destruct c as [value|]; cbn.
  - unfold FD_append. destruct (0 <? String.length (rstrip_ws value))%nat eqn:Hlen.
    + rewrite Ha. cbn. eexists. split; [reflexivity|]. destruct a; [congruence|discriminate].
    + exists a. split; assumption.
  - unfold FD_blank_line. rewrite Ha.
    destruct (opt_truthy (initial d) || opt_truthy (Some a)).
    + destruct a as [|c r]; [congruence|]. cbn.
      eexists. split; [reflexivity|]. discriminate.
    + exists a. split; [exact Ha|exact Hne].
Qed.

Lemma run_calls_keep_added (calls : list fd_call) :
  forall d a, added d = Some a -> a ≠ "" ->
  exists a', added (fold_left run_call calls d) = Some a' /\ a' ≠ "".
Proof.
  induction calls as [|c calls IH]; intros d a Ha Hne; [eauto|].
  cbn [fold_left]. destruct (run_call_keeps_added c d a Ha Hne) as (a1 & Ha1 & Hne1).
  exact (IH _ a1 Ha1 Hne1).
Qed.

Lemma run_calls_keep_initial (calls : list fd_call) :
  forall d, initial (fold_left run_call calls d) = initial d.
Proof.
  induction calls as [|c calls IH]; intros d; [reflexivity|].
  cbn [fold_left]. rewrite IH. destruct c as [value|]; cbn.
  - unfold FD_append. destruct (0 <? _)%nat; [destruct (added d)|]; reflexivity.
  - unfold FD_blank_line. destruct (_ || _); [|reflexivity].
    destruct (added d) as [a|]; [destruct (negb _)|]; reflexivity.
Qed.

Lemma for_each_never_raises {A : Type} (body : A -> M unit) (l : list A) :
  (forall x s, exists s', body x s = (Ok tt, s')) ->
  forall s, exists s', for_each l body s = (Ok tt, s').
Proof.
  intros Hbody. induction l as [|x l IH]; intros s; [eexists; reflexivity|].
  rewrite for_each_cons. destruct (Hbody x s) as [s1 Hs1].
  unfold mbind, M_bind. rewrite Hs1. apply IH.
Qed.

(** Rendering gives [None] for the empty description only. *)
Lemma FD_html_None `{Lib} (ID : string) (d : Format_Description) (s : state) :
  fst (FD_html ID d s) = Ok None <-> initial d = None /\ added d = None.
Proof.
  unfold FD_html. split.
  - destruct (initial d) as [i|], (added d) as [a|]; try (intros _; split; reflexivity).
    all: destruct (formatter _) as [formatout warnings].
    all: unfold_M.
    all: destruct (negb (String.eqb warnings "")).
    all: try destruct (negb (String.eqb ID "")).
    all: cbn.
    all: try match goal with
             | |- context [for_each ?l ?b ?st] =>
                 let s1 := fresh "s1" in
                 let Hs1 := fresh "Hs1" in
                 destruct (for_each_never_raises b l) with (s := st) as [s1 Hs1];
                 [intros; eexists; reflexivity|rewrite Hs1]
             end.
    all: cbn; discriminate.
  - intros [-> ->]. reflexivity.
Qed.

(** X14. A [Format_Description] renders to [None] exactly when nothing was
    put in it: the initial value was [None] or blank, and every [append]
    brought whitespace only (the whitespace of [str.rstrip()], the no-break
    space included), however many blank lines were forced. *)
Theorem Format_Description_renders_nothing `{Lib} (value : pyval)
    (d0 : Format_Description) (calls : list fd_call) (ID : string) (s : state) :
  FD_init value = Ok d0 ->
  fst (FD_html ID (fold_left run_call calls d0) s) = Ok None
  <-> blank_value value /\ Forall blank_call calls.
Proof.
  intros Hinit. rewrite FD_html_None, run_calls_keep_initial.
  assert (Hd0 : added d0 = None /\ (initial d0 = None <-> blank_value value)).
  { destruct value as [| | | x | |]; cbn in Hinit; try discriminate.
    - injection Hinit as <-. cbn. tauto.
    - destruct (String.length (rstrip_ws x) =? 0)%nat eqn:Hlen;
        injection Hinit as <-; cbn.
      + apply String_length_0 in Hlen. tauto.
      + split; [reflexivity|]. split; [discriminate|].
        intros Hb. rewrite Hb in Hlen. discriminate. }
  destruct Hd0 as [Hadd Hini]. rewrite <- Hini. clear Hinit Hini.
  split.
  - intros [Hb Hnone]. split; [exact Hb|].
    revert d0 Hadd Hb Hnone.
    induction calls as [|c calls IH]; intros d0 Hadd Hb Hnone; [constructor|].
    cbn [fold_left] in Hnone.
    assert (Hc : blank_call c /\ run_call d0 c = d0).
    { destruct c as [v|]; cbn.
      - destruct (decide (rstrip_ws v = "")) as [Hv|Hv].
        + rewrite (FD_append_blank v d0 Hv). auto.
        + exfalso. destruct (FD_append_text v d0 Hv) as (a & Ha & Hne).
          destruct (run_calls_keep_added calls _ a Ha Hne) as (a' & Ha' & _).
          cbn in Hnone. congruence.
      - split; [exact I|]. unfold FD_blank_line. rewrite Hadd, Hb. reflexivity. }
    destruct Hc as [Hc Hsame]. constructor; [exact Hc|].
    rewrite Hsame in Hnone. exact (IH _ Hadd Hb Hnone).
  - intros [Hb Hall]. split; [exact Hb|].
    revert d0 Hadd Hb. induction Hall as [|c calls Hc Hall IH]; intros d0 Hadd Hb;
      [exact Hadd|].
    cbn [fold_left].
    assert (Hsame : run_call d0 c = d0).
    { destruct c as [v|]; cbn.
      - exact (FD_append_blank v d0 Hc).
      - unfold FD_blank_line. rewrite Hadd, Hb. reflexivity. }
    rewrite Hsame. exact (IH _ Hadd Hb).
Qed.

Lemma Format_Description_renders_nothing_witness :
  FD_init (PStr blank_description) = Ok (mkFD None None)
  /\ (fst (FD_html (H := example_lib) "id"
              (fold_left run_call [call_blank_line; call_append "  "; call_blank_line]
                 (mkFD None None)) empty_state) = Ok None
      <-> blank_value (PStr blank_description)
          /\ Forall blank_call [call_blank_line; call_append "  "; call_blank_line]).
Proof.
  split; [reflexivity|].
  exact (Format_Description_renders_nothing (H := example_lib)
           (PStr blank_description) _ _ "id" empty_state eq_refl).
Defined.

End Descriptions.

(** *** [Write_MEMORY] on envelopes that hold no list of records *)

Section MemoryEdges.

(** [Write_MEMORY] first makes sure the table of the type tag exists. *)
Lemma memory_table_created (contype : string) (s : state) :
  let s1 := set_memory
              (fun m => if dict_mem contype m then m else dict_set contype [] m) s in
  dict_get contype (memory s1) = Some (memory_table contype s)
  /\ forall t, memory_table t s1 = memory_table t s.
Proof.
  cbv zeta. unfold memory_table, dict_mem.
  destruct s as [es ef wp mem nm hc uc st sts lg lo re rl ix fs sv rq eps ge ac].
  cbn [memory set_memory].
  destruct (dict_get contype mem) as [table|] eqn:Hg; cbn.
  - split; [exact Hg | reflexivity].
  - split; [apply dict_get_set_eq|]. intros t.
    destruct (decide (t = contype)) as [->|Hne].
    + rewrite dict_get_set_eq, Hg. reflexivity.
    + rewrite dict_get_set_ne by exact Hne. reflexivity.
Qed.

(** Records that have no key leave a table as it is. *)
Lemma file_records_keyless (conkey : string) (items : list pyval)
    (table : dict hkey pyval) :
  Forall (fun item => record_key conkey item = None) items ->
  fold_left (file_record conkey) items table = table.
Proof.
  induction 1 as [|item items Hk _ IH]; [reflexivity|].
  cbn [fold_left]. unfold file_record at 2. rewrite Hk. exact IH.
Qed.

(** X15. An envelope without the type tag makes [Write_MEMORY] raise
    [KeyError] for the tag, after the table of the tag was created: the tag
    is a key of [self.memory] afterwards, and every table holds what it
    held. *)
Theorem Write_MEMORY_missing_tag (content : envelope) (contype conkey : string)
    (s : state) :
  dict_get contype content = None ->
  exists s',
    Write_MEMORY content contype conkey s = (Raise (KeyError contype), s')
    /\ dict_mem contype (memory s') = true
    /\ (forall t, memory_table t s' = memory_table t s)
    /\ STATS s' = STATS s
    /\ log s' = log s.
Proof.
  intros Hno. unfold Write_MEMORY, envelope_item. rewrite Hno. unfold_M.
  destruct (memory_table_created contype s) as [Hget Hsame].
  exists (set_memory
            (fun m => if dict_mem contype m then m else dict_set contype [] m) s).
  split; [reflexivity|].
  split; [unfold dict_mem at 1; rewrite Hget; reflexivity|].
  split; [exact Hsame|].
  destruct s; split; reflexivity.
Qed.

Lemma Write_MEMORY_missing_tag_witness :
  exists s',
    Write_MEMORY two_records "u" "k" empty_state = (Raise (KeyError "u"), s')
    /\ dict_mem "u" (memory s') = true
    /\ (forall t, memory_table t s' = memory_table t empty_state).
Proof.
  destruct (Write_MEMORY_missing_tag two_records "u" "k" empty_state eq_refl)
    as (s' & Hrun & Hmem & Hsame & _).
  exists s'. split; [exact Hrun|]. split; [exact Hmem | exact Hsame].
Defined.

(** An object under the type tag is run through by its keys, which are
    strings and have no fields: nothing is filed. *)
Lemma Write_MEMORY_object (content : envelope) (contype conkey : string)
    (d : list (string * pyval)) (s : state) :
  envelope_item content contype = Ok (PDict d) ->
  exists s',
    Write_MEMORY content contype conkey s = (Ok (PInt 0, ""), s')
    /\ (forall t, memory_table t s' = memory_table t s)
    /\ STATS s' = STATS s
    /\ log s' = log s
    /\ files s' = files s.
Proof.
  intros Hc. unfold Write_MEMORY. unfold_M. rewrite Hc. cbn [py_iter].
  set (s1 := set_memory
               (fun m => if dict_mem contype m then m else dict_set contype [] m) s).
  destruct (memory_table_created contype s) as [Hget Hsame]. fold s1 in Hget, Hsame.
  destruct (Write_MEMORY_loop contype conkey (map (fun kv => PStr (fst kv)) d) s1 _ Hget)
    as (s' & Hrun & Hget' & Hother & Hst & Hlog).
  destruct (Write_MEMORY_loop_frame contype conkey _ s1 s' Hrun) as [f Hf].
  unfold_M. rewrite Hrun.
  exists s'. split; [reflexivity|].
  rewrite file_records_keyless in Hget' by (apply Forall_map, Forall_true; reflexivity).
  split; [|split; [|split]].
  - intros t. rewrite <- Hsame. unfold memory_table.
    destruct (decide (t = contype)) as [->|Hne].
    + rewrite Hget', Hget. reflexivity.
    + rewrite (Hother t Hne). reflexivity.
  - rewrite Hst. unfold s1. destruct s; reflexivity.
  - rewrite Hlog. unfold s1. destruct s; reflexivity.
  - rewrite Hf. unfold s1. destruct s; reflexivity.
Qed.

(** Writing and reading a cache file leave [self.memory] alone. *)
Lemma Write_CACHE_Read_CACHE_memory `{Lib} (name contype : string) (content : envelope)
    (s : state) :
  exists s1 s2,
    Write_CACHE name content s = (Ok (PInt 0, ""), s1)
    /\ Read_CACHE name contype s1 = (Ok [(contype, PDict content)], s2)
    /\ memory s2 = memory s.
Proof.
  unfold Write_CACHE, Read_CACHE, open. unfold_M.
  eexists _, _. split; [reflexivity|].
  destruct s as [es ef wp mem nm hc uc st sts lg lo re rl ix fs sv rq eps ge ac].
  cbn [files set_files set_log]. rewrite lookup_insert_eq. cbn [json text].
  split; reflexivity.
Qed.

(** X16. The records a step wrote to a cache file do not reach
    [self.memory] through a later step that reads the file: [Read_CACHE]
    returns the envelope written as the value under the type tag,
    [Write_MEMORY] runs through its keys, and returns [(0, '')] with every
    table as it was. *)
Theorem Write_CACHE_then_Write_MEMORY `{Lib} (name contype conkey : string)
    (content : envelope) (s : state) :
  exists s1 cached s2 s3,
    Write_CACHE name content s = (Ok (PInt 0, ""), s1)
    /\ Read_CACHE name contype s1 = (Ok cached, s2)
    /\ Write_MEMORY cached contype conkey s2 = (Ok (PInt 0, ""), s3)
    /\ forall t, memory_table t s3 = memory_table t s.
Proof.
  destruct (Write_CACHE_Read_CACHE_memory name contype content s)
    as (s1 & s2 & Hwrite & Hread & Hmem).
  destruct (Write_MEMORY_object [(contype, PDict content)] contype conkey content s2)
    as (s3 & Hrun & Hsame & _).
  { unfold envelope_item. cbn. destruct (decide (contype = contype)); congruence. }
  exists s1, [(contype, PDict content)], s2, s3.
  split; [exact Hwrite|]. split; [exact Hread|]. split; [exact Hrun|].
  intros t. rewrite Hsame. unfold memory_table. rewrite Hmem. reflexivity.
Qed.

End MemoryEdges.

(** *** The comparison of [main]: quoted registered values *)

Section Unwrapping.

Lemma quoted_body_app (y : string) (q : ascii) :
  occurrences "010" y = 0%nat -> is_quote q = true ->
  quoted_body (y ++ String q "") = Some y.
Proof.
  intros Hlf Hq. induction y as [|a y IH]; cbn.
  - rewrite Hq. reflexivity.
  - cbn in Hlf. destruct (Ascii.eqb a "010") eqn:Ha; [discriminate|].
    assert (Hend : (String.eqb (y ++ String q "") "" || String.eqb (y ++ String q "") LF)
                   = false).
    { destruct y as [|b y]; cbn.
      - destruct (Ascii.eqb q "010") eqn:Hq'; [|reflexivity].
        apply Ascii.eqb_eq in Hq'. subst q. discriminate.
      - destruct (Ascii.eqb b "010"); [|reflexivity]. destruct y; reflexivity. }
    rewrite Hend, Bool.andb_false_r, (IH Hlf). reflexivity.
Qed.

Lemma String_length_app (x y : string) :
  String.length (x ++ y) = (String.length x + String.length y)%nat.
Proof. induction x as [|a x IH]; cbn; [reflexivity | rewrite IH; reflexivity]. Qed.

(** X17. A registered string that is [y] between two quotes is compared
    as [y] when [y] holds no line feed. So the published string [y] is not
    a difference from it, and the published string in the same quotes,
    equal to the registered one, is. *)
Theorem teststring_unwraps (q q' : ascii) (y : string) :
  is_quote q = true -> is_quote q' = true ->
  occurrences "010" y = 0%nat ->
  let reg := PStr (String q (y ++ String q' "")) in
  teststring reg = PStr y
  /\ py_eq (PStr y) (teststring reg) = true
  /\ py_eq reg (teststring reg) = false.
Proof.
  intros Hq Hq' Hlf reg.
  assert (Hy : teststring reg = PStr y).
  { unfold reg, teststring, match_quoted. cbn [py_str]. rewrite Hq.
    rewrite (quoted_body_app y q' Hlf Hq'). reflexivity. }
  rewrite Hy. split; [reflexivity|]. split.
  - cbn. apply String.eqb_refl.
  - unfold reg. cbn [py_eq]. apply String.eqb_neq. intros Heq.
    apply (f_equal String.length) in Heq. cbn [String.length] in Heq.
    rewrite String_length_app in Heq. cbn [String.length] in Heq. lia.
Qed.

Lemma teststring_unwraps_witness :
  let reg := PStr "'TACC Stampede2'" in
  teststring reg = PStr "TACC Stampede2"
  /\ py_eq (PStr "TACC Stampede2") (teststring reg) = true
  /\ py_eq reg (teststring reg) = false.
Proof.
  exact (teststring_unwraps "'" "'" "TACC Stampede2" eq_refl eq_refl eq_refl).
Defined.

Lemma pretty_N_go_head (x : N) :
  forall s a r, pretty_N_go x s = String a r ->
  is_quote a = true -> exists r', s = String a r'.
Proof.
  induction (N.lt_wf_0 x) as [x _ IH]; intros s a r Hgo Hq.
  assert (Hx : (x = 0 \/ 0 < x)%N) by lia. destruct Hx as [->|Hx].
  - rewrite pretty_N_go_0 in Hgo. eauto.
  - rewrite pretty_N_go_step in Hgo by exact Hx.
    destruct (IH (x `div` 10)%N) with (2 := Hgo) (3 := Hq) as [r' Hr'].
    + apply N.div_lt; lia.
    + exfalso. injection Hr' as <- _. revert Hq. unfold pretty_N_char.
      repeat case_match; discriminate.
Qed.

Lemma pretty_N_no_quote (x : N) : match_quoted (pretty x) = None.
Proof.
  unfold match_quoted. destruct (pretty x) as [|a r] eqn:Hp; [reflexivity|].
  destruct (is_quote a) eqn:Hq; [|reflexivity]. exfalso.
  unfold pretty, pretty_N in Hp. destruct (decide (x = 0%N)) as [->|Hx].
  - injection Hp as <- _. discriminate.
  - destruct (pretty_N_go_head x "" a r Hp Hq) as [r' Hr']. discriminate.
Qed.

Lemma pretty_Z_no_quote (n : Z) : match_quoted (pretty n) = None.
Proof.
  destruct n as [|p|p]; [reflexivity | apply (pretty_N_no_quote (Npos p)) | reflexivity].
Qed.

(** X18. Only strings are unwrapped: a registered value that is [None], a
    Boolean, a number, a list or an object is compared as it is. *)
Theorem teststring_only_strings (reg : pyval) :
  match reg with
  | PStr _ => True
  | _ => teststring reg = reg
  end.
Proof.
  destruct reg as [|[]|n| | |]; try exact I; try reflexivity.
  unfold teststring. cbn [py_str py_repr]. rewrite pretty_Z_no_quote. reflexivity.
Qed.

End Unwrapping.

(** *** The report of [main], read backwards *)

Section ReportSoundness.

(** The comparison loop, from any [diff] it has so far. *)
Lemma compare_fields_acc (data : list (string * pyval)) (registered : endpoint_doc) :
  forall diff assigned diff' assigned',
  NoDup (dict_keys data) ->
  compare_fields data registered diff assigned = Ok (diff', assigned') ->
  (forall field, ~ In field (dict_keys data) ->
     dict_get field diff' = dict_get field diff)
  /\ (forall field value, In (field, value) data ->
        if String.eqb field "DATA" then dict_get field diff' = dict_get field diff
        else exists reg, dict_get field registered = Some reg
             /\ dict_get field diff'
                = if py_eq value (teststring reg) then dict_get field diff
                  else Some (mkDiffs value reg))
  /\ (assigned' = true <->
      assigned = true
      \/ exists field value reg,
           In (field, value) data /\ field ≠ "DATA"
           /\ dict_get field registered = Some reg
           /\ py_eq value (teststring reg) = false).
Proof.
  induction data as [|[f v] data IH]; intros diff assigned diff' assigned' Hnd Hcmp.
  - injection Hcmp as <- <-. split; [reflexivity|]. split; [intros ? ? []|].
    split; [tauto|]. intros [Ha|(? & ? & ? & [] & _)]. exact Ha.
  - cbn [dict_keys map fst] in Hnd. apply NoDup_cons in Hnd as [Hf Hnd].
    rewrite list_elem_of_In in Hf. cbn [compare_fields] in Hcmp.
    assert (Hother : forall value, In (f, value) data -> False).
    { intros value Hin. apply Hf. apply in_map_iff. exists (f, value). auto. }
    destruct (String.eqb f "DATA") eqn:HD.
    + destruct (IH _ _ _ _ Hnd Hcmp) as (Hout & Hin & Hass).
      split; [|split].
      * intros field Hno. apply Hout. intros Hk. apply Hno. right. exact Hk.
      * intros field value [[= <- <-]|Hfv]; [|exact (Hin field value Hfv)].
        rewrite HD. apply Hout, Hf.
      * rewrite Hass. split; intros [Ha|(fd & val & reg & Hfv & Hne & Hrest)]; auto.
        -- right. exists fd, val, reg. split; [right; exact Hfv | auto].
        -- destruct Hfv as [[= <- <-]|Hfv].
           ++ apply String.eqb_neq in Hne. congruence.
           ++ right. exists fd, val, reg. auto.
    + destruct (dict_get f registered) as [reg|] eqn:Hreg; [|discriminate].
      destruct (py_eq v (teststring reg)) eqn:Heq; cbn [negb] in Hcmp.
      * destruct (IH _ _ _ _ Hnd Hcmp) as (Hout & Hin & Hass).
        split; [|split].
        -- intros field Hno. apply Hout. intros Hk. apply Hno. right. exact Hk.
        -- intros field value [[= <- <-]|Hfv]; [|exact (Hin field value Hfv)].
           rewrite HD. exists reg. split; [exact Hreg|]. rewrite Heq. apply Hout, Hf.
        -- rewrite Hass. split; intros [Ha|(fd & val & r & Hfv & Hne & Hr & Hpy)]; auto.
           ++ right. exists fd, val, r. split; [right; exact Hfv | auto].
           ++ destruct Hfv as [[= <- <-]|Hfv].
              ** congruence.
              ** right. exists fd, val, r. auto.
      * destruct (IH _ _ _ _ Hnd Hcmp) as (Hout & Hin & Hass).
        split; [|split].
        -- intros field Hno. rewrite Hout by (intros Hk; apply Hno; right; exact Hk).
           apply dict_get_set_ne. intros ->. apply Hno. left. reflexivity.
        -- intros field value [[= <- <-]|Hfv].
           ++ rewrite HD. exists reg. split; [exact Hreg|]. rewrite Heq.
              rewrite (Hout f Hf). apply dict_get_set_eq.
           ++ specialize (Hin field value Hfv).
              assert (Hne : field ≠ f) by (intros ->; exact (Hother value Hfv)).
              rewrite (dict_get_set_ne f field _ diff Hne) in Hin. exact Hin.
        -- rewrite Hass. split; [intros _|auto].
           right. exists f, v, reg. apply String.eqb_neq in HD.
           split; [left; reflexivity | auto].
Qed.

(** X19. The diff of one registered endpoint holds exactly the fields,
    other than [DATA], whose published value differs from the registered
    one as compared, each with the two values; and the endpoint goes in
    the report exactly when its diff is not empty. *)
Theorem compare_fields_report (data : list (string * pyval)) (registered : endpoint_doc)
    (diff : dict string diffs) (assigned : bool) :
  NoDup (dict_keys data) ->
  compare_fields data registered [] false = Ok (diff, assigned) ->
  (forall field d,
     dict_get field diff = Some d <->
     field ≠ "DATA"
     /\ In (field, Published d) data
     /\ dict_get field registered = Some (Registered d)
     /\ py_eq (Published d) (teststring (Registered d)) = false)
  /\ (assigned = true <-> diff ≠ []).
Proof.
  intros Hnd Hcmp.
  destruct (compare_fields_acc data registered [] false diff assigned Hnd Hcmp)
    as (Hout & Hin & Hass).
  assert (Hentry : forall field d,
            dict_get field diff = Some d <->
            field ≠ "DATA"
            /\ In (field, Published d) data
            /\ dict_get field registered = Some (Registered d)
            /\ py_eq (Published d) (teststring (Registered d)) = false).
  { intros field d. split.
    - intros Hget.
      destruct (in_dec string_dec field (dict_keys data)) as [Hk|Hk];
        [|rewrite (Hout field Hk) in Hget; discriminate].
      apply in_map_iff in Hk as [[f value] [Hf Hfv]]. cbn in Hf. subst f.
      specialize (Hin field value Hfv).
      destruct (String.eqb field "DATA") eqn:HD; [rewrite Hin in Hget; discriminate|].
      destruct Hin as (reg & Hreg & Hd). rewrite Hd in Hget.
      destruct (py_eq value (teststring reg)) eqn:Heq; [discriminate|].
      injection Hget as <-. cbn. apply String.eqb_neq in HD. auto.
    - intros (Hne & Hfv & Hreg & Hpy). specialize (Hin field _ Hfv).
      apply String.eqb_neq in Hne. rewrite Hne in Hin.
      destruct Hin as (reg & Hreg' & Hd). rewrite Hreg in Hreg'.
      injection Hreg' as <-. rewrite Hpy in Hd. rewrite Hd. destruct d; reflexivity. }
  split; [exact Hentry|].
  rewrite Hass. split.
  - intros [?|(field & value & reg & Hfv & Hne & Hreg & Hpy)]; [discriminate|].
    intros Hnil.
    assert (Hget : dict_get field diff = Some (mkDiffs value reg))
      by (apply Hentry; auto).
    rewrite Hnil in Hget. discriminate.
  - intros Hne. right. destruct diff as [|[field d] diff]; [congruence|].
    assert (Hget : dict_get field ((field, d) :: diff) = Some d).
    { cbn. destruct (decide (field = field)); congruence. }
    apply Hentry in Hget as (? & ? & ? & ?).
    exists field, (Published d), (Registered d). auto.
Qed.

Lemma compare_fields_report_witness :
  compare_fields stampede2_data stampede2_registered_name [] false
    = Ok ([("display_name", mkDiffs (PStr "TACC Stampede2") (PStr "Stampede 2"))], true)
  /\ (forall field d,
        dict_get field
          [("display_name", mkDiffs (PStr "TACC Stampede2") (PStr "Stampede 2"))] = Some d <->
        field ≠ "DATA"
        /\ In (field, Published d) stampede2_data
        /\ dict_get field stampede2_registered_name = Some (Registered d)
        /\ py_eq (Published d) (teststring (Registered d)) = false).
Proof.
  assert (Hnd : NoDup (dict_keys stampede2_data)).
  { apply (bool_decide_unpack _). vm_compute. exact I. }
  assert (Hcmp : compare_fields stampede2_data stampede2_registered_name [] false
                 = Ok ([("display_name",
                         mkDiffs (PStr "TACC Stampede2") (PStr "Stampede 2"))], true))
    by (vm_compute; reflexivity).
  split; [exact Hcmp|].
  exact (proj1 (compare_fields_report stampede2_data stampede2_registered_name _ true
                  Hnd Hcmp)).
Defined.

(** One turn of the loop of [main], exactly. *)
Lemma main_step_exact (sub : string) (existing : dict string endpoint_doc)
    (key : string) (ep : published) (o o' : outcome) :
  main_step sub existing key ep o = Ok o' ->
  exists data, build_data sub ep = Ok data
  /\ processed o' = (processed o ++ [ep])%list
  /\ match dict_get key existing with
     | None => created o' = (created o ++ [data])%list
               /\ differences o' = differences o
     | Some registered =>
         created o' = created o
         /\ exists diff assigned,
              compare_fields data registered [] false = Ok (diff, assigned)
              /\ differences o'
                 = if assigned then dict_set key diff (differences o) else differences o
     end.
Proof.
  unfold main_step. unfold_M. intros Hstep.
  destruct (build_data sub ep) as [data|e]; [|discriminate].
  exists data. split; [reflexivity|].
  destruct (dict_get key existing) as [registered|].
  - destruct (compare_fields data registered [] false) as [[diff assigned]|e];
      [|discriminate].
    injection Hstep as <-. destruct assigned; cbn.
    + split; [reflexivity|]. split; [reflexivity|]. exists diff, true. split; reflexivity.
    + split; [reflexivity|]. split; [reflexivity|]. exists diff, false. split; reflexivity.
  - injection Hstep as <-. cbn. repeat split.
Qed.

Lemma main_loop_sound_from (sub : string) (existing : dict string endpoint_doc)
    (published_endpoints : dict string published) :
  forall o o',
  main_loop sub existing published_endpoints o = Ok o' ->
  processed o' = (processed o ++ map snd published_endpoints)%list
  /\ (forall data, In data (created o') ->
        In data (created o)
        \/ exists key ep, In (key, ep) published_endpoints
             /\ dict_get key existing = None
             /\ build_data sub ep = Ok data)
  /\ (forall key diff, dict_get key (differences o') = Some diff ->
        dict_get key (differences o) = Some diff
        \/ exists ep registered data, In (key, ep) published_endpoints
             /\ dict_get key existing = Some registered
             /\ build_data sub ep = Ok data
             /\ compare_fields data registered [] false = Ok (diff, true)).
Proof.
  induction published_endpoints as [|[k e] rest IH]; intros o o' Hloop.
  - injection Hloop as <-. rewrite app_nil_r. auto.
  - cbn [main_loop] in Hloop. unfold_M.
    destruct (main_step sub existing k e o) as [o1|err] eqn:Hstep; [|discriminate].
    destruct (main_step_exact _ _ _ _ _ _ Hstep) as (data & Hdata & Hproc & Hcase).
    destruct (IH _ _ Hloop) as (IHp & IHc & IHd).
    split; [|split].
    + rewrite IHp, Hproc, <- app_assoc. reflexivity.
    + intros d Hd. destruct (IHc d Hd) as [H1|(key & ep & Hin & Hrest)].
      * destruct (dict_get k existing) as [registered|] eqn:Hk.
        -- destruct Hcase as [Hc _]. rewrite Hc in H1. left. exact H1.
        -- destruct Hcase as [Hc _]. rewrite Hc in H1.
           apply in_app_or in H1 as [H1|[<-|[]]]; [left; exact H1|].
           right. exists k, e. split; [left; reflexivity | auto].
      * right. exists key, ep. split; [right; exact Hin | exact Hrest].
    + intros key diff Hget.
      destruct (IHd key diff Hget) as [H1|(ep & registered & dat & Hin & Hrest)].
      * destruct (dict_get k existing) as [registered|] eqn:Hk.
        -- destruct Hcase as (_ & df & assigned & Hcmp & Hdiff). rewrite Hdiff in H1.
           destruct assigned; [|left; exact H1].
           destruct (decide (key = k)) as [->|Hne].
           ++ rewrite dict_get_set_eq in H1. injection H1 as ->.
              right. exists e, registered, data. split; [left; reflexivity | auto].
           ++ rewrite dict_get_set_ne in H1 by exact Hne. left. exact H1.
        -- destruct Hcase as [_ Hdiff]. rewrite Hdiff in H1. left. exact H1.
      * right. exists ep, registered, dat. split; [right; exact Hin | exact Hrest].
Qed.

(** X20. What [main] has done when its loop ends: every published record
    was given to [process_status_for_published_endpoint], in order; a
    payload was given to [create_endpoint] only for a published endpoint
    whose key is not registered; and every entry of the report is the diff
    of a published endpoint with the endpoint registered under its key,
    from a comparison that found a difference. *)
Theorem main_loop_sound (sub : string) (existing : dict string endpoint_doc)
    (published_endpoints : dict string published) (o' : outcome) :
  main_loop sub existing published_endpoints (mkOutcome [] [] []) = Ok o' ->
  processed o' = map snd published_endpoints
  /\ (forall data, In data (created o') ->
        exists key ep, In (key, ep) published_endpoints
          /\ dict_get key existing = None
          /\ build_data sub ep = Ok data)
  /\ (forall key diff, dict_get key (differences o') = Some diff ->
        exists ep registered data, In (key, ep) published_endpoints
          /\ dict_get key existing = Some registered
          /\ build_data sub ep = Ok data
          /\ compare_fields data registered [] false = Ok (diff, true)).
Proof.
  intros Hloop.
  destruct (main_loop_sound_from _ _ _ _ _ Hloop) as (Hp & Hc & Hd).
  split; [exact Hp|]. split.
  - intros data Hin. destruct (Hc data Hin) as [[]|Hex]. exact Hex.
  - intros key diff Hget. destruct (Hd key diff Hget) as [[=]|Hex]. exact Hex.
Qed.

Lemma main_loop_sound_witness :
  let o' := mkOutcome
              [(stampede2_key,
                [("display_name", mkDiffs (PStr "TACC Stampede2") (PStr "Stampede 2"))])]
              [] [stampede2] in
  main_loop "subscription-1" [(stampede2_key, stampede2_registered_name)]
    [(stampede2_key, stampede2)] (mkOutcome [] [] []) = Ok o'
  /\ processed o' = [stampede2]
  /\ forall data, In data (created o') ->
       exists key ep, In (key, ep) [(stampede2_key, stampede2)]
         /\ dict_get key [(stampede2_key, stampede2_registered_name)] = None
         /\ build_data "subscription-1" ep = Ok data.
Proof.
  cbv zeta.
  assert (Hloop : main_loop "subscription-1" [(stampede2_key, stampede2_registered_name)]
                    [(stampede2_key, stampede2)] (mkOutcome [] [] [])
                  = Ok (mkOutcome
                          [(stampede2_key,
                            [("display_name",
                              mkDiffs (PStr "TACC Stampede2") (PStr "Stampede 2"))])]
                          [] [stampede2]))
    by (vm_compute; reflexivity).
  split; [exact Hloop|].
  destruct (main_loop_sound _ _ _ _ Hloop) as (Hp & Hc & _).
  split; [exact Hp | exact Hc].
Defined.

End ReportSoundness.

(** *** [main], from the two listings to the report *)

Section MainKeys.

Lemma register_cons (ep : registered_endpoint) (rest : list registered_endpoint)
    (acc : dict string endpoint_doc) :
  register (ep :: rest) acc
  = (existing' ← register_servers ep (server_uris ep) acc; register rest existing').
Proof. reflexivity. Qed.

Lemma register_servers_cons (ep : registered_endpoint) (uri : pyval) (uris : list pyval)
    (acc : dict string endpoint_doc) :
  register_servers ep (uri :: uris) acc
  = if truthy uri
    then name ← (v ← py_getitem (PDict (doc ep)) "canonical_name"; as_str v);
         u ← as_str uri;
         register_servers ep uris (dict_set (name ++ u) (doc ep) acc)
    else register_servers ep uris acc.
Proof. reflexivity. Qed.

(** What one server adds: nothing, or the endpoint under its key. *)
Lemma register_server_step (ep : registered_endpoint) (uri : pyval) (uris : list pyval)
    (acc ex : dict string endpoint_doc) :
  register_servers ep (uri :: uris) acc = Ok ex ->
  (truthy uri = false /\ register_servers ep uris acc = Ok ex)
  \/ exists name u,
       truthy uri = true
       /\ dict_get "canonical_name" (doc ep) = Some (PStr name)
       /\ uri = PStr u
       /\ register_servers ep uris (dict_set (name ++ u) (doc ep) acc) = Ok ex.
Proof.
  rewrite register_servers_cons. destruct (truthy uri) eqn:Ht; [|auto].
  unfold_M. cbn [py_getitem].
  destruct (dict_get "canonical_name" (doc ep)) as [v|]; [|discriminate].
  destruct v as [| | |name| |]; try discriminate.
  destruct uri as [| | |u| |]; try discriminate.
  cbn [as_str]. intros Hrun. right. exists name, u. auto.
Qed.

Lemma register_servers_spec (ep : registered_endpoint) (uris : list pyval) :
  forall acc ex,
  register_servers ep uris acc = Ok ex ->
  (forall key, dict_mem key acc = true -> dict_mem key ex = true)
  /\ (forall uri, In uri uris -> truthy uri = true ->
        exists name u, dict_get "canonical_name" (doc ep) = Some (PStr name)
          /\ uri = PStr u /\ dict_mem (name ++ u) ex = true)
  /\ (forall key d, dict_get key ex = Some d ->
        dict_get key acc = Some d
        \/ d = doc ep
           /\ exists uri name u, In uri uris /\ truthy uri = true
                /\ dict_get "canonical_name" (doc ep) = Some (PStr name)
                /\ uri = PStr u /\ key = (name ++ u)%string).
Proof.
  induction uris as [|uri uris IH]; intros acc ex Hrun.
  - injection Hrun as <-. split; [auto|]. split; [intros ? []|auto].
  - apply register_server_step in Hrun
      as [[Ht Hrun]|(name & u & Ht & Hname & Hu & Hrun)];
      destruct (IH _ _ Hrun) as (Hkeep & Hall & Hfrom).
    + split; [exact Hkeep|]. split.
      * intros x [<-|Hin] Hx; [congruence | exact (Hall x Hin Hx)].
      * intros key d Hget. destruct (Hfrom key d Hget) as [|(Hd & x & n & v & Hin & Hr)];
          [auto|].
        right. split; [exact Hd|]. exists x, n, v. split; [right; exact Hin | exact Hr].
    + assert (Hset : forall key, dict_mem key acc = true ->
                dict_mem key (dict_set (name ++ u) (doc ep) acc) = true).
      { intros key. unfold dict_mem. rewrite dict_get_set.
        destruct (decide (key = (name ++ u)%string)); auto. }
      split; [intros key Hk; apply Hkeep, Hset, Hk|]. split.
      * intros x [<-|Hin] Hx; [|exact (Hall x Hin Hx)].
        exists name, u. split; [exact Hname|]. split; [exact Hu|].
        apply Hkeep. unfold dict_mem. rewrite dict_get_set_eq. reflexivity.
      * intros key d Hget.
        destruct (Hfrom key d Hget) as [Hacc|(Hd & x & n & v & Hin & Hr)].
        -- rewrite dict_get_set in Hacc.
           destruct (decide (key = (name ++ u)%string)) as [->|Hne]; [|auto].
           injection Hacc as <-. right. split; [reflexivity|].
           exists uri, name, u. split; [left; reflexivity | auto].
        -- right. split; [exact Hd|]. exists x, n, v.
           split; [right; exact Hin | exact Hr].
Qed.

(** The registered endpoints by key: every server with a URI puts its
    endpoint under its key, and nothing else is in the dictionary. *)
Lemma register_spec (eps : list registered_endpoint) :
  forall acc ex,
  register eps acc = Ok ex ->
  (forall key, dict_mem key acc = true -> dict_mem key ex = true)
  /\ (forall reg key, In reg eps -> serves reg key -> dict_mem key ex = true)
  /\ (forall key d, dict_get key ex = Some d ->
        dict_get key acc = Some d
        \/ exists reg, In reg eps /\ d = doc reg /\ serves reg key).
Proof.
  induction eps as [|ep eps IH]; intros acc ex Hrun.
  - injection Hrun as <-. split; [auto|]. split; [intros ? ? []|auto].
  - rewrite register_cons in Hrun. unfold_M.
    destruct (register_servers ep (server_uris ep) acc) as [acc1|e] eqn:Hs;
      [|discriminate].
    destruct (register_servers_spec _ _ _ _ Hs) as (Hkeep1 & Hall1 & Hfrom1).
    destruct (IH _ _ Hrun) as (Hkeep & Hall & Hfrom).
    split; [intros key Hk; apply Hkeep, Hkeep1, Hk|]. split.
    + intros reg key [<-|Hin] Hserves; [|exact (Hall reg key Hin Hserves)].
      destruct Hserves as (uri & name & u & Hin & Ht & Hname & Hu & ->).
      destruct (Hall1 uri Hin Ht) as (name' & u' & Hname' & Hu' & Hmem).
      rewrite Hname in Hname'. injection Hname' as <-.
      rewrite Hu in Hu'. injection Hu' as <-.
      apply Hkeep, Hmem.
    + intros key d Hget. destruct (Hfrom key d Hget) as [Hacc|(reg & Hin & Hrest)].
      * destruct (Hfrom1 key d Hacc) as [|(Hd & uri & name & u & Hr)]; [auto|].
        right. exists ep. split; [left; reflexivity|]. split; [exact Hd|].
        exists uri, name, u. exact Hr.
      * right. exists reg. split; [right; exact Hin | exact Hrest].
Qed.

Lemma dict_set_In {V : Type} (k key : string) (v x : V) (d : dict string V) :
  In (key, x) (dict_set k v d) -> (key = k /\ x = v) \/ In (key, x) d.
Proof.
  induction d as [|[k0 v0] d IH]; cbn.
  - intros [[= <- <-]|[]]. auto.
  - destruct (decide (k = k0)) as [->|Hne]; cbn.
    + intros [[= <- <-]|Hin]; auto.
    + intros [Heq|Hin]; [auto|]. destruct (IH Hin); auto.
Qed.

(** The published records by key. *)
Lemma publish_spec (data : list published) :
  forall acc pe,
  publish data acc = Ok pe ->
  forall key ep, In (key, ep) pe ->
    In (key, ep) acc
    \/ In ep data /\ exists name, generate_endpoint_name ep = Ok name
                                   /\ key = published_key name ep.
Proof.
  induction data as [|e data IH]; intros acc pe Hrun key ep Hin.
  - injection Hrun as <-. auto.
  - cbn [publish] in Hrun. unfold_M.
    destruct (generate_endpoint_name e) as [name|err] eqn:Hname; [|discriminate].
    destruct (IH _ _ Hrun key ep Hin) as [Hacc|[Hd Hex]].
    + apply dict_set_In in Hacc as [[-> ->]|Hacc]; [|auto].
      right. split; [left; reflexivity|]. exists name. split; [exact Hname | reflexivity].
    + right. split; [right; exact Hd | exact Hex].
Qed.

(** X21. What [main] has done when it ends. A payload was given to
    [create_endpoint] only for a published record whose key is not that
    of any server of an endpoint of the account; and every entry of the
    report stands under the key of a published record, which is also the
    key of a server of an endpoint of the account, and is the diff of the
    two, from a comparison that found a difference. *)
Theorem main_sound (sub : string) (data : list published)
    (endpoint_list : list registered_endpoint) (extra_file_exists : bool)
    (o' : outcome) :
  main sub data endpoint_list extra_file_exists = Ok o' ->
  (forall payload, In payload (created o') ->
     exists ep name,
       In ep data /\ generate_endpoint_name ep = Ok name
       /\ build_data sub ep = Ok payload
       /\ forall reg, In reg endpoint_list -> ~ serves reg (published_key name ep))
  /\ (forall key diff, dict_get key (differences o') = Some diff ->
        exists ep name reg payload,
          In ep data /\ generate_endpoint_name ep = Ok name
          /\ key = published_key name ep
          /\ In reg endpoint_list /\ serves reg key
          /\ build_data sub ep = Ok payload
          /\ compare_fields payload (doc reg) [] false = Ok (diff, true)).
Proof.
  unfold main. unfold_M. intros Hmain.
  destruct (publish data []) as [pe|e] eqn:Hpub; [|discriminate].
  destruct extra_file_exists; [|discriminate].
  destruct (register endpoint_list []) as [ex|e] eqn:Hreg; [|discriminate].
  destruct (main_loop_sound_from _ _ _ _ _ Hmain) as (_ & Hc & Hd).
  destruct (register_spec _ _ _ Hreg) as (_ & Hall & Hfrom).
  pose proof (publish_spec _ _ _ Hpub) as Hkeys.
  split.
  - intros payload Hin.
    destruct (Hc payload Hin) as [[]|(key & ep & Hk & Hnone & Hbuild)].
    destruct (Hkeys key ep Hk) as [[]|(Hep & name & Hname & ->)].
    exists ep, name. split; [exact Hep|]. split; [exact Hname|]. split; [exact Hbuild|].
    intros reg Hr Hserves. specialize (Hall reg _ Hr Hserves).
    unfold dict_mem in Hall. rewrite Hnone in Hall. discriminate.
  - intros key diff Hget.
    destruct (Hd key diff Hget)
      as [[=]|(ep & registered & payload & Hk & Hsome & Hbuild & Hcmp)].
    destruct (Hkeys key ep Hk) as [[]|(Hep & name & Hname & Hkey)].
    destruct (Hfrom key registered Hsome) as [[=]|(reg & Hr & -> & Hserves)].
    exists ep, name, reg, payload. auto 10.
Qed.

Lemma main_sound_witness :
  let account := [mkRegistered stampede2_registered_name
                    [PStr "gsiftp://gridftp.stampede2.tacc.xsede.org:2811"]] in
  let o' := mkOutcome
              [(stampede2_key,
                [("display_name", mkDiffs (PStr "TACC Stampede2") (PStr "Stampede 2"))])]
              [] [stampede2] in
  main "subscription-1" [stampede2] account true = Ok o'
  /\ forall key diff, dict_get key (differences o') = Some diff ->
       exists ep name reg payload,
         In ep [stampede2] /\ generate_endpoint_name ep = Ok name
         /\ key = published_key name ep
         /\ In reg account /\ serves reg key
         /\ build_data "subscription-1" ep = Ok payload
         /\ compare_fields payload (doc reg) [] false = Ok (diff, true).
Proof.
  cbv zeta.
  assert (Hmain : main "subscription-1" [stampede2]
                    [mkRegistered stampede2_registered_name
                       [PStr "gsiftp://gridftp.stampede2.tacc.xsede.org:2811"]] true
                  = Ok (mkOutcome
                          [(stampede2_key,
                            [("display_name",
                              mkDiffs (PStr "TACC Stampede2") (PStr "Stampede 2"))])]
                          [] [stampede2]))
    by (vm_compute; reflexivity).
  split; [exact Hmain|].
  exact (proj2 (main_sound _ _ _ _ _ Hmain)).
Defined.

Lemma generate_endpoint_name_raises (ep : published) (e : exn) :
  generate_endpoint_name ep = Raise e -> e = ValueError.
Proof.
  unfold generate_endpoint_name.
  destruct (split_max "." 2 (ResourceID ep)) as [|a [|b [|c [|d l]]]];
    try (intros [= <-]; reflexivity).
  repeat match goal with |- context [if ?b then _ else _] => destruct b end;
    discriminate.
Qed.

Lemma publish_short_ResourceID (data : list published) (ep : published) :
  In ep data -> (occurrences "." (ResourceID ep) < 2)%nat ->
  forall acc, publish data acc = Raise ValueError.
Proof.
  intros Hin Hshort. induction data as [|e data IH]; intros acc; [destruct Hin|].
  cbn [publish]. unfold_M.
  destruct (generate_endpoint_name e) as [name|err] eqn:Hname.
  - destruct Hin as [->|Hin]; [|exact (IH Hin _)].
    rewrite (generate_endpoint_name_short ep Hshort) in Hname. discriminate.
  - rewrite (generate_endpoint_name_raises e err Hname). reflexivity.
Qed.

(** X22. One published record whose [ResourceID] has fewer than two dots
    makes all of [main] fail with [ValueError], in its first loop: no
    endpoint is compared or created and no report is written, whatever the
    other records and the account hold. *)
Theorem main_short_ResourceID (sub : string) (data : list published)
    (endpoint_list : list registered_endpoint) (extra_file_exists : bool)
    (ep : published) :
  In ep data -> (occurrences "." (ResourceID ep) < 2)%nat ->
  main sub data endpoint_list extra_file_exists = Raise ValueError.
Proof.
  intros Hin Hshort. unfold main. unfold_M.
  rewrite (publish_short_ResourceID data ep Hin Hshort). reflexivity.
Qed.

Lemma main_short_ResourceID_witness :
  main "subscription-1"
    [stampede2; mkPublished "gsiftp://data.example.org:2811/" "example.org"
                  PNone PNone None (PInt 1)]
    [] true = Raise ValueError.
Proof.
  apply (main_short_ResourceID _ _ _ _
           (mkPublished "gsiftp://data.example.org:2811/" "example.org"
              PNone PNone None (PInt 1))).
  - right. left. reflexivity.
  - vm_compute. lia.
Defined.

End MainKeys.

(** *** [Run] and the HTTP cache *)

Section Quiet.

Lemma quiet_ret {A} (a : A) : quiet (mret a : M A).
Proof. intros s. reflexivity. Qed.

Lemma quiet_raise {A} (e : exn) : quiet (raise e : M A).
Proof. intros s. reflexivity. Qed.

Lemma quiet_lift {A} (r : result A) : quiet (lift r).
Proof. intros s. reflexivity. Qed.

Lemma quiet_gets {A} (f : state -> A) : quiet (gets f).
Proof. intros s. reflexivity. Qed.

Lemma quiet_modify (f : state -> state) :
  (forall s, http_side (f s) = http_side s) -> quiet (modify f).
Proof. intros Hf s. apply Hf. Qed.

Lemma quiet_bind {A B} (m : M A) (k : A -> M B) :
  quiet m -> (forall a, quiet (k a)) -> quiet (m ≫= k).
Proof.
  intros Hm Hk s. unfold mbind, M_bind, bind. specialize (Hm s).
  destruct (m s) as [[a|e] s1]; cbn in *; [|exact Hm].
  rewrite (Hk a s1). exact Hm.
Qed.

Lemma quiet_try_except_else {A B} (m : M A) (h : exn -> M B) (k : A -> M B) :
  quiet m -> (forall e, quiet (h e)) -> (forall a, quiet (k a)) ->
  quiet (try_except_else m h k).
Proof.
  intros Hm Hh Hk s. unfold try_except_else. specialize (Hm s).
  destruct (m s) as [[a|e] s1]; cbn in *.
  - rewrite (Hk a s1). exact Hm.
  - destruct (is_Exception e); [rewrite (Hh e s1)|]; exact Hm.
Qed.

Lemma quiet_try_bare {A} (m h : M A) : quiet m -> quiet h -> quiet (try_bare m h).
Proof.
  intros Hm Hh s. unfold try_bare. specialize (Hm s).
  destruct (m s) as [[a|e] s1]; cbn in *; [exact Hm|].
  rewrite (Hh s1). exact Hm.
Qed.

Lemma quiet_for_each {A} (l : list A) (body : A -> M unit) :
  (forall x, quiet (body x)) -> quiet (for_each l body).
Proof.
  intros Hbody. induction l as [|x l IH]; [apply quiet_ret|].
  cbn [for_each]. apply quiet_bind; [apply Hbody | intros _; exact IH].
Qed.

Ltac quiet_tac :=
  repeat first
    [ apply quiet_ret | apply quiet_raise | apply quiet_lift | apply quiet_gets
    | apply quiet_bind; [|intros]
    | apply quiet_modify; intros []; reflexivity
    | apply quiet_for_each; intros
    | apply quiet_try_except_else; [|intros|intros]
    | apply quiet_try_bare
    | progress unfold logger, STATS_update, exit, try_except, open
    | match goal with
      | |- quiet (match ?x with _ => _ end) => destruct x
      end
    | solve [intros s; reflexivity] ].

Lemma quiet_Read_CACHE (name contype : string) : quiet (Read_CACHE name contype).
Proof. unfold Read_CACHE. quiet_tac. Qed.

Lemma quiet_Get_Collections (u : url) (contype : string) :
  quiet (Get_Collections u contype).
Proof. unfold Get_Collections. quiet_tac. Qed.

Lemma quiet_Write_CACHE `{Lib} (name : string) (content : envelope) :
  quiet (Write_CACHE name content).
Proof. unfold Write_CACHE. quiet_tac. Qed.

Lemma quiet_Write_MEMORY (content : envelope) (contype conkey : string) :
  quiet (Write_MEMORY content contype conkey).
Proof. unfold Write_MEMORY, memory_store. quiet_tac. Qed.

Lemma quiet_Delete_OLD {V W} (me : string) (cur : dict string V) (new : dict string W) :
  quiet (Delete_OLD me cur new).
Proof.
  unfold Delete_OLD. apply quiet_for_each. intros URN.
  unfold Delete_OLD_one, Index_get_delete, Relation_filter_delete, Resource_get_delete,
    Local_get_delete.
  quiet_tac.
Qed.

Lemma quiet_FD_html `{Lib} (ID : string) (d : Format_Description) : quiet (FD_html ID d).
Proof. unfold FD_html. quiet_tac. Qed.

Lemma quiet_save_resource `{Lib} (item : pyval) (id myGLOBALURN : string) :
  quiet (save_resource item id myGLOBALURN).
Proof.
  unfold save_resource.
  repeat first
    [ apply quiet_FD_html
    | apply quiet_ret | apply quiet_lift | apply quiet_gets
    | apply quiet_bind; [|intros]
    | apply quiet_modify; intros []; reflexivity
    | match goal with
      | |- quiet (match ?x with _ => _ end) => destruct x
      end ].
Qed.

Lemma quiet_Write_item `{Lib} (config : stepconf) (contype me : string) (item : pyval)
    (new : dict string ResourceV3Local) :
  quiet (Write_item config contype me item new).
Proof.
  unfold Write_item, note_display_name, save_local.
  repeat first
    [ apply quiet_save_resource
    | apply quiet_ret | apply quiet_lift | apply quiet_gets
    | apply quiet_bind; [|intros]
    | apply quiet_modify; intros []; reflexivity
    | apply quiet_try_except_else; [|intros|intros]
    | progress unfold logger, STATS_update
    | match goal with
      | |- quiet (match ?x with _ => _ end) => destruct x
      end ].
Qed.

Lemma quiet_Write_items `{Lib} (config : stepconf) (contype me : string)
    (items : list pyval) :
  forall new, quiet (Write_items config contype me items new).
Proof.
  induction items as [|item items IH]; intros new; cbn [Write_items].
  - apply quiet_ret.
  - apply quiet_bind; [apply quiet_Write_item|]. intros [new'|rc message].
    + apply IH.
    + apply quiet_ret.
Qed.

Lemma quiet_Write_Globus_Collections `{Lib} (content : envelope) (contype : string)
    (config : stepconf) :
  quiet (Write_Globus_Collections content contype config).
Proof.
  unfold Write_Globus_Collections.
  repeat first
    [ apply quiet_Write_items | apply quiet_Delete_OLD
    | apply quiet_ret | apply quiet_lift | apply quiet_gets
    | apply quiet_bind; [|intros]
    | apply quiet_modify; intros []; reflexivity
    | progress unfold logger, Log_STEP
    | match goal with
      | |- quiet (match ?x with _ => _ end) => destruct x
      end ].
Qed.

Lemma quiet_Run_step `{Lib} (conf : stepconf) : quiet (Run_step conf).
Proof.
  unfold Run_step, Run_fetch, Run_dispatch, call_method, Analyze_CONTENT.
  repeat first
    [ apply quiet_Write_Globus_Collections | apply quiet_Write_MEMORY
    | apply quiet_Write_CACHE | apply quiet_Read_CACHE | apply quiet_Get_Collections
    | apply quiet_ret | apply quiet_raise | apply quiet_lift | apply quiet_gets
    | apply quiet_bind; [|intros]
    | apply quiet_modify; intros []; reflexivity
    | match goal with
      | |- quiet (match ?x with _ => _ end) => destruct x
      end ].
Qed.

(** X23. [Run] does not go through [Get_HTTP]: whatever the steps are
    and however the iteration ends, it sends no GET request, and the cache
    of [Get_HTTP] and the use counts that [Setup] took for it are after the
    iteration what they were before. *)
Theorem Run_once_quiet `{Lib} (s : state) :
  let s' := snd (Run_once s) in
  requests s' = requests s
  /\ HTTP_CACHE s' = HTTP_CACHE s
  /\ URL_USE_COUNT s' = URL_USE_COUNT s.
Proof.
  assert (Hq : quiet Run_once).
  { unfold Run_once, Run_iteration.
    apply quiet_bind; [|intros; apply quiet_ret].
    apply quiet_bind; [apply quiet_modify; intros []; reflexivity|]. intros _.
    apply quiet_bind; [apply quiet_gets|]. intros steps.
    apply quiet_bind; [apply quiet_for_each, quiet_Run_step|]. intros _.
    apply quiet_modify. intros []. reflexivity. }
  cbv zeta. specialize (Hq s). unfold http_side in Hq.
  injection Hq as Hr Hc Hu. auto.
Qed.

End Quiet.
